(** * DepScope: the scoring and aggregation engine, verified

    A shallow embedding of the scoring core of DepScope (a dependency health
    checker for npm projects) and the theorems that settle its specification.

    Source files embedded here:
    - [src/lib/score.js]: [calculateScore], [calculateGrade],
      [calculateProjectScore];
    - [src/lib/npm-api.js]: the trend computation of [getDownloadTrend];
    - [src/index.js]: [analyzePackage], [analyzeProject];
    - [src/lib/cache.js] and the fetch layer of [src/lib/npm-api.js]:
      [get], [set], [clear], [cachedFetch] and the three endpoints;
    - [src/analyzers/*.js]: [analyzeMaintenance], [analyzeSize],
      [formatBytes], [analyzePopularity], [analyzeSecurity], [getAlternative];
    - [src/cli.js]: the exit code of [run];
    - [src/reporters/json.js]: [buildOutput], [formatDep], [buildSummary];
    - [src/reporters/terminal.js]: [pad], [scoreBar].

    How JavaScript values are represented.
    - Objects are records whose fields are [option]s: [None] is a property that
      is missing ([undefined]) or [null].  Field types follow the JSDoc
      annotations of the analyzers ([number], [string]).
    - Download counts, byte sizes, day counts and scores are integral doubles
      far below 2^53, on which addition and comparison of doubles are exact:
      they are [JS.number], an integer of [Z] or one of [NaN], [Infinity],
      [-Infinity].
    - The weighted sums of [calculateProjectScore] are multiples of 1/2 and
      therefore exact doubles as well; they are rationals of [Q].  The
      quotient is then rounded by the double division, but a quotient of two
      such sums that is not a half-integer stays at least
      [1 / (4 * totalWeight)] away from every half-integer, far more than one
      unit in the last place for any array a program can hold, so
      [Math.round] sees the same side of the tie as on the exact quotient.
    - The trend percentage of [getDownloadTrend] is a rounded binary64
      quotient; that function is embedded on the kernel's binary64 floats.
    - A promise is represented by its settled outcome ([JS.Settled]); the
      registry, the cache and the four signal extractors are the external
      collaborators of the orchestrator and appear as a record of services. *)

From Stdlib Require Import ZArith QArith Qround Floats List String Bool Lia.
From Stdlib Require Import Ascii Arith Permutation Sorted DecimalString.
Import ListNotations.

Open Scope Z_scope.
Open Scope string_scope.

(** ** JavaScript values and operators *)

Module JS.

(** A JavaScript number holding an integral value, or one of the three
    special values. *)
Inductive number : Type :=
| NaN
| Infinity
| NegInfinity
| Int (z : Z).

(** ToBoolean on numbers: [0] and [NaN] are falsy. *)
Definition truthy (n : number) : bool :=
  match n with
  | NaN => false
  | Int 0 => false
  | _ => true
  end.

(** [x || 0], where [x] is a number property that may be missing. *)
Definition or_zero (x : option number) : number :=
  match x with
  | Some n => if truthy n then n else Int 0
  | None => Int 0
  end.

(** [a > c] and [a < c] against an integer literal [c]. *)
Definition gt (a : number) (c : Z) : bool :=
  match a with
  | NaN => false
  | Infinity => true
  | NegInfinity => false
  | Int z => (c <? z)%Z
  end.

Definition lt (a : number) (c : Z) : bool :=
  match a with
  | NaN => false
  | Infinity => false
  | NegInfinity => true
  | Int z => (z <? c)%Z
  end.

(** [a === c] against an integer literal. *)
Definition eq_lit (a : number) (c : Z) : bool :=
  match a with
  | Int z => (z =? c)%Z
  | _ => false
  end.

(** [s === 'lit'] where [s] is a string property that may be missing. *)
Definition str_eq (s : option string) (lit : string) : bool :=
  match s with
  | Some v => String.eqb v lit
  | None => false
  end.

(** The reason a promise was rejected with: [None] is a falsy reason, and
    [message] is the reason's [message] property. *)
Record Error : Type := { message : option string }.

(** One element of what [Promise.allSettled] resolves to; also the outcome
    of awaiting a single promise. *)
Inductive Settled (A : Type) : Type :=
| fulfilled (value : A)
| rejected (reason : option Error).

Arguments fulfilled {A} value.
Arguments rejected {A} reason.

End JS.

Declare Scope js_scope.
Notation "a '>' c" := (JS.gt a c) (at level 70, no associativity) : js_scope.
Notation "a '<' c" := (JS.lt a c) (at level 70, no associativity) : js_scope.
Notation "a '===' c" := (JS.str_eq a c) (at level 70, no associativity) : js_scope.
Delimit Scope js_scope with js.

(** ** The result shapes (INTERFACES.md, as built by [src/index.js]) *)

Module Shape.

Record Maintenance : Type := {
  lastPublish : option string;
  daysSincePublish : option JS.number;
  status : option string
}.

Record Popularity : Type := {
  weeklyDownloads : option JS.number;
  trend : option string;
  trendPercent : option float
}.

Record Size : Type := {
  unpackedSize : option JS.number;
  unpackedSizeHuman : option string
}.

Record Security : Type := {
  vulnerabilities : option JS.number;
  severity : option string
}.

End Shape.

Module Alternative.
Record t : Type := { name : option string; reason : option string }.
End Alternative.

(** The object [analyzePackage] builds, and the smaller one [analyzeProject]
    substitutes for an analysis that was rejected. *)
Record AnalysisResult : Type := {
  name : option string;
  version : option string;
  latestVersion : option string;
  maintenance : option Shape.Maintenance;
  popularity : option Shape.Popularity;
  size : option Shape.Size;
  security : option Shape.Security;
  alternative : option Alternative.t;
  score : option Z;
  grade : option string;
  error : option string
}.

(** The empty object [{}]. *)
Definition empty_result : AnalysisResult :=
  {| name := None; version := None; latestVersion := None;
     maintenance := None; popularity := None; size := None; security := None;
     alternative := None; score := None; grade := None; error := None |}.

(** ** [src/lib/score.js] *)

Module Score.
Import Shape.

(** [// Maintenance (30 points)] *)
Definition maintenanceStep (analysisResult : AnalysisResult) (score : Z) : Z :=
  match maintenance analysisResult with
  | Some m =>
      if (status m === "active")%js then score + 30
      else if (status m === "stale")%js then score + 15
      else score
  | None => score
  end.

(** [// Popularity (20 points)] *)
Definition popularityStep (analysisResult : AnalysisResult) (score : Z) : Z :=
  match popularity analysisResult with
  | Some p =>
      let dl := JS.or_zero (weeklyDownloads p) in
      if (dl > 1000000)%js then score + 20
      else if (dl > 100000)%js then score + 15
      else if (dl > 10000)%js then score + 10
      else if (dl > 1000)%js then score + 5
      else score
  | None => score
  end.

(** [// Size (15 points)] *)
Definition sizeStep (analysisResult : AnalysisResult) (score : Z) : Z :=
  match size analysisResult with
  | Some s =>
      let bytes := JS.or_zero (unpackedSize s) in
      if JS.eq_lit bytes 0 then score + 8
      else if (bytes < 100 * 1024)%js then score + 15
      else if (bytes < 500 * 1024)%js then score + 12
      else if (bytes < 1024 * 1024)%js then score + 8
      else if (bytes < 5 * 1024 * 1024)%js then score + 4
      else score
  | None => score
  end.

(** [// Security (25 points)] *)
Definition securityStep (analysisResult : AnalysisResult) (score : Z) : Z :=
  match security analysisResult with
  | Some s =>
      let sev := severity s in
      if (sev === "none")%js then score + 25
      else if (sev === "low")%js then score + 15
      else if (sev === "moderate")%js then score + 8
      else if (sev === "high")%js then score + 2
      else score
  | None => score
  end.

(** [// Trend (10 points)] *)
Definition trendStep (analysisResult : AnalysisResult) (score : Z) : Z :=
  match popularity analysisResult with
  | Some p =>
      let trend := trend p in
      if (trend === "growing")%js then score + 10
      else if (trend === "stable")%js then score + 7
      else if (trend === "declining")%js then score + 2
      else score
  | None => score
  end.

Definition calculateScore (analysisResult : AnalysisResult) : Z :=
  let score := 0 in
  let score := maintenanceStep analysisResult score in
  let score := popularityStep analysisResult score in
  let score := sizeStep analysisResult score in
  let score := securityStep analysisResult score in
  let score := trendStep analysisResult score in
  Z.max 0 (Z.min 100 score).

Definition calculateGrade (score : Z) : string :=
  if (80 <=? score)%Z then "A"
  else if (60 <=? score)%Z then "B"
  else if (40 <=? score)%Z then "C"
  else if (20 <=? score)%Z then "D"
  else "F".

(** [Math.round] on an exact rational: the nearest integer, a tie going
    towards plus infinity. *)
Definition Math_round (x : Q) : Z := Qfloor (x + (1 # 2)).

(** [typeof r.score === 'number' ? r.score : 0] *)
Definition scoreOf (r : AnalysisResult) : Z :=
  match score r with
  | Some s => s
  | None => 0
  end.

(** One turn of a [for (const r of ...)] loop, on the pair
    [(weightedSum, totalWeight)]. *)
Definition accumulate (weight : Q) (acc : Q * Q) (r : AnalysisResult) : Q * Q :=
  let '(weightedSum, totalWeight) := acc in
  let s := scoreOf r in
  (weightedSum + inject_Z s * weight, totalWeight + weight)%Q.

Definition calculateProjectScore (results devResults : list AnalysisResult) : Z :=
  let prodWeight := 1%Q in
  let devWeight := (1 # 2)%Q in
  let acc := (0%Q, 0%Q) in
  let acc := fold_left (accumulate prodWeight) results acc in
  let acc := fold_left (accumulate devWeight) devResults acc in
  let '(weightedSum, totalWeight) := acc in
  if Qeq_bool totalWeight 0 then 0
  else Math_round (weightedSum / totalWeight).

End Score.

(** ** [src/lib/npm-api.js]: the download trend *)

Module NpmApi.
Open Scope float_scope.

(** One element of the [downloads] array of the range API. *)
Record DayCount : Type := { day : string; downloads : float }.

(** The parsed answer of the range API; [None] stands for an answer whose
    [downloads] property is missing or is not an array. *)
Module Range.
Record t : Type := { downloads : option (list DayCount) }.
End Range.

Record Trend : Type := {
  recent : float;
  sixMonthsAgo : float;
  trend : string;
  percent : float
}.

(** [arr.slice(-n)] and [arr.slice(start, stop)]. *)
Definition slice_last {A : Type} (n : nat) (arr : list A) : list A :=
  skipn (List.length arr - n)%nat arr.

Definition slice {A : Type} (start stop : nat) (arr : list A) : list A :=
  firstn (stop - start)%nat (skipn start arr).

(** [days.reduce((sum, d) => sum + d.downloads, 0)] *)
Definition total (days : list DayCount) : float :=
  fold_left (fun sum d => sum + downloads d) days 0.

(** The double that holds the integer [n], for [|n| < 2^53]. *)
Definition of_Z (n : Z) : float :=
  match n with
  | Z0 => 0
  | Zpos p => of_uint63 (Uint63.of_Z (Zpos p))
  | Zneg p => - of_uint63 (Uint63.of_Z (Zpos p))
  end.

(** [Math.round] on a double: the integer nearest to [x], a tie going
    towards plus infinity; [NaN], the infinities, the zeros and the integral
    doubles are returned as they are, and a result of zero keeps the sign of
    [x].  A finite [x] is [+/- m * 2^e]; when [e < 0] the result is
    [floor (x + 1/2)], computed on integers. *)
Definition Math_round (x : float) : float :=
  match Prim2SF x with
  | S754_finite s m e =>
      if (0 <=? e)%Z then x
      else
        let sm := if s then Zneg m else Zpos m in
        let n := ((2 * sm + 2 ^ (- e)) / 2 ^ (1 - e))%Z in
        if (n =? 0)%Z then (if s then -0 else 0) else of_Z n
  | _ => x
  end.

(** The body of [getDownloadTrend] after the fetch: [data] is what
    [cachedFetch] returned ([None] for [null]). *)
Definition getDownloadTrend (data : option Range.t) : option Trend :=
  match data with
  | None => None
  | Some d =>
      match Range.downloads d with
      | None => None
      | Some downloads =>
          (* Get recent 7 days total *)
          let recentDays := slice_last 7 downloads in
          let recent := total recentDays in
          (* Get 7 days from ~6 months ago (offset by ~182 days) *)
          let sixMonthOffset :=
            Z.to_nat (Z.max 0 (Z.of_nat (List.length downloads) - 182 - 7))%Z in
          let oldDays := slice sixMonthOffset (sixMonthOffset + 7)%nat downloads in
          let sixMonthsAgo := total oldDays in
          (* Calculate trend *)
          let '(trend, percent) :=
            if 0 <? sixMonthsAgo then
              let percent := ((recent - sixMonthsAgo) / sixMonthsAgo) * 100 in
              let percent := Math_round (percent * 10) / 10 in
              if 10 <? percent then ("growing"%string, percent)
              else if percent <? -10 then ("declining"%string, percent)
              else ("stable"%string, percent)
            else if 0 <? recent then ("growing"%string, 100)
            else ("stable"%string, 0) in
          Some {| recent := recent; sixMonthsAgo := sixMonthsAgo;
                  trend := trend; percent := percent |}
      end
  end.

End NpmApi.

(** ** [src/index.js]: the orchestrator *)

Module Index.
Import JS.

(** [packageInfo['dist-tags']] *)
Record DistTags : Type := { latest : option string }.

(** The external collaborators of [analyzePackage].  Each asynchronous call
    is given by the settled outcome of its promise; [getPackageInfo]
    fulfils with [None] for [null] (not found, network error, timeout).
    [cache.clear()] only changes what the registry calls answer and is not
    represented apart from them. *)
Record Services : Type := {
  PackageInfo : Type;
  dist_tags : PackageInfo -> option DistTags;
  getPackageInfo : string -> Settled (option PackageInfo);
  analyzeMaintenance : PackageInfo -> Settled Shape.Maintenance;
  analyzePopularity : string -> Settled Shape.Popularity;
  analyzeSize : PackageInfo -> Settled Shape.Size;
  analyzeSecurity : string -> string -> Settled Shape.Security;
  getAlternative : string -> option Alternative.t
}.

Record AnalyzeOptions : Type := { noCache : option bool }.

(** The defaults used for an extractor that failed, and for every signal
    of a package that was not found. *)
Definition defaultMaintenance : Shape.Maintenance :=
  {| Shape.lastPublish := Some "unknown";
     Shape.daysSincePublish := Some Infinity;
     Shape.status := Some "abandoned" |}.

Definition defaultPopularity : Shape.Popularity :=
  {| Shape.weeklyDownloads := Some (Int 0);
     Shape.trend := Some "stable";
     Shape.trendPercent := Some 0%float |}.

Definition defaultSize : Shape.Size :=
  {| Shape.unpackedSize := Some (Int 0);
     Shape.unpackedSizeHuman := Some "unknown" |}.

Definition defaultSecurity : Shape.Security :=
  {| Shape.vulnerabilities := Some (Int 0);
     Shape.severity := Some "none" |}.

(** [results[i].status === 'fulfilled' ? results[i].value : fallback] *)
Definition valueOr {A : Type} (r : Settled A) (fallback : A) : A :=
  match r with
  | fulfilled value => value
  | rejected _ => fallback
  end.

(** [(packageInfo['dist-tags'] && packageInfo['dist-tags'].latest) || 'unknown'];
    the empty string is falsy. *)
Definition latestOr (tags : option DistTags) (fallback : string) : string :=
  match tags with
  | Some t =>
      match latest t with
      | Some v => if String.eqb v "" then fallback else v
      | None => fallback
      end
  | None => fallback
  end.

Definition analyzePackage (S : Services) (name version : string)
    (options : AnalyzeOptions) : Settled AnalysisResult :=
  (* Fetch package metadata *)
  match getPackageInfo S name with
  | rejected reason => rejected reason
  | fulfilled None =>
      (* Package not found or network error *)
      fulfilled
        {| name := Some name;
           version := Some version;
           latestVersion := Some "unknown";
           maintenance := Some defaultMaintenance;
           popularity := Some defaultPopularity;
           size := Some defaultSize;
           security := Some defaultSecurity;
           alternative := getAlternative S name;
           score := Some 0;
           grade := Some "F";
           error := Some "Package not found or network error" |}
  | fulfilled (Some packageInfo) =>
      let latestVersion := latestOr (dist_tags S packageInfo) "unknown" in
      (* Run all analyzers concurrently *)
      let results0 := analyzeMaintenance S packageInfo in
      let results1 := analyzePopularity S name in
      let results2 := analyzeSize S packageInfo in
      let results3 := analyzeSecurity S name version in
      (* Extract results, using defaults for any that failed *)
      let maintenance := valueOr results0 defaultMaintenance in
      let popularity := valueOr results1 defaultPopularity in
      let size := valueOr results2 defaultSize in
      let security := valueOr results3 defaultSecurity in
      let alternative := getAlternative S name in
      (* Build the analysis result *)
      let analysisResult :=
        {| name := Some name;
           version := Some version;
           latestVersion := Some latestVersion;
           maintenance := Some maintenance;
           popularity := Some popularity;
           size := Some size;
           security := Some security;
           alternative := alternative;
           score := None;
           grade := None;
           error := None |} in
      (* Calculate score and grade *)
      let score := Score.calculateScore analysisResult in
      let grade := Score.calculateGrade score in
      fulfilled
        {| name := Some name;
           version := Some version;
           latestVersion := Some latestVersion;
           maintenance := Some maintenance;
           popularity := Some popularity;
           size := Some size;
           security := Some security;
           alternative := alternative;
           score := Some score;
           grade := Some grade;
           error := None |}
  end.

(** The parsed [package.json]: each dependency table is given by its
    [Object.entries], the name and version-constraint pairs in the order
    the object enumerates them. *)
Module Manifest.
Record t : Type := {
  dependencies : option (list (string * string));
  devDependencies : option (list (string * string))
}.
End Manifest.

Record ProjectOptions : Type := {
  includeDev : option bool;
  useCache : option bool
}.

Module Project.
Record t : Type := {
  dependencies : list AnalysisResult;
  devDependencies : list AnalysisResult;
  projectScore : Z;
  projectGrade : string
}.
End Project.

(** [arr.map((r, i) => f(r, i))], counting from [i]. *)
Fixpoint mapi_from {A B : Type} (f : A -> nat -> B) (i : nat) (arr : list A) : list B :=
  match arr with
  | [] => []
  | r :: rest => f r i :: mapi_from f (Datatypes.S i) rest
  end.

Definition mapi {A B : Type} (f : A -> nat -> B) (arr : list A) : list B :=
  mapi_from f 0 arr.

(** The callback of [prodSettled.map] and [devSettled.map]. *)
Definition settledResult (entries : list (string * string))
    (r : Settled AnalysisResult) (i : nat) : AnalysisResult :=
  match r with
  | fulfilled value => value
  | rejected reason =>
      {| name := option_map fst (nth_error entries i);
         version := option_map snd (nth_error entries i);
         latestVersion := None;
         maintenance := None;
         popularity := None;
         size := None;
         security := None;
         alternative := None;
         score := Some 0;
         grade := Some "F";
         error := match reason with
                  | Some e => message e
                  | None => Some "Analysis failed"
                  end |}
  end.

(** Analyze one dependency table concurrently: map every entry to its
    promise, settle them all, and turn every outcome into a result. *)
Definition analyzeEntries (S : Services) (analyzeOpts : AnalyzeOptions)
    (entries : list (string * string)) : list AnalysisResult :=
  let promises :=
    map (fun '(name, version) => analyzePackage S name version analyzeOpts) entries in
  let settled := promises in
  mapi (settledResult entries) settled.

Definition analyzeProject (S : Services) (pkg : Manifest.t)
    (options : ProjectOptions) : Project.t :=
  let includeDev := match includeDev options with Some b => b | None => false end in
  let noCache := match useCache options with Some false => true | _ => false end in
  let deps := match Manifest.dependencies pkg with Some d => d | None => [] end in
  let devDeps :=
    if includeDev
    then match Manifest.devDependencies pkg with Some d => d | None => [] end
    else [] in
  let analyzeOpts := {| noCache := Some noCache |} in
  (* Analyze production dependencies concurrently *)
  let prodEntries := deps in
  let dependencies := analyzeEntries S analyzeOpts prodEntries in
  (* Analyze dev dependencies concurrently *)
  let devDependencies :=
    if includeDev
    then let devEntries := devDeps in analyzeEntries S analyzeOpts devEntries
    else [] in
  (* Calculate project-level score *)
  let projectScore := Score.calculateProjectScore dependencies devDependencies in
  let projectGrade := Score.calculateGrade projectScore in
  {| Project.dependencies := dependencies;
     Project.devDependencies := devDependencies;
     Project.projectScore := projectScore;
     Project.projectGrade := projectGrade |}.

End Index.

(** ** The scoring table of the specification (section 4.1)

    A second description of the scorer, written from the table of the
    specification on the typed signals of its data model, to be compared with
    [Score.calculateScore]. *)

Module Table.

Inductive Status : Type := active | stale | abandoned.
Inductive Trend : Type := growing | stable | declining.
Inductive Severity : Type := none | low | moderate | high | critical.

Record Popularity : Type := { weeklyDownloads : N; trend : Trend }.

(** A signal bundle: each of the four sub-records may be absent; the size
    signal is its [unpackedSizeBytes], [0] meaning unknown. *)
Record Bundle : Type := {
  maintenance : option Status;
  popularity : option Popularity;
  size : option N;
  security : option Severity
}.

Definition maintenance_points (b : Bundle) : Z :=
  match maintenance b with
  | Some active => 30
  | Some stale => 15
  | Some abandoned => 0
  | None => 0
  end.

Definition popularity_points (b : Bundle) : Z :=
  match popularity b with
  | Some p =>
      let dl := weeklyDownloads p in
      if (1000000 <? dl)%N then 20
      else if (100000 <? dl)%N then 15
      else if (10000 <? dl)%N then 10
      else if (1000 <? dl)%N then 5
      else 0
  | None => 0
  end.

Definition size_points (b : Bundle) : Z :=
  match size b with
  | Some bytes =>
      if (bytes =? 0)%N then 8
      else if (bytes <? 100 * 1024)%N then 15
      else if (bytes <? 500 * 1024)%N then 12
      else if (bytes <? 1024 * 1024)%N then 8
      else if (bytes <? 5 * 1024 * 1024)%N then 4
      else 0
  | None => 0
  end.

Definition security_points (b : Bundle) : Z :=
  match security b with
  | Some none => 25
  | Some low => 15
  | Some moderate => 8
  | Some high => 2
  | Some critical => 0
  | None => 0
  end.

Definition trend_points (b : Bundle) : Z :=
  match popularity b with
  | Some p =>
      match trend p with
      | growing => 10
      | stable => 7
      | declining => 2
      end
  | None => 0
  end.

Definition points (b : Bundle) : Z :=
  maintenance_points b + popularity_points b + size_points b
  + security_points b + trend_points b.

(** The strings that name the enumerated values. *)
Definition status_name (s : Status) : string :=
  match s with
  | active => "active"
  | stale => "stale"
  | abandoned => "abandoned"
  end.

Definition trend_name (t : Trend) : string :=
  match t with
  | growing => "growing"
  | stable => "stable"
  | declining => "declining"
  end.

Definition severity_name (s : Severity) : string :=
  match s with
  | none => "none"
  | low => "low"
  | moderate => "moderate"
  | high => "high"
  | critical => "critical"
  end.

(** The bundles named in the specification's testable properties. *)
Definition mixed : Bundle :=
  {| maintenance := Some stale;
     popularity := Some {| weeklyDownloads := 50000; trend := stable |};
     size := Some 200000%N;
     security := Some moderate |}.

Definition worst : Bundle :=
  {| maintenance := Some abandoned;
     popularity := Some {| weeklyDownloads := 50; trend := declining |};
     size := Some 10000000%N;
     security := Some critical |}.

End Table.

(** The JavaScript object that carries a bundle. *)
Definition to_result (b : Table.Bundle) : AnalysisResult :=
  {| name := None; version := None; latestVersion := None;
     maintenance :=
       option_map
         (fun s => {| Shape.lastPublish := None;
                      Shape.daysSincePublish := None;
                      Shape.status := Some (Table.status_name s) |})
         (Table.maintenance b);
     popularity :=
       option_map
         (fun p => {| Shape.weeklyDownloads := Some (JS.Int (Z.of_N (Table.weeklyDownloads p)));
                      Shape.trend := Some (Table.trend_name (Table.trend p));
                      Shape.trendPercent := None |})
         (Table.popularity b);
     size :=
       option_map
         (fun bytes => {| Shape.unpackedSize := Some (JS.Int (Z.of_N bytes));
                          Shape.unpackedSizeHuman := None |})
         (Table.size b);
     security :=
       option_map
         (fun s => {| Shape.vulnerabilities := None;
                      Shape.severity := Some (Table.severity_name s) |})
         (Table.security b);
     alternative := None; score := None; grade := None; error := None |}.

(** The points each block of [calculateScore] adds. *)
Definition maintenancePoints (r : AnalysisResult) : Z := Score.maintenanceStep r 0.
Definition popularityPoints (r : AnalysisResult) : Z := Score.popularityStep r 0.
Definition sizePoints (r : AnalysisResult) : Z := Score.sizeStep r 0.
Definition securityPoints (r : AnalysisResult) : Z := Score.securityStep r 0.
Definition trendPoints (r : AnalysisResult) : Z := Score.trendStep r 0.

(** [{ ...r, size: s }] and [{ ...r, security: s }]: the same object with one
    sub-record replaced ([None] removes it). *)
Definition with_size (r : AnalysisResult) (s : option Shape.Size) : AnalysisResult :=
  {| name := name r; version := version r; latestVersion := latestVersion r;
     maintenance := maintenance r; popularity := popularity r;
     size := s; security := security r;
     alternative := alternative r; score := score r; grade := grade r;
     error := error r |}.

Definition with_security (r : AnalysisResult) (s : option Shape.Security) : AnalysisResult :=
  {| name := name r; version := version r; latestVersion := latestVersion r;
     maintenance := maintenance r; popularity := popularity r;
     size := size r; security := s;
     alternative := alternative r; score := score r; grade := grade r;
     error := error r |}.

(** [{ size: {} }] *)
Definition only_empty_size : AnalysisResult :=
  with_size empty_result
    (Some {| Shape.unpackedSize := None; Shape.unpackedSizeHuman := None |}).

(** ** The project aggregate of the specification (section 4.3)

    A second description of the project score, written from the formula of
    the specification, to be compared with [Score.calculateProjectScore]. *)

Module Aggregate.

Inductive Kind : Type := production | dev.

(** Production entries weight 1.0; dev entries weight 0.5. *)
Definition weight (k : Kind) : Q :=
  match k with
  | production => 1
  | dev => 1 # 2
  end.

(** All the entries of a project, each score with its kind. *)
Definition entries (prod devs : list Z) : list (Z * Kind) :=
  map (fun s => (s, production)) prod ++ map (fun s => (s, dev)) devs.

Definition sumQ (l : list Q) : Q := fold_right Qplus 0%Q l.

(** The sum of [score_i * weight_i] and the sum of [weight_i]. *)
Definition weighted_sum (es : list (Z * Kind)) : Q :=
  sumQ (map (fun e => inject_Z (fst e) * weight (snd e))%Q es).

Definition total_weight (es : list (Z * Kind)) : Q :=
  sumQ (map (fun e => weight (snd e)) es).

(** [n] is [q] rounded to the nearest integer, a tie going up. *)
Definition rounds_to (q : Q) (n : Z) : Prop :=
  (inject_Z n - (1 # 2) <= q /\ q < inject_Z n + (1 # 2))%Q.

End Aggregate.

(** An entry that carries an integer score within 0..100. *)
Definition scored (r : AnalysisResult) : Prop :=
  exists s : Z, score r = Some s /\ 0 <= s <= 100.

(** [{ score: s }] *)
Definition of_score (s : Z) : AnalysisResult :=
  {| name := None; version := None; latestVersion := None;
     maintenance := None; popularity := None; size := None; security := None;
     alternative := None; score := Some s; grade := None; error := None |}.

(** ** A concrete registry, for evaluating the orchestrator *)

Module Fixture.
Import JS.

(** A registry that knows the single package [left-pad]: its maintenance,
    popularity and size extractors succeed, and its security extractor is
    rejected.  Every other name is not found. *)
Definition registry : Index.Services :=
  {| Index.PackageInfo := unit;
     Index.dist_tags := fun _ => Some {| Index.latest := Some "1.3.0" |};
     Index.getPackageInfo :=
       fun name =>
         if String.eqb name "left-pad" then fulfilled (Some tt) else fulfilled None;
     Index.analyzeMaintenance :=
       fun _ =>
         fulfilled {| Shape.lastPublish := Some "2026-01-15";
                      Shape.daysSincePublish := Some (Int 30);
                      Shape.status := Some "active" |};
     Index.analyzePopularity :=
       fun _ =>
         fulfilled {| Shape.weeklyDownloads := Some (Int 2000000);
                      Shape.trend := Some "growing";
                      Shape.trendPercent := Some 25%float |};
     Index.analyzeSize :=
       fun _ =>
         fulfilled {| Shape.unpackedSize := Some (Int 50000);
                      Shape.unpackedSizeHuman := Some "49 KB" |};
     Index.analyzeSecurity :=
       fun _ _ => rejected (Some {| message := Some "advisory service unavailable" |});
     Index.getAlternative := fun _ => None |}.

Definition options : Index.AnalyzeOptions := {| Index.noCache := Some false |}.

(** A manifest with one production and one dev dependency, and the options
    of a run without [--dev]. *)
Definition manifest : Index.Manifest.t :=
  {| Index.Manifest.dependencies := Some [("left-pad", "^1.3.0")];
     Index.Manifest.devDependencies := Some [("jest", "^29.7.0")] |}.

Definition default_options : Index.ProjectOptions :=
  {| Index.includeDev := None; Index.useCache := None |}.

End Fixture.

(** The name and version of a result, and those of a manifest entry. *)
Definition name_version (r : AnalysisResult) : option string * option string :=
  (name r, version r).

Definition declared (entry : string * string) : option string * option string :=
  (Some (fst entry), Some (snd entry)).

(** [table || {}], as entries. *)
Definition entries_of (table : option (list (string * string))) : list (string * string) :=
  match table with
  | Some entries => entries
  | None => []
  end.

(** ** Rounding to one decimal, as the specification words it

    These definitions speak of the numbers that doubles hold; they do not
    mention [Math.round]. *)

(** The number that a finite double holds, [+/- m * 2^e]. *)
Definition value (x : float) : option Q :=
  match Prim2SF x with
  | S754_zero _ => Some 0%Q
  | S754_finite s m e =>
      let sm := if s then Zneg m else Zpos m in
      Some match e with
           | Zneg k => (sm # 2 ^ k)%Q
           | _ => inject_Z (sm * 2 ^ e)
           end
  | S754_infinity _ => None
  | S754_nan => None
  end.




(** The series whose days all count [n] downloads but the last seven, which
    count [m]. *)
Definition flat_series (days : nat) (n m : float) : list NpmApi.DayCount :=
  repeat {| NpmApi.day := "d"; NpmApi.downloads := n |} (days - 7)
  ++ repeat {| NpmApi.day := "d"; NpmApi.downloads := m |} 7.

(** [getDownloadTrend] on a year of data: [n] downloads a day, then [m] a day
    during the last week. *)
Definition trend_of_year (n m : float) : option NpmApi.Trend :=
  NpmApi.getDownloadTrend
    (Some {| NpmApi.Range.downloads := Some (flat_series 365 n m) |}).

(** ** [src/lib/cache.js]

    The cache file holds, when it parses, the object [writeCache] wrote: a
    table from keys to entries, the properties of its own.  A key that names
    no property of the table reads as a miss, also when it names a property
    inherited from [Object.prototype], for which the code answers
    [undefined].  Whether a write to the file succeeds is a property of the disk. *)

Module Cache.

Definition DEFAULT_TTL : Z := 60 * 60 * 1000.

Section Values.

(** The JSON values that are cached; [None] of [option V] is JSON [null]. *)
Variable V : Type.

Record Entry : Type := { value : option V; expiresAt : Z }.

(** The parsed cache object, [{ key: { value, expiresAt } }]. *)
Definition Table : Type := string -> option Entry.

Definition empty : Table := fun _ => None.

(** [cache[key] = entry].  The key [__proto__] is special: unless the
    parsed object has a property of its own under that name, the assignment
    runs the setter inherited from [Object.prototype], which replaces the
    prototype of the object and adds no property, so that [JSON.stringify]
    writes the table as it was. *)
Definition assign (key : string) (entry : Entry) (cache : Table) : Table :=
  match String.eqb key "__proto__", cache key with
  | true, None => cache
  | _, _ => fun k => if String.eqb k key then Some entry else cache k
  end.

(** [delete cache[key]] *)

Definition remove (key : string) (cache : Table) : Table :=
  fun k => if String.eqb k key then None else cache k.

(** The cache file: absent, present but not parsable, or holding a table. *)
Inductive File : Type :=
| missing
| unreadable
| stored (data : Table).

Record Disk : Type := { file : File; writable : bool }.

(** [readCache]: every failure reads as the empty object. *)
Definition readCache (disk : Disk) : Table :=
  match file disk with
  | stored data => data
  | missing => empty
  | unreadable => empty
  end.

(** [writeCache]: a failed write is swallowed. *)
Definition writeCache (disk : Disk) (data : Table) : Disk :=
  if writable disk
  then {| file := stored data; writable := true |}
  else disk.

(** [get(key)] when [Date.now()] is [now]: the value, or [None] for [null],
    and the disk it leaves. *)
Definition get (now : Z) (key : string) (disk : Disk) : option V * Disk :=
  let cache := readCache disk in
  match cache key with
  | None => (None, disk)
  | Some entry =>
      if (expiresAt entry <? now)%Z then
        (* Expired: clean it up *)
        let cache := remove key cache in
        (None, writeCache disk cache)
      else (value entry, disk)
  end.

(** [set(key, value, ttlMs)] when [Date.now()] is [now]; [ttlMs] is [None]
    when it is not a number. *)
Definition set (now : Z) (key : string) (v : option V) (ttlMs : option Z)
    (disk : Disk) : Disk :=
  let ttl := match ttlMs with Some t => t | None => DEFAULT_TTL end in
  let cache := readCache disk in
  let cache := assign key {| value := v; expiresAt := now + ttl |} cache in
  writeCache disk cache.

Definition clear (disk : Disk) : Disk := writeCache disk empty.

End Values.

Arguments value {V} _.
Arguments expiresAt {V} _.
Arguments empty {V} _.
Arguments assign {V} key entry cache _.
Arguments remove {V} key cache _.
Arguments missing {V}.
Arguments unreadable {V}.
Arguments stored {V} data.
Arguments file {V} _.
Arguments writable {V} _.
Arguments readCache {V} disk _.
Arguments writeCache {V} disk data.
Arguments get {V} now key disk.
Arguments set {V} now key v ttlMs disk.
Arguments clear {V} disk.

End Cache.

(** ** [src/lib/npm-api.js]: the cached fetch layer *)

Module Fetch.

Definition REGISTRY_URL : string := "https://registry.npmjs.org".
Definition DOWNLOADS_URL : string := "https://api.npmjs.org/downloads".
Definition CACHE_TTL : Z := Cache.DEFAULT_TTL.

(** The characters [encodeURIComponent] leaves as they are:
    [A-Z a-z 0-9 - _ . ! ~ * ' ( )]. *)
Definition unreserved (c : ascii) : bool :=
  let n := nat_of_ascii c in
  ((65 <=? n) && (n <=? 90))%nat || ((97 <=? n) && (n <=? 122))%nat
  || ((48 <=? n) && (n <=? 57))%nat
  || existsb (Ascii.eqb c) ["-"; "_"; "."; "!"; "~"; "*"; "'"; "("; ")"]%char.

(** An upper-case hexadecimal digit. *)
Definition hex (n : nat) : ascii :=
  if (n <? 10)%nat then ascii_of_nat (48 + n) else ascii_of_nat (55 + n).

(** [encodeURIComponent] on a string given by its UTF-8 bytes: every byte
    that is not an unreserved character becomes [%XX]. *)
Fixpoint encodeURIComponent (s : string) : string :=
  match s with
  | EmptyString => EmptyString
  | String c rest =>
      if unreserved c then String c (encodeURIComponent rest)
      else
        let n := nat_of_ascii c in
        String "%" (String (hex (n / 16)) (String (hex (n mod 16))
          (encodeURIComponent rest)))
  end.

(** The URL and the cache key of each endpoint. *)
Definition packageUrl (name : string) : string :=
  REGISTRY_URL ++ "/" ++ encodeURIComponent name.
Definition packageKey (name : string) : string := "pkg:" ++ name.

Definition weeklyUrl (name : string) : string :=
  DOWNLOADS_URL ++ "/point/last-week/" ++ encodeURIComponent name.
Definition weeklyKey (name : string) : string := "dl-week:" ++ name.

Definition trendUrl (name : string) : string :=
  DOWNLOADS_URL ++ "/range/last-year/" ++ encodeURIComponent name.
Definition trendKey (name : string) : string := "dl-trend:" ++ name.

Section Values.

Variable V : Type.

(** What [fetchWithTimeout(url)] and [res.json()] come to: the fetch is
    rejected (network error, or aborted on the timeout), or it answers with
    a status and a body whose parse fails ([None]) or gives a value. *)
Inductive Answer : Type :=
| network_error
| response (status : Z) (json : option (option V)).

(** [res.ok]: the status is in the range 200..299. *)
Definition ok (status : Z) : bool := ((200 <=? status) && (status <=? 299))%Z.

(** What a call leaves: its result ([None] for [null]), the disk, and the
    URLs it requested. *)
Record Outcome : Type := {
  result : option V;
  disk : Cache.Disk V;
  requests : list string
}.

(** [cachedFetch(url, cacheKey)]: [now_get] and [now_set] are the values of
    [Date.now()] inside [cache.get] and [cache.set]. *)
Definition cachedFetch (net : string -> Answer) (now_get now_set : Z)
    (url cacheKey : string) (d : Cache.Disk V) : Outcome :=
  (* Check cache first *)
  let '(cached, d) := Cache.get now_get cacheKey d in
  match cached with
  | Some v => {| result := Some v; disk := d; requests := [] |}
  | None =>
      match net url with
      | network_error => {| result := None; disk := d; requests := [url] |}
      | response status json =>
          if (status =? 404)%Z then {| result := None; disk := d; requests := [url] |}
          else if negb (ok status) then {| result := None; disk := d; requests := [url] |}
          else
            match json with
            | None => {| result := None; disk := d; requests := [url] |}
            | Some data =>
                {| result := data;
                   disk := Cache.set now_set cacheKey data (Some CACHE_TTL) d;
                   requests := [url] |}
            end
      end
  end.

Definition getPackageInfo (net : string -> Answer) (now_get now_set : Z)
    (name : string) (d : Cache.Disk V) : Outcome :=
  cachedFetch net now_get now_set (packageUrl name) (packageKey name) d.

Definition getWeeklyDownloads (net : string -> Answer) (now_get now_set : Z)
    (name : string) (d : Cache.Disk V) : Outcome :=
  cachedFetch net now_get now_set (weeklyUrl name) (weeklyKey name) d.

End Values.

Arguments network_error {V}.
Arguments response {V} status json.
Arguments result {V} _.
Arguments disk {V} _.
Arguments requests {V} _.
Arguments cachedFetch {V} net now_get now_set url cacheKey d.
Arguments getPackageInfo {V} net now_get now_set name d.
Arguments getWeeklyDownloads {V} net now_get now_set name d.

End Fetch.

(** The value of a hexadecimal digit, and the inverse of
    [Fetch.encodeURIComponent] on the strings it produces
    ([decodeURIComponent] on bytes). *)
Definition unhex (c : ascii) : nat :=
  let n := nat_of_ascii c in
  if (n <? 58)%nat then (n - 48)%nat else (n - 55)%nat.

Fixpoint percent_decode (s : string) : string :=
  match s with
  | EmptyString => EmptyString
  | String c rest =>
      if Ascii.eqb c "%" then
        match rest with
        | String h (String l rest') =>
            String (ascii_of_nat (unhex h * 16 + unhex l)) (percent_decode rest')
        | _ => String c (percent_decode rest)
        end
      else String c (percent_decode rest)
  end.

(** The characters that may occur in an encoded component. *)
Definition url_safe (c : ascii) : bool :=
  Fetch.unreserved c || Ascii.eqb c "%".

Fixpoint all_chars (p : ascii -> bool) (s : string) : bool :=
  match s with
  | EmptyString => true
  | String c rest => p c && all_chars p rest
  end.

(** ** Concrete disks and networks, for evaluating the fetch layer *)

Module Sample.

(** A writable disk without a cache file, and the same disk refusing
    writes. *)
Definition fresh : Cache.Disk string :=
  {| Cache.file := Cache.missing; Cache.writable := true |}.

Definition read_only : Cache.Disk string :=
  {| Cache.file := Cache.missing; Cache.writable := false |}.

(** A network that answers every URL with status 200 and the body
    ["metadata"], and a network that is down. *)
Definition up : string -> Fetch.Answer string :=
  fun _ => Fetch.response 200 (Some (Some "metadata")).

Definition down : string -> Fetch.Answer string :=
  fun _ => Fetch.network_error.

(** The disk after [express] was fetched at time 0 through [up]. *)
Definition warm : Cache.Disk string :=
  Fetch.disk (Fetch.getPackageInfo up 0 0 "express" fresh).

End Sample.

(** ** The analyzers ([src/analyzers/*.js]) *)

Module Analyzers.
Import JS.

(** The registry metadata of a package, as far as the analyzers read it.
    An object used as a table is the list of its entries, in the order
    [Object.entries] gives them. *)
Record Dist : Type := { unpackedSize : option number }.
Record Version : Type := { dist : option Dist }.
Record PackageInfo : Type := {
  dist_tags : option Index.DistTags;
  time : option (list (string * string));
  versions : option (list (string * Version))
}.

(** [obj[key]] *)
Fixpoint prop {A : Type} (obj : list (string * A)) (key : string) : option A :=
  match obj with
  | [] => None
  | (k, v) :: rest => if String.eqb k key then Some v else prop rest key
  end.

(** A string property as a condition: the empty string is falsy. *)
Definition truthy_string (s : option string) : option string :=
  match s with
  | Some v => if String.eqb v "" then None else Some v
  | None => None
  end.

(** [packageInfo['dist-tags'] && packageInfo['dist-tags'].latest], when it
    is truthy. *)
Definition latestTag (packageInfo : PackageInfo) : option string :=
  match dist_tags packageInfo with
  | Some tags => truthy_string (Index.latest tags)
  | None => None
  end.

(** *** [src/analyzers/maintenance.js] *)

Section Clock.

(** [new Date(s).getTime()], [None] for an [Invalid Date]; the date part of
    [toISOString()]; the [RangeError] that [toISOString()] throws on an
    invalid date; and [new Date()], in milliseconds. *)
Variable parseDate : string -> option Z.
Variable toISODate : Z -> string.
Variable invalid_time : Error.
Variable now : Z.

(** [if (!latest || d > latest) latest = d]: [latest] is [None] while it is
    [null]; a date is [None] when it is invalid, and then compares false. *)
Definition later (latest : option (option Z)) (d : option Z) : option (option Z) :=
  match latest with
  | None => Some d
  | Some l =>
      match d, l with
      | Some dv, Some lv => if (lv <? dv)%Z then Some d else latest
      | _, _ => latest
      end
  end.

(** The fallback loop over [Object.entries(packageInfo.time)]. *)
Definition mostRecent (entries : list (string * string)) : option (option Z) :=
  fold_left
    (fun latest '(key, val) =>
       if String.eqb key "created" then latest
       else later latest (parseDate val))
    entries None.

Definition lastPublishDate (packageInfo : PackageInfo)
    (time : list (string * string)) : option Z :=
  match match latestTag packageInfo with
        | Some tag => truthy_string (prop time tag)
        | None => None
        end with
  | Some raw => parseDate raw
  | None =>
      match truthy_string (prop time "modified") with
      | Some raw => parseDate raw
      | None =>
          (* Fallback: find the most recent date in the time object *)
          match mostRecent time with
          | Some d => d
          | None => Some 0
          end
      end
  end.

Definition analyzeMaintenance (packageInfo : option PackageInfo) :
    Settled Shape.Maintenance :=
  let unknown :=
    {| Shape.lastPublish := Some "unknown";
       Shape.daysSincePublish := Some Infinity;
       Shape.status := Some "abandoned" |} in
  match packageInfo with
  | None => fulfilled unknown
  | Some info =>
      match time info with
      | None => fulfilled unknown
      | Some time =>
          match lastPublishDate info time with
          | None => rejected (Some invalid_time)
          | Some lastPublish =>
              let diffMs := now - lastPublish in
              let daysSincePublish := diffMs / (1000 * 60 * 60 * 24) in
              (* Determine status *)
              let sixMonthsDays := 180 in
              let eighteenMonthsDays := 540 in
              let status :=
                if (daysSincePublish <? sixMonthsDays)%Z then "active"
                else if (daysSincePublish <? eighteenMonthsDays)%Z then "stale"
                else "abandoned" in
              fulfilled
                {| Shape.lastPublish := Some (toISODate lastPublish);
                   Shape.daysSincePublish := Some (Int daysSincePublish);
                   Shape.status := Some status |}
          end
      end
  end.

End Clock.

(** *** [src/analyzers/size.js] *)

(** [String(n)] for an integer. *)
Definition string_of_Z (n : Z) : string := NilZero.string_of_int (Z.to_int n).

(** The safe integers, strictly between [-2^53] and [2^53]: every one of
    them is a double, and is printed with all its digits. *)
Definition safe (z : Z) : bool := ((- 2 ^ 53 <? z) && (z <? 2 ^ 53))%Z.

Section Printing.

(** Outside the safe integers a number is not the integer of this model
    (and from [10^21] on the built-ins print in exponent notation).  What
    [String(bytes)] and [(bytes / unit).toFixed(1)] print there is given by
    these two functions. *)
Variable String_unsafe : Z -> string.
Variable toFixed1_unsafe : Z -> Z -> string.

Definition string_of_number (n : number) : string :=
  match n with
  | NaN => "NaN"
  | Infinity => "Infinity"
  | NegInfinity => "-Infinity"
  | Int z => if safe z then string_of_Z z else String_unsafe z
  end.

(** [(bytes / unit).toFixed(1)] for a non-negative safe integer [bytes] and
    a power of two [unit]: the quotient is an exact double, and [toFixed]
    takes the nearest tenth, the larger one on a tie. *)
Definition toFixed1 (bytes unit : Z) : string :=
  if safe bytes then
    let n := (2 * 10 * bytes + unit) / (2 * unit) in
    string_of_Z (n / 10) ++ "." ++ string_of_Z (n mod 10)
  else toFixed1_unsafe bytes unit.

Definition formatBytes (bytes : number) : string :=
  if eq_lit bytes 0 then "unknown"
  else if (bytes < 1024)%js then string_of_number bytes ++ " B"
  else if (bytes < 1024 * 1024)%js then
    match bytes with
    | Int z => string_of_Z ((2 * z + 1024) / (2 * 1024)) ++ " KB"
    | other => string_of_number other ++ " KB"
    end
  else if (bytes < 1024 * 1024 * 1024)%js then
    match bytes with
    | Int z => toFixed1 z (1024 * 1024) ++ " MB"
    | other => string_of_number other ++ " MB"
    end
  else
    match bytes with
    | Int z => toFixed1 z (1024 * 1024 * 1024) ++ " GB"
    | other => string_of_number other ++ " GB"
    end.

Definition analyzeSize (packageInfo : option PackageInfo) : Shape.Size :=
  match packageInfo with
  | None =>
      {| Shape.unpackedSize := Some (Int 0);
         Shape.unpackedSizeHuman := Some "unknown" |}
  | Some info =>
      let unpackedSize :=
        (* Try to get size from latest version *)
        match latestTag info, versions info with
        | Some tag, Some versions =>
            match prop versions tag with
            | Some latestVersion =>
                match dist latestVersion with
                | Some d =>
                    match Analyzers.unpackedSize d with
                    | Some n => if truthy n then n else Int 0
                    | None => Int 0
                    end
                | None => Int 0
                end
            | None => Int 0
            end
        | _, _ => Int 0
        end in
      {| Shape.unpackedSize := Some unpackedSize;
         Shape.unpackedSizeHuman := Some (formatBytes unpackedSize) |}
  end.

End Printing.

(** *** [src/analyzers/popularity.js] *)

(** The answer of the point API. *)
Record Weekly : Type := { downloads : option number }.

(** [analyzePopularity] after its two fetches: [weeklyData] and [trendData]
    are what [getWeeklyDownloads] and [getDownloadTrend] resolved to. *)
Definition analyzePopularity (weeklyData : option Weekly)
    (trendData : option NpmApi.Trend) : Shape.Popularity :=
  let weeklyDownloads :=
    or_zero (match weeklyData with Some w => downloads w | None => None end) in
  let '(trend, trendPercent) :=
    match trendData with
    | Some t => (NpmApi.trend t, NpmApi.percent t)
    | None => ("stable", 0%float)
    end in
  {| Shape.weeklyDownloads := Some weeklyDownloads;
     Shape.trend := Some trend;
     Shape.trendPercent := Some trendPercent |}.

(** *** [src/analyzers/security.js] *)

Definition analyzeSecurity (name version : string) : Shape.Security :=
  {| Shape.vulnerabilities := Some (Int 0);
     Shape.severity := Some "none" |}.

(** *** [src/analyzers/alternatives.js]: [alternatives] is the bundled
    database, [data/alternatives.json]. *)

Definition getAlternative (alternatives : list (string * Alternative.t))
    (name : string) : option Alternative.t :=
  match prop alternatives name with
  | None => None
  | Some entry =>
      Some {| Alternative.name := Alternative.name entry;
              Alternative.reason := Alternative.reason entry |}
  end.

End Analyzers.

(** ** The orchestrator with the analyzers of the repository *)

Module Shipped.

(** What the run depends on: the clock and the date functions, the
    printing of numbers outside the safe integers, what the registry and the
    two download APIs answer for a name (after the cache), and the
    alternatives database. *)
Record World : Type := {
  parseDate : string -> option Z;
  toISODate : Z -> string;
  invalid_time : JS.Error;
  now : Z;
  String_unsafe : Z -> string;
  toFixed1_unsafe : Z -> Z -> string;
  registry : string -> JS.Settled (option Analyzers.PackageInfo);
  weekly : string -> option Analyzers.Weekly;
  range : string -> option NpmApi.Range.t;
  alternatives : list (string * Alternative.t)
}.

Definition services (w : World) : Index.Services :=
  {| Index.PackageInfo := Analyzers.PackageInfo;
     Index.dist_tags := Analyzers.dist_tags;
     Index.getPackageInfo := registry w;
     Index.analyzeMaintenance :=
       fun info =>
         Analyzers.analyzeMaintenance (parseDate w) (toISODate w) (invalid_time w)
           (now w) (Some info);
     Index.analyzePopularity :=
       fun name =>
         JS.fulfilled
           (Analyzers.analyzePopularity (weekly w name)
              (NpmApi.getDownloadTrend (range w name)));
     Index.analyzeSize :=
       fun info =>
         JS.fulfilled
           (Analyzers.analyzeSize (String_unsafe w) (toFixed1_unsafe w) (Some info));
     Index.analyzeSecurity :=
       fun name version => JS.fulfilled (Analyzers.analyzeSecurity name version);
     Index.getAlternative := Analyzers.getAlternative (alternatives w) |}.

End Shipped.

(** ** [src/cli.js]: the exit code of a run

    [run] as far as it decides the exit code of the process.  Reading and
    parsing [package.json] is given by its outcome ([None] when the file is
    missing or does not parse), and the reporter by whether [render] returns
    ([true]) or throws.  What is written to the terminal is left out. *)

Module Cli.

Record Options : Type := {
  dev : option bool;
  cache : option bool
}.

(** A truthy option. *)
Definition on (flag : option bool) : bool :=
  match flag with
  | Some b => b
  | None => false
  end.

(** [results.dependencies.concat(options.dev ? results.devDependencies : [])] *)
Definition allDeps (results : Index.Project.t) (options : Options) : list AnalysisResult :=
  Index.Project.dependencies results
  ++ (if on (dev options) then Index.Project.devDependencies results else []).

(** [allDeps.some(d => d.grade === 'F')] *)
Definition hasF (deps : list AnalysisResult) : bool :=
  existsb (fun d => (grade d === "F")%js) deps.

Definition run (S : Index.Services)
    (render : Index.Project.t -> Options -> bool)
    (pkg : option Index.Manifest.t) (options : Options) : Z :=
  match pkg with
  | None => 1
  | Some pkg =>
      (* Check for dependencies *)
      let deps := entries_of (Index.Manifest.dependencies pkg) in
      let devDeps := entries_of (Index.Manifest.devDependencies pkg) in
      let depCount := List.length deps in
      let devDepCount := List.length devDeps in
      if (depCount =? 0)%nat && (negb (on (dev options)) || (devDepCount =? 0)%nat)
      then 1
      else
        (* Run analysis *)
        let rawResults :=
          Index.analyzeProject S pkg
            {| Index.includeDev := Some (on (dev options));
               Index.useCache :=
                 Some (match cache options with Some false => false | _ => true end) |} in
        let results := rawResults in
        (* Route to reporter *)
        if negb (render results options) then 1
        else
          (* Exit code: non-zero if any F-grade dependencies *)
          if hasF (allDeps results options) then 1 else 0
  end.

End Cli.

(** A result as a report may show it: it names its dependency, its score is
    an integer within 0..100 and its grade is the grade of that score. *)
Definition well_formed (r : AnalysisResult) : Prop :=
  name r <> None
  /\ exists s : Z,
       score r = Some s /\ 0 <= s <= 100
       /\ grade r = Some (Score.calculateGrade s).

(** The dependencies a run looks at: the production dependencies, and the
    dev dependencies with [--dev]; and the options [run] hands to
    [analyzeProject]. *)
Definition in_scope (pkg : Index.Manifest.t) (options : Cli.Options) :
    list (string * string) :=
  entries_of (Index.Manifest.dependencies pkg)
  ++ (if Cli.on (Cli.dev options)
      then entries_of (Index.Manifest.devDependencies pkg)
      else []).

Definition project_options (options : Cli.Options) : Index.ProjectOptions :=
  {| Index.includeDev := Some (Cli.on (Cli.dev options));
     Index.useCache :=
       Some (match Cli.cache options with Some false => false | _ => true end) |}.

(** ** [src/reporters/json.js] *)

Module JsonReporter.
Import JS.

Record Options : Type := {
  dev : option bool;
  fix_ : option bool;
  limit : option number;
  quiet : option bool
}.

(** One element of the [dependencies] array of the report.  (The option
    [fix] of the source is [fix_] here.) *)
Module Entry.
Record t : Type := {
  name : option string;
  type : string;
  version : option string;
  latestVersion : option string;
  score : option Z;
  grade : option string;
  maintenance : option Shape.Maintenance;
  popularity : option Shape.Popularity;
  size : option Shape.Size;
  security : option Shape.Security;
  alternative : option Alternative.t
}.
End Entry.

Module Grades.
Record t : Type := { A : Z; B : Z; C : Z; D : Z; F : Z }.
End Grades.

Record Summary : Type := {
  grades : Grades.t;
  abandonedCount : Z;
  vulnerableCount : Z;
  productionCount : Z;
  devCount : Z
}.

Record Output : Type := {
  projectScore : Z;
  projectGrade : string;
  totalDependencies : Z;
  scannedAt : string;
  dependencies : list Entry.t;
  summary : option Summary
}.

(** The comparator [a.score - b.score]; [None] when the difference is
    [NaN]. *)
Definition byScore (a b : Entry.t) : option Z :=
  match Entry.score a, Entry.score b with
  | Some x, Some y => Some (x - y)
  | _, _ => None
  end.

(** [arr.sort(compare)].  The sort of JavaScript is stable, and an answer
    [NaN] of the comparator counts as [0].  When every score is a number the
    comparator is a consistent one and the language fixes the result, which
    is the one computed here: ascending order, elements that compare equal
    in the order of the array.  (With a score that is not a number the order
    is left to the engine.) *)
Fixpoint insert (compare : Entry.t -> Entry.t -> option Z) (x : Entry.t)
    (sorted : list Entry.t) : list Entry.t :=
  match sorted with
  | [] => [x]
  | y :: rest =>
      match compare x y with
      | Some v => if (0 <? v)%Z then y :: insert compare x rest else x :: y :: rest
      | None => x :: y :: rest
      end
  end.

Definition sort (compare : Entry.t -> Entry.t -> option Z) (arr : list Entry.t) :
    list Entry.t :=
  fold_right (insert compare) [] arr.

(** [if (options.limit && options.limit > 0) arr = arr.slice(0, options.limit)] *)
Definition limited {T : Type} (limit : option number) (arr : list T) : list T :=
  match limit with
  | Some n =>
      if truthy n && (n > 0)%js
      then match n with
           | Int z => firstn (Z.to_nat z) arr
           | _ => arr
           end
      else arr
  | None => arr
  end.

(** [dep.alternative && dep.alternative.name] as a condition. *)
Definition named (a : option Alternative.t) : bool :=
  match a with
  | Some alt =>
      match Alternative.name alt with
      | Some n => negb (String.eqb n "")
      | None => false
      end
  | None => false
  end.

Definition formatDep (dep : AnalysisResult) (type : string) (options : Options) :
    Entry.t :=
  {| Entry.name := name dep;
     Entry.type := type;
     Entry.version := version dep;
     Entry.latestVersion := latestVersion dep;
     Entry.score := score dep;
     Entry.grade := grade dep;
     Entry.maintenance := maintenance dep;
     Entry.popularity := popularity dep;
     Entry.size := size dep;
     Entry.security := security dep;
     Entry.alternative :=
       if Cli.on (fix_ options) && named (alternative dep)
       then alternative dep
       else None |}.

(** [if (dep.grade && grades[dep.grade] !== undefined) grades[dep.grade]++],
    for a grade that is one of the five letters or names no property of an
    object at all. *)
Definition count (grades : Grades.t) (grade : option string) : Grades.t :=
  match grade with
  | None => grades
  | Some g =>
      if String.eqb g "A" then
        {| Grades.A := Grades.A grades + 1; Grades.B := Grades.B grades;
           Grades.C := Grades.C grades; Grades.D := Grades.D grades;
           Grades.F := Grades.F grades |}
      else if String.eqb g "B" then
        {| Grades.A := Grades.A grades; Grades.B := Grades.B grades + 1;
           Grades.C := Grades.C grades; Grades.D := Grades.D grades;
           Grades.F := Grades.F grades |}
      else if String.eqb g "C" then
        {| Grades.A := Grades.A grades; Grades.B := Grades.B grades;
           Grades.C := Grades.C grades + 1; Grades.D := Grades.D grades;
           Grades.F := Grades.F grades |}
      else if String.eqb g "D" then
        {| Grades.A := Grades.A grades; Grades.B := Grades.B grades;
           Grades.C := Grades.C grades; Grades.D := Grades.D grades + 1;
           Grades.F := Grades.F grades |}
      else if String.eqb g "F" then
        {| Grades.A := Grades.A grades; Grades.B := Grades.B grades;
           Grades.C := Grades.C grades; Grades.D := Grades.D grades;
           Grades.F := Grades.F grades + 1 |}
      else grades
  end.

(** The three counters of [buildSummary], and the body of its loop. *)
Definition tally (acc : Grades.t * Z * Z) (dep : AnalysisResult) : Grades.t * Z * Z :=
  let '(grades, abandoned, vulnerable) := acc in
  (count grades (grade dep),
   match maintenance dep with
   | Some m => if (Shape.status m === "abandoned")%js then abandoned + 1 else abandoned
   | None => abandoned
   end,
   match security dep with
   | Some s =>
       match Shape.vulnerabilities s with
       | Some n => if (n > 0)%js then vulnerable + 1 else vulnerable
       | None => vulnerable
       end
   | None => vulnerable
   end).

Definition buildSummary (deps devDeps : list AnalysisResult) (options : Options) :
    Summary :=
  let all := if Cli.on (dev options) then (deps ++ devDeps)%list else deps in
  let '(grades, abandoned, vulnerable) :=
    fold_left tally all
      ({| Grades.A := 0; Grades.B := 0; Grades.C := 0; Grades.D := 0; Grades.F := 0 |},
       0, 0) in
  {| grades := grades;
     abandonedCount := abandoned;
     vulnerableCount := vulnerable;
     productionCount := Z.of_nat (List.length deps);
     devCount := if Cli.on (dev options) then Z.of_nat (List.length devDeps) else 0 |}.

(** [buildOutput]; [now] is the value of [new Date().toISOString()]. *)
Definition buildOutput (now : string) (results : Index.Project.t) (options : Options) :
    Output :=
  let deps := Index.Project.dependencies results in
  let devDeps := Index.Project.devDependencies results in
  let allDeps := map (fun d => formatDep d "production" options) deps in
  let allDeps :=
    if Cli.on (dev options) && (0 <? List.length devDeps)%nat
    then (allDeps ++ map (fun d => formatDep d "dev" options) devDeps)%list
    else allDeps in
  (* Sort by score ascending (worst first) for limit *)
  let allDeps := sort byScore allDeps in
  let allDeps := limited (limit options) allDeps in
  {| projectScore := Index.Project.projectScore results;
     projectGrade :=
       if String.eqb (Index.Project.projectGrade results) "" then "F"
       else Index.Project.projectGrade results;
     totalDependencies :=
       Z.of_nat (List.length deps)
       + (if Cli.on (dev options) then Z.of_nat (List.length devDeps) else 0);
     scannedAt := now;
     dependencies := allDeps;
     summary := if Cli.on (quiet options) then None
                else Some (buildSummary deps devDeps options) |}.

End JsonReporter.

(** The results a report covers, with the type each is reported under. *)
Definition reported (results : Index.Project.t) (options : JsonReporter.Options) :
    list JsonReporter.Entry.t :=
  (map (fun d => JsonReporter.formatDep d "production" options)
       (Index.Project.dependencies results)
   ++ (if Cli.on (JsonReporter.dev options)
       then map (fun d => JsonReporter.formatDep d "dev" options)
                (Index.Project.devDependencies results)
       else []))%list.

(** Ascending scores. *)
Definition score_le (a b : JsonReporter.Entry.t) : Prop :=
  exists x y : Z,
    JsonReporter.Entry.score a = Some x /\ JsonReporter.Entry.score b = Some y /\ x <= y.

Definition has_score (s : Z) (d : JsonReporter.Entry.t) : bool :=
  match JsonReporter.Entry.score d with
  | Some x => (x =? s)%Z
  | None => false
  end.

(** What [limited] keeps and what it leaves out. *)
Definition dropped {T : Type} (limit : option JS.number) (arr : list T) : list T :=
  match limit with
  | Some (JS.Int z) => if (0 <? z)%Z then skipn (Z.to_nat z) arr else []
  | _ => []
  end.

(** The sum of the five grade counters. *)
Definition graded (g : JsonReporter.Grades.t) : Z :=
  JsonReporter.Grades.A g + JsonReporter.Grades.B g + JsonReporter.Grades.C g
  + JsonReporter.Grades.D g + JsonReporter.Grades.F g.

(** ** [src/reporters/terminal.js]: the helpers that lay out a row *)

Module TerminalReporter.

(** [s.repeat(n)] for a count that is in range. *)
Fixpoint repeat_string (s : string) (n : nat) : string :=
  match n with
  | O => EmptyString
  | Datatypes.S k => s ++ repeat_string s k
  end.

(** The count that [String.prototype.repeat] makes of its argument: the
    argument truncated to an integer, [NaN] counting as zero; [None] is the
    [RangeError] thrown for a negative or an infinite count. *)
Definition repeat_count (n : float) : option nat :=
  match Prim2SF n with
  | S754_nan => Some O
  | S754_zero _ => Some O
  | S754_infinity _ => None
  | S754_finite s m e =>
      let t := if (0 <=? e)%Z then (Zpos m * 2 ^ e)%Z else (Zpos m / 2 ^ (- e))%Z in
      if s && (0 <? t)%Z then None else Some (Z.to_nat t)
  end.

(** The escape character, and the ANSI codes of the table [c]. *)
Definition esc : string := String (Ascii.ascii_of_nat 27) EmptyString.

Definition reset : string := esc ++ "[0m".
Definition dim : string := esc ++ "[2m".
Definition red : string := esc ++ "[31m".
Definition green : string := esc ++ "[32m".
Definition yellow : string := esc ++ "[33m".

(** The full block (U+2588) and the light shade (U+2591), as the bytes
    that reach the terminal. *)
Definition full_block : string := "█".
Definition light_shade : string := "░".

(** [scoreBar]; [None] when [repeat] throws. *)
Definition scoreBar (score : float) : option string :=
  let width := 20%float in
  let filled := NpmApi.Math_round ((score / 100) * width)%float in
  let empty := (width - filled)%float in
  let barColor :=
    if (80 <=? score)%float then green
    else if (60 <=? score)%float then green
    else if (40 <=? score)%float then yellow
    else if (20 <=? score)%float then red
    else red in
  match repeat_count filled, repeat_count empty with
  | Some f, Some e =>
      Some (barColor ++ repeat_string full_block f ++ dim
            ++ repeat_string light_shade e ++ reset)
  | _, _ => None
  end.

(** [pad], on a string given by its code units. *)
Section CodeUnits.

Variable U : Type.
Variable space : U.

Definition pad (str : list U) (width : Z) : list U :=
  if (width <=? Z.of_nat (List.length str))%Z
  then (* str.substring(0, width) *) firstn (Z.to_nat width) str
  else (str ++ repeat space (Z.to_nat (width - Z.of_nat (List.length str))))%list.

End CodeUnits.

Arguments pad {U} space str width.

End TerminalReporter.

(** The bar of an integer score: the color of its band, [filled] full
    blocks and [20 - filled] light ones. *)
Definition bar (s : Z) (filled : Z) : string :=
  (if (60 <=? s)%Z then TerminalReporter.green
   else if (40 <=? s)%Z then TerminalReporter.yellow
   else TerminalReporter.red)
  ++ TerminalReporter.repeat_string TerminalReporter.full_block (Z.to_nat filled)
  ++ TerminalReporter.dim
  ++ TerminalReporter.repeat_string TerminalReporter.light_shade (Z.to_nat (20 - filled))
  ++ TerminalReporter.reset.

Definition bar_ok (s : Z) : bool :=
  match TerminalReporter.scoreBar (NpmApi.of_Z s) with
  | Some str => String.eqb str (bar s ((2 * s + 5) / 10))
  | None => false
  end.

(** [c] is not a space. *)
Definition not_space (c : ascii) : bool := negb (Ascii.eqb c " ").

(** ** A concrete world, for evaluating the analyzers and the reporters *)

Module Express.
Import JS.

(** The dates that occur below, in milliseconds since the epoch; any other
    string is an invalid date. *)
Definition parseDate (s : string) : option Z :=
  if String.eqb s "2010-12-29T19:38:25.000Z" then Some 1293651505000
  else if String.eqb s "2019-05-04T00:00:00.000Z" then Some 1556928000000
  else if String.eqb s "2021-02-11T00:00:00.000Z" then Some 1613001600000
  else if String.eqb s "2026-10-01T00:00:00.000Z" then Some 1790812800000
  else None.

Definition toISODate (t : Z) : string :=
  if (t =? 1293651505000)%Z then "2010-12-29"
  else if (t =? 1556928000000)%Z then "2019-05-04"
  else if (t =? 1613001600000)%Z then "2021-02-11"
  else if (t =? 1790812800000)%Z then "2026-10-01"
  else "1970-01-01".

Definition invalid_time : Error := {| message := Some "Invalid time value" |}.

(** 2026-11-02T12:00:00Z *)
Definition now : Z := 1793620800000.

(** A package whose latest version was published a month before [now]. *)
Definition express : Analyzers.PackageInfo :=
  {| Analyzers.dist_tags := Some {| Index.latest := Some "4.21.0" |};
     Analyzers.time :=
       Some [("created", "2010-12-29T19:38:25.000Z");
             ("modified", "2026-10-01T00:00:00.000Z");
             ("4.21.0", "2026-10-01T00:00:00.000Z")];
     Analyzers.versions :=
       Some [("4.21.0",
              {| Analyzers.dist :=
                   Some {| Analyzers.unpackedSize := Some (Int 214000) |} |})] |}.

(** Metadata without [dist-tags] and without a [modified] time. *)
Definition untagged_time : list (string * string) :=
  [("created", "2010-12-29T19:38:25.000Z");
   ("1.1.0", "2021-02-11T00:00:00.000Z");
   ("1.0.0", "2019-05-04T00:00:00.000Z")].

Definition untagged : Analyzers.PackageInfo :=
  {| Analyzers.dist_tags := None;
     Analyzers.time := Some untagged_time;
     Analyzers.versions := None |}.

(** The registry knows the single package [express]; no size in this world
    lies outside the safe integers. *)
Definition world : Shipped.World :=
  {| Shipped.parseDate := parseDate;
     Shipped.toISODate := toISODate;
     Shipped.invalid_time := invalid_time;
     Shipped.now := now;
     Shipped.String_unsafe := fun _ => "1e+21";
     Shipped.toFixed1_unsafe := fun _ _ => "1e+21";
     Shipped.registry :=
       fun name =>
         if String.eqb name "express" then fulfilled (Some express)
         else fulfilled None;
     Shipped.weekly := fun _ => Some {| Analyzers.downloads := Some (Int 30000000) |};
     Shipped.range := fun _ => None;
     Shipped.alternatives := [] |}.

(** [{ name, score, grade }], graded by the scorer. *)
Definition result (n : string) (s : Z) : AnalysisResult :=
  {| name := Some n; version := None; latestVersion := None;
     maintenance := None; popularity := None; size := None; security := None;
     alternative := None; score := Some s; grade := Some (Score.calculateGrade s);
     error := None |}.

Definition results : Index.Project.t :=
  {| Index.Project.dependencies := [result "express" 90; result "request" 10];
     Index.Project.devDependencies := [result "jest" 50];
     Index.Project.projectScore := 50;
     Index.Project.projectGrade := "C" |}.

(** [--json --dev --limit 2] *)
Definition options : JsonReporter.Options :=
  {| JsonReporter.dev := Some true;
     JsonReporter.fix_ := None;
     JsonReporter.limit := Some (Int 2);
     JsonReporter.quiet := None |}.

End Express.

(** * Theorems *)

(** ** The blocks of [calculateScore] *)

Ltac split_ifs :=
  repeat match goal with
         | |- context [if ?c then _ else _] => destruct c
         end.

Lemma maintenanceStep_add (r : AnalysisResult) (s : Z) :
  Score.maintenanceStep r s = s + maintenancePoints r.
Proof.
  unfold maintenancePoints, Score.maintenanceStep.
  destruct (maintenance r); split_ifs; lia.
Qed.

Lemma popularityStep_add (r : AnalysisResult) (s : Z) :
  Score.popularityStep r s = s + popularityPoints r.
Proof.
  unfold popularityPoints, Score.popularityStep.
  destruct (popularity r); cbv zeta; split_ifs; lia.
Qed.

Lemma sizeStep_add (r : AnalysisResult) (s : Z) :
  Score.sizeStep r s = s + sizePoints r.
Proof.
  unfold sizePoints, Score.sizeStep.
  destruct (size r); cbv zeta; split_ifs; lia.
Qed.

Lemma securityStep_add (r : AnalysisResult) (s : Z) :
  Score.securityStep r s = s + securityPoints r.
Proof.
  unfold securityPoints, Score.securityStep.
  destruct (security r); cbv zeta; split_ifs; lia.
Qed.

Lemma trendStep_add (r : AnalysisResult) (s : Z) :
  Score.trendStep r s = s + trendPoints r.
Proof.
  unfold trendPoints, Score.trendStep.
  destruct (popularity r); cbv zeta; split_ifs; lia.
Qed.

Lemma maintenancePoints_range (r : AnalysisResult) : 0 <= maintenancePoints r <= 30.
Proof.
  unfold maintenancePoints, Score.maintenanceStep.
  destruct (maintenance r); split_ifs; lia.
Qed.

Lemma popularityPoints_range (r : AnalysisResult) : 0 <= popularityPoints r <= 20.
Proof.
  unfold popularityPoints, Score.popularityStep.
  destruct (popularity r); cbv zeta; split_ifs; lia.
Qed.

Lemma sizePoints_range (r : AnalysisResult) : 0 <= sizePoints r <= 15.
Proof.
  unfold sizePoints, Score.sizeStep.
  destruct (size r); cbv zeta; split_ifs; lia.
Qed.

Lemma securityPoints_range (r : AnalysisResult) : 0 <= securityPoints r <= 25.
Proof.
  unfold securityPoints, Score.securityStep.
  destruct (security r); cbv zeta; split_ifs; lia.
Qed.

Lemma trendPoints_range (r : AnalysisResult) : 0 <= trendPoints r <= 10.
Proof.
  unfold trendPoints, Score.trendStep.
  destruct (popularity r); cbv zeta; split_ifs; lia.
Qed.

(** The clamp at the end of [calculateScore] never changes the sum: the five
    blocks add up to a value that is already within 0..100. *)
Lemma calculateScore_sum (r : AnalysisResult) :
  Score.calculateScore r =
  maintenancePoints r + popularityPoints r + sizePoints r
  + securityPoints r + trendPoints r.
Proof.
  unfold Score.calculateScore; cbv zeta.
  rewrite trendStep_add, securityStep_add, sizeStep_add, popularityStep_add,
    maintenanceStep_add.
  pose proof (maintenancePoints_range r).
  pose proof (popularityPoints_range r).
  pose proof (sizePoints_range r).
  pose proof (securityPoints_range r).
  pose proof (trendPoints_range r).
  lia.
Qed.

(** ** The scorer against the table *)

Lemma maintenancePoints_table (b : Table.Bundle) :
  maintenancePoints (to_result b) = Table.maintenance_points b.
Proof.
  unfold maintenancePoints, Score.maintenanceStep, Table.maintenance_points.
  destruct b as [[[]|] ? ? ?]; reflexivity.
Qed.

Lemma popularityPoints_table (b : Table.Bundle) :
  popularityPoints (to_result b) = Table.popularity_points b.
Proof.
  unfold popularityPoints, Score.popularityStep, Table.popularity_points.
  destruct b as [? [[dl t]|] ? ?]; cbn [to_result popularity Table.popularity option_map
    Shape.weeklyDownloads Table.weeklyDownloads]; [|reflexivity].
  cbv zeta.
  destruct dl as [|p]; [reflexivity|].
  cbn [JS.or_zero JS.truthy Z.of_N JS.gt].
  repeat match goal with
         | |- context [(?a <? ?b)%Z] => destruct (Z.ltb_spec a b)
         | |- context [(?a <? ?b)%N] => destruct (N.ltb_spec a b)
         end; lia.
Qed.

Lemma sizePoints_table (b : Table.Bundle) :
  sizePoints (to_result b) = Table.size_points b.
Proof.
  unfold sizePoints, Score.sizeStep, Table.size_points.
  destruct b as [? ? [bytes|] ?]; cbn [to_result size Table.size option_map
    Shape.unpackedSize]; [|reflexivity].
  cbv zeta.
  destruct bytes as [|p]; [reflexivity|].
  cbn [JS.or_zero JS.truthy Z.of_N JS.lt JS.eq_lit Z.eqb N.eqb].
  repeat match goal with
         | |- context [(?a <? ?b)%Z] => destruct (Z.ltb_spec a b)
         | |- context [(?a <? ?b)%N] => destruct (N.ltb_spec a b)
         end; lia.
Qed.

Lemma securityPoints_table (b : Table.Bundle) :
  securityPoints (to_result b) = Table.security_points b.
Proof.
  unfold securityPoints, Score.securityStep, Table.security_points.
  destruct b as [? ? ? [[]|]]; reflexivity.
Qed.

Lemma trendPoints_table (b : Table.Bundle) :
  trendPoints (to_result b) = Table.trend_points b.
Proof.
  unfold trendPoints, Score.trendStep, Table.trend_points.
  destruct b as [? [[dl []]|] ? ?]; reflexivity.
Qed.

(** C1.  For every signal bundle of the data model, [calculateScore] is the
    sum of the five bucket contributions of the scoring table.  The
    popularity bands are bounded with a strict [>] and the size bands with a
    strict [<]: on any result object, exactly 1,000,000 weekly downloads earn
    15 points (one more earns 20), exactly 100,000 earn 10, and exactly
    102,400 bytes earn 12 points (one less earns 15).  The mixed bundle of the
    specification scores 52 and its worst bundle scores 2. *)
Theorem calculateScore_table :
  (forall b : Table.Bundle, Score.calculateScore (to_result b) = Table.points b)
  /\ (forall (r : AnalysisResult) (p : Shape.Popularity),
        popularity r = Some p ->
        (Shape.weeklyDownloads p = Some (JS.Int 1000000) -> popularityPoints r = 15)
        /\ (Shape.weeklyDownloads p = Some (JS.Int 1000001) -> popularityPoints r = 20)
        /\ (Shape.weeklyDownloads p = Some (JS.Int 100000) -> popularityPoints r = 10))
  /\ (forall (r : AnalysisResult) (s : Shape.Size),
        size r = Some s ->
        (Shape.unpackedSize s = Some (JS.Int 102400) -> sizePoints r = 12)
        /\ (Shape.unpackedSize s = Some (JS.Int 102399) -> sizePoints r = 15))
  /\ Score.calculateScore (to_result Table.mixed) = 52
  /\ Score.calculateScore (to_result Table.worst) = 2.
Proof.
  split; [|split; [|split; [|split]]].
  - intros b. rewrite calculateScore_sum. unfold Table.points.
    now rewrite maintenancePoints_table, popularityPoints_table, sizePoints_table,
      securityPoints_table, trendPoints_table.
  - intros r p Hp. unfold popularityPoints, Score.popularityStep. rewrite Hp.
    repeat split; intros ->; reflexivity.
  - intros r s Hs. unfold sizePoints, Score.sizeStep. rewrite Hs.
    repeat split; intros ->; reflexivity.
  - reflexivity.
  - reflexivity.
Qed.

(** A result object with exactly 1,000,000 weekly downloads. *)
Lemma calculateScore_table_witness :
  popularityPoints
    (to_result
       {| Table.maintenance := None;
          Table.popularity :=
            Some {| Table.weeklyDownloads := 1000000; Table.trend := Table.stable |};
          Table.size := None;
          Table.security := None |})
  = 15.
Proof.
  refine (proj1 (proj1 (proj2 calculateScore_table) _ _ _) _); reflexivity.
Defined.

(** C2.  [calculateGrade] maps a score to its letter with every band
    inclusive on its lower bound: 80..100 is A, 60..79 is B, 40..59 is C,
    20..39 is D and 0..19 is F; the eight boundary scores get the letters the
    specification lists. *)
Theorem calculateGrade_bands :
  (forall s : Z,
      (80 <= s <= 100 -> Score.calculateGrade s = "A")
      /\ (60 <= s < 80 -> Score.calculateGrade s = "B")
      /\ (40 <= s < 60 -> Score.calculateGrade s = "C")
      /\ (20 <= s < 40 -> Score.calculateGrade s = "D")
      /\ (0 <= s < 20 -> Score.calculateGrade s = "F"))
  /\ Score.calculateGrade 80 = "A" /\ Score.calculateGrade 79 = "B"
  /\ Score.calculateGrade 60 = "B" /\ Score.calculateGrade 59 = "C"
  /\ Score.calculateGrade 40 = "C" /\ Score.calculateGrade 39 = "D"
  /\ Score.calculateGrade 20 = "D" /\ Score.calculateGrade 19 = "F".
Proof.
  split; [|repeat split].
  intros s. unfold Score.calculateGrade.
  repeat split; intros H;
    repeat match goal with
           | |- context [(?a <=? ?b)%Z] => destruct (Z.leb_spec a b)
           end; (reflexivity || lia).
Qed.

Lemma calculateGrade_bands_witness : Score.calculateGrade 67 = "B".
Proof.
  apply (proj1 (proj2 (proj1 calculateGrade_bands 67))). lia.
Defined.

(** The score is within 0..100 and depends on nothing but the four signal
    sub-records. *)
Lemma calculateScore_total_aux :
  (forall r : AnalysisResult, 0 <= Score.calculateScore r <= 100)
  /\ (forall r1 r2 : AnalysisResult,
         maintenance r1 = maintenance r2 ->
         popularity r1 = popularity r2 ->
         size r1 = size r2 ->
         security r1 = security r2 ->
         Score.calculateScore r1 = Score.calculateScore r2).
Proof.
  split.
  - intros r. unfold Score.calculateScore; cbv zeta. lia.
  - intros r1 r2 Hm Hp Hs Hsec.
    unfold Score.calculateScore, Score.maintenanceStep, Score.popularityStep,
      Score.sizeStep, Score.securityStep, Score.trendStep.
    now rewrite Hm, Hp, Hs, Hsec.
Qed.

(** C7.  [calculateScore] is defined on every result object, whichever of the
    four signal sub-records are missing, and its value is an integer within
    0..100; the value depends on nothing but the four sub-records.  The empty
    object scores 0, which is grade F. *)
Theorem calculateScore_total :
  (forall r : AnalysisResult, 0 <= Score.calculateScore r <= 100)
  /\ (forall r1 r2 : AnalysisResult,
         maintenance r1 = maintenance r2 ->
         popularity r1 = popularity r2 ->
         size r1 = size r2 ->
         security r1 = security r2 ->
         Score.calculateScore r1 = Score.calculateScore r2)
  /\ Score.calculateScore empty_result = 0
  /\ Score.calculateGrade (Score.calculateScore empty_result) = "F".
Proof.
  split; [|split; [|split]].
  - exact (proj1 calculateScore_total_aux).
  - exact (proj2 calculateScore_total_aux).
  - reflexivity.
  - reflexivity.
Qed.

(** The score does not read the [score] property of its argument. *)
Lemma calculateScore_total_witness :
  Score.calculateScore (of_score 5) = Score.calculateScore empty_result.
Proof.
  apply (proj1 (proj2 calculateScore_total)); reflexivity.
Defined.

(** C9.  A size sub-record that is present but whose [unpackedSize] is
    missing, [0] or [NaN] (the falsy numbers) earns the 8 points of an unknown
    size, and a result object without a size sub-record earns no size points:
    the score with such a sub-record is the score without it plus 8.
    [{size: {}}] scores 8 and [{}] scores 0. *)
Theorem unknown_size_partial_credit :
  (forall (r : AnalysisResult) (s : Shape.Size),
      Shape.unpackedSize s = None
      \/ Shape.unpackedSize s = Some (JS.Int 0)
      \/ Shape.unpackedSize s = Some JS.NaN ->
      sizePoints (with_size r (Some s)) = 8
      /\ sizePoints (with_size r None) = 0
      /\ Score.calculateScore (with_size r (Some s))
         = Score.calculateScore (with_size r None) + 8)
  /\ Score.calculateScore only_empty_size = 8
  /\ Score.calculateScore empty_result = 0.
Proof.
  split; [|split; reflexivity].
  intros r s Hs.
  assert (H8 : sizePoints (with_size r (Some s)) = 8).
  { unfold sizePoints, Score.sizeStep; cbn [with_size size].
    destruct Hs as [-> | [-> | ->]]; reflexivity. }
  assert (H0 : sizePoints (with_size r None) = 0) by reflexivity.
  repeat split; trivial.
  rewrite !calculateScore_sum, H8, H0.
  unfold maintenancePoints, popularityPoints, securityPoints, trendPoints,
    Score.maintenanceStep, Score.popularityStep, Score.securityStep, Score.trendStep.
  cbn [with_size maintenance popularity security]. lia.
Qed.

(** The mixed bundle with a size sub-record whose [unpackedSize] is [NaN]. *)
Lemma unknown_size_partial_credit_witness :
  Score.calculateScore
    (with_size (to_result Table.mixed)
       (Some {| Shape.unpackedSize := Some JS.NaN; Shape.unpackedSizeHuman := None |}))
  = Score.calculateScore (with_size (to_result Table.mixed) None) + 8.
Proof.
  apply (proj1 unknown_size_partial_credit
           (to_result Table.mixed)
           {| Shape.unpackedSize := Some JS.NaN; Shape.unpackedSizeHuman := None |}).
  right; right; reflexivity.
Defined.

(** C10.  [calculateGrade] is defined on every integer: a score above 100 is
    still an A, a negative score is still an F, and no score produces a
    letter other than A, B, C, D or F. *)
Theorem calculateGrade_total :
  forall s : Z,
    (100 < s -> Score.calculateGrade s = "A")
    /\ (s < 0 -> Score.calculateGrade s = "F")
    /\ In (Score.calculateGrade s) ["A"; "B"; "C"; "D"; "F"].
Proof.
  intros s. unfold Score.calculateGrade.
  repeat split; try intros H;
    repeat match goal with
           | |- context [(?a <=? ?b)%Z] => destruct (Z.leb_spec a b)
           end; try (reflexivity || lia); cbn; tauto.
Qed.

Lemma calculateGrade_total_witness :
  Score.calculateGrade 250 = "A" /\ Score.calculateGrade (-3) = "F".
Proof.
  split.
  - apply (proj1 (calculateGrade_total 250)). lia.
  - apply (proj1 (proj2 (calculateGrade_total (-3)))). lia.
Defined.

(** ** The project score against the weighted mean *)

Lemma sumQ_app (l1 l2 : list Q) :
  (Aggregate.sumQ (l1 ++ l2) == Aggregate.sumQ l1 + Aggregate.sumQ l2)%Q.
Proof.
  unfold Aggregate.sumQ.
  induction l1 as [|x l1 IH]; cbn [app fold_right].
  - ring.
  - rewrite IH. ring.
Qed.

(** What a [for] loop of [calculateProjectScore] leaves in the two
    accumulators. *)
Lemma fold_accumulate (k : Aggregate.Kind) (l : list AnalysisResult) :
  forall a b : Q,
    let es := map (fun r => (Score.scoreOf r, k)) l in
    let acc := fold_left (Score.accumulate (Aggregate.weight k)) l (a, b) in
    (fst acc == a + Aggregate.weighted_sum es)%Q
    /\ (snd acc == b + Aggregate.total_weight es)%Q.
Proof.
  induction l as [|r l IH]; intros a b; cbn zeta.
  - unfold Aggregate.weighted_sum, Aggregate.total_weight, Aggregate.sumQ.
    cbn [fold_left map fold_right fst snd]. split; ring.
  - cbn [fold_left map]. unfold Score.accumulate at 2; cbn zeta.
    destruct (IH (a + inject_Z (Score.scoreOf r) * Aggregate.weight k)%Q
                 (b + Aggregate.weight k)%Q) as [H1 H2].
    cbn zeta in H1, H2. rewrite H1, H2.
    unfold Aggregate.weighted_sum, Aggregate.total_weight, Aggregate.sumQ.
    cbn [map fold_right fst snd]. split; ring.
Qed.

Lemma weight_pos (k : Aggregate.Kind) : (0 < Aggregate.weight k)%Q.
Proof. destruct k; reflexivity. Qed.

Lemma total_weight_nonneg (es : list (Z * Aggregate.Kind)) :
  (0 <= Aggregate.total_weight es)%Q.
Proof.
  unfold Aggregate.total_weight, Aggregate.sumQ.
  induction es as [|e es IH]; cbn [map fold_right].
  - apply Qle_refl.
  - pose proof (weight_pos (snd e)) as Hw.
    apply Qlt_le_weak in Hw.
    pose proof (Qplus_le_compat _ _ _ _ Hw IH) as H.
    now rewrite Qplus_0_l in H.
Qed.

Lemma total_weight_pos (es : list (Z * Aggregate.Kind)) :
  es <> [] -> (0 < Aggregate.total_weight es)%Q.
Proof.
  destruct es as [|e es]; [congruence|]. intros _.
  pose proof (total_weight_nonneg es) as H.
  pose proof (weight_pos (snd e)) as Hw.
  unfold Aggregate.total_weight, Aggregate.sumQ in *. cbn [map fold_right].
  pose proof (Qplus_lt_le_compat _ _ _ _ Hw H) as H'.
  now rewrite Qplus_0_l in H'.
Qed.

(** A weighted sum of scores within 0..100 lies between 0 and 100 times the
    total weight. *)
Lemma weighted_sum_bounds (es : list (Z * Aggregate.Kind)) :
  Forall (fun e => 0 <= fst e <= 100) es ->
  (0 <= Aggregate.weighted_sum es)%Q
  /\ (Aggregate.weighted_sum es <= 100 * Aggregate.total_weight es)%Q.
Proof.
  unfold Aggregate.weighted_sum, Aggregate.total_weight, Aggregate.sumQ.
  induction 1 as [|e es [Hlo Hhi] _ [IH0 IH1]]; cbn [map fold_right].
  - split; [apply Qle_refl | rewrite Qmult_0_r; apply Qle_refl].
  - pose proof (weight_pos (snd e)) as Hw. apply Qlt_le_weak in Hw.
    assert (H0 : (inject_Z 0 <= inject_Z (fst e))%Q)
      by (rewrite <- Zle_Qle; exact Hlo).
    assert (H100 : (inject_Z (fst e) <= inject_Z 100)%Q)
      by (rewrite <- Zle_Qle; exact Hhi).
    change (inject_Z 0) with 0%Q in H0. change (inject_Z 100) with 100%Q in H100.
    split.
    + pose proof (Qmult_le_0_compat _ _ H0 Hw) as Hp.
      pose proof (Qplus_le_compat _ _ _ _ Hp IH0) as H.
      now rewrite Qplus_0_l in H.
    + rewrite Qmult_plus_distr_r.
      apply Qplus_le_compat; [|exact IH1].
      apply Qmult_le_compat_r; assumption.
Qed.

(** [Math.round] returns the nearest integer, a tie going up. *)
Lemma Math_round_rounds_to (x : Q) : Aggregate.rounds_to x (Score.Math_round x).
Proof.
  unfold Aggregate.rounds_to, Score.Math_round.
  pose proof (Qfloor_le (x + (1 # 2))) as Hle.
  pose proof (Qlt_floor (x + (1 # 2))) as Hlt.
  rewrite inject_Z_plus in Hlt.
  split.
  - apply (Qplus_le_l _ _ (1 # 2)).
    setoid_replace (inject_Z (Qfloor (x + (1 # 2))) - (1 # 2) + (1 # 2))%Q
      with (inject_Z (Qfloor (x + (1 # 2)))) by ring.
    exact Hle.
  - apply (Qplus_lt_l _ _ (1 # 2)).
    setoid_replace (inject_Z (Qfloor (x + (1 # 2))) + (1 # 2) + (1 # 2))%Q
      with (inject_Z (Qfloor (x + (1 # 2))) + inject_Z 1)%Q by ring.
    exact Hlt.
Qed.

(** At most one integer is the rounding of a rational. *)
Lemma rounds_to_unique (q : Q) (n m : Z) :
  Aggregate.rounds_to q n -> Aggregate.rounds_to q m -> n = m.
Proof.
  unfold Aggregate.rounds_to. intros [Hn1 Hn2] [Hm1 Hm2].
  assert (H1 : (inject_Z n < inject_Z (m + 1))%Q).
  { rewrite inject_Z_plus.
    apply (Qplus_lt_l _ _ (- (1 # 2))).
    apply Qle_lt_trans with q; [exact Hn1|].
    setoid_replace (inject_Z m + inject_Z 1 + - (1 # 2))%Q
      with (inject_Z m + (1 # 2))%Q by ring.
    exact Hm2. }
  assert (H2 : (inject_Z m < inject_Z (n + 1))%Q).
  { rewrite inject_Z_plus.
    apply (Qplus_lt_l _ _ (- (1 # 2))).
    apply Qle_lt_trans with q; [exact Hm1|].
    setoid_replace (inject_Z n + inject_Z 1 + - (1 # 2))%Q
      with (inject_Z n + (1 # 2))%Q by ring.
    exact Hn2. }
  rewrite <- Zlt_Qlt in H1, H2. lia.
Qed.

Lemma Math_round_range (x : Q) :
  (0 <= x)%Q -> (x <= 100)%Q -> 0 <= Score.Math_round x <= 100.
Proof.
  intros H0 H100. unfold Score.Math_round. split.
  - change 0 with (Qfloor (inject_Z 0)) at 1. apply Qfloor_resp_le.
    apply Qle_trans with x; [exact H0|].
    rewrite <- (Qplus_0_r x) at 1. apply Qplus_le_r. discriminate.
  - apply Z.le_trans with (Qfloor (100 + (1 # 2))).
    + apply Qfloor_resp_le. apply Qplus_le_l. exact H100.
    + vm_compute. discriminate.
Qed.

Lemma scored_scoreOf (l : list AnalysisResult) (k : Aggregate.Kind) :
  Forall scored l ->
  Forall (fun e => 0 <= fst e <= 100) (map (fun r => (Score.scoreOf r, k)) l).
Proof.
  induction 1 as [|r l [s [Hs Hr]] _ IH]; cbn [map]; constructor; trivial.
  unfold Score.scoreOf; cbn [fst]. now rewrite Hs.
Qed.

(** The two loops of [calculateProjectScore] compute the two sums of the
    specification; the function then rounds their quotient. *)
Lemma calculateProjectScore_sums (results devResults : list AnalysisResult) :
  let es := Aggregate.entries (map Score.scoreOf results) (map Score.scoreOf devResults) in
  exists weightedSum totalWeight : Q,
    (weightedSum == Aggregate.weighted_sum es)%Q
    /\ (totalWeight == Aggregate.total_weight es)%Q
    /\ Score.calculateProjectScore results devResults
       = if Qeq_bool totalWeight 0 then 0
         else Score.Math_round (weightedSum / totalWeight).
Proof.
  cbv zeta. unfold Score.calculateProjectScore; cbv zeta.
  change 1%Q with (Aggregate.weight Aggregate.production).
  change (1 # 2)%Q with (Aggregate.weight Aggregate.dev).
  destruct (fold_left (Score.accumulate (Aggregate.weight Aggregate.production))
              results (0%Q, 0%Q)) as [a b] eqn:E1.
  destruct (fold_left (Score.accumulate (Aggregate.weight Aggregate.dev))
              devResults (a, b)) as [ws tw] eqn:E2.
  exists ws, tw.
  destruct (fold_accumulate Aggregate.production results 0%Q 0%Q) as [Ha Hb].
  destruct (fold_accumulate Aggregate.dev devResults a b) as [Hws Htw].
  cbv zeta in Ha, Hb, Hws, Htw. rewrite E1 in Ha, Hb. rewrite E2 in Hws, Htw.
  cbn [fst snd] in *.
  unfold Aggregate.entries, Aggregate.weighted_sum, Aggregate.total_weight in *.
  rewrite !map_app, !sumQ_app, !map_map in *. cbn [fst snd] in *.
  repeat split.
  - rewrite Hws, Ha. ring.
  - rewrite Htw, Hb. ring.
Qed.

(** C3.  For result sequences whose entries carry integer scores within
    0..100, [calculateProjectScore] is the sum of [score_i * weight_i] divided
    by the sum of [weight_i], rounded to the nearest integer (it is the one
    integer that rounds the quotient), with weight 1 for a production entry
    and 1/2 for a dev entry; the result is an integer within 0..100.  Two empty sequences give 0, and
    [[{score:80},{score:60}]] with [[{score:40}]] gives 64. *)
Theorem calculateProjectScore_weighted_mean :
  (forall results devResults : list AnalysisResult,
      Forall scored results ->
      Forall scored devResults ->
      let es :=
        Aggregate.entries (map Score.scoreOf results) (map Score.scoreOf devResults) in
      (es <> [] ->
       Aggregate.rounds_to
         (Aggregate.weighted_sum es / Aggregate.total_weight es)
         (Score.calculateProjectScore results devResults)
       /\ (forall n : Z,
              Aggregate.rounds_to
                (Aggregate.weighted_sum es / Aggregate.total_weight es) n ->
              n = Score.calculateProjectScore results devResults))
      /\ 0 <= Score.calculateProjectScore results devResults <= 100)
  /\ Score.calculateProjectScore [] [] = 0
  /\ Score.calculateProjectScore [of_score 80; of_score 60] [of_score 40] = 64.
Proof.
  split; [|split; reflexivity].
  intros results devResults Hp Hd es.
  destruct (calculateProjectScore_sums results devResults)
    as (ws & tw & Hws & Htw & ->).
  fold es in Hws, Htw.
  assert (Hes : Forall (fun e => 0 <= fst e <= 100) es).
  { unfold es, Aggregate.entries. rewrite !map_map. apply Forall_app. split.
    - exact (scored_scoreOf results Aggregate.production Hp).
    - exact (scored_scoreOf devResults Aggregate.dev Hd). }
  destruct (weighted_sum_bounds es Hes) as [Hlo Hhi].
  assert (Hround : es <> [] ->
            Qeq_bool tw 0 = false
            /\ (0 <= ws / tw)%Q /\ (ws / tw <= 100)%Q
            /\ (ws / tw == Aggregate.weighted_sum es / Aggregate.total_weight es)%Q).
  { intros Hne. pose proof (total_weight_pos es Hne) as Hpos.
    rewrite <- Htw in Hpos. rewrite <- Hws in Hlo. rewrite <- Hws, <- Htw in Hhi.
    repeat split.
    - destruct (Qeq_bool tw 0) eqn:E; [|reflexivity].
      apply Qeq_bool_eq in E. rewrite E in Hpos. discriminate Hpos.
    - apply Qle_shift_div_l; [exact Hpos|]. now rewrite Qmult_0_l.
    - apply Qle_shift_div_r; [exact Hpos|]. exact Hhi.
    - now rewrite Hws, Htw. }
  split.
  - intros Hne. destruct (Hround Hne) as (-> & _ & _ & Heq).
    assert (Hr : Aggregate.rounds_to
                   (Aggregate.weighted_sum es / Aggregate.total_weight es)
                   (Score.Math_round (ws / tw))).
    { unfold Aggregate.rounds_to. rewrite <- Heq. apply Math_round_rounds_to. }
    split; [exact Hr|].
    intros n Hn. exact (rounds_to_unique _ _ _ Hn Hr).
  - destruct es as [|e es'] eqn:Ees.
    + assert (E : Qeq_bool tw 0 = true) by (apply Qeq_bool_iff; exact Htw).
      rewrite E. lia.
    + destruct Hround as (-> & H0 & H100 & _); [discriminate|].
      now apply Math_round_range.
Qed.

(** Two production entries and one dev entry. *)
Lemma calculateProjectScore_weighted_mean_witness :
  Aggregate.rounds_to
    (Aggregate.weighted_sum (Aggregate.entries [80; 60] [40])
     / Aggregate.total_weight (Aggregate.entries [80; 60] [40]))
    (Score.calculateProjectScore [of_score 80; of_score 60] [of_score 40])
  /\ 0 <= Score.calculateProjectScore [of_score 80; of_score 60] [of_score 40] <= 100.
Proof.
  assert (Hp : Forall scored [of_score 80; of_score 60])
    by (repeat constructor; (eexists; split; [reflexivity | lia])).
  assert (Hd : Forall scored [of_score 40])
    by (repeat constructor; (eexists; split; [reflexivity | lia])).
  pose proof (proj1 calculateProjectScore_weighted_mean
                [of_score 80; of_score 60] [of_score 40] Hp Hd) as H.
  cbv zeta in H. destruct H as [Hround Hrange].
  split; [apply Hround; discriminate | exact Hrange].
Defined.

(** ** The orchestrator *)

Lemma analyzePackage_name_version (S : Index.Services) (n v : string)
    (o : Index.AnalyzeOptions) (r : AnalysisResult) :
  Index.analyzePackage S n v o = JS.fulfilled r -> name_version r = (Some n, Some v).
Proof.
  unfold Index.analyzePackage.
  destruct (Index.getPackageInfo S n) as [[info|]|reason]; intros H;
    inversion H; reflexivity.
Qed.

Lemma nth_error_mapi_from {A B : Type} (f : A -> nat -> B) (arr : list A) :
  forall k i : nat,
    nth_error (Index.mapi_from f k arr) i
    = option_map (fun r => f r (k + i)%nat) (nth_error arr i).
Proof.
  induction arr as [|r arr IH]; intros k i.
  - destruct i; reflexivity.
  - destruct i as [|i]; cbn [Index.mapi_from nth_error option_map].
    + now rewrite Nat.add_0_r.
    + rewrite IH. now rewrite Nat.add_succ_r.
Qed.

(** The result at index [i] belongs to the entry at index [i]. *)
Lemma analyzeEntries_nth (S : Index.Services) (o : Index.AnalyzeOptions)
    (entries : list (string * string)) (i : nat) (n v : string) :
  nth_error entries i = Some (n, v) ->
  nth_error (Index.analyzeEntries S o entries) i
  = Some (Index.settledResult entries (Index.analyzePackage S n v o) i).
Proof.
  intros H. unfold Index.analyzeEntries, Index.mapi; cbv zeta.
  rewrite nth_error_mapi_from, nth_error_map, H. reflexivity.
Qed.

Lemma length_mapi_from {A B : Type} (f : A -> nat -> B) (arr : list A) :
  forall k : nat, List.length (Index.mapi_from f k arr) = List.length arr.
Proof.
  induction arr as [|r arr IH]; intros k; cbn; [reflexivity|].
  now rewrite IH.
Qed.

Lemma analyzeEntries_length (S : Index.Services) (o : Index.AnalyzeOptions)
    (entries : list (string * string)) :
  List.length (Index.analyzeEntries S o entries) = List.length entries.
Proof.
  unfold Index.analyzeEntries, Index.mapi; cbv zeta.
  now rewrite length_mapi_from, length_map.
Qed.

(** Whether its analysis was fulfilled or rejected, a result carries the name
    and the version of its entry. *)
Lemma settledResult_name_version (S : Index.Services) (o : Index.AnalyzeOptions)
    (entries : list (string * string)) (i : nat) (n v : string) :
  nth_error entries i = Some (n, v) ->
  name_version (Index.settledResult entries (Index.analyzePackage S n v o) i)
  = declared (n, v).
Proof.
  intros H. unfold Index.settledResult.
  destruct (Index.analyzePackage S n v o) as [r|reason] eqn:E.
  - now apply analyzePackage_name_version in E.
  - unfold name_version; cbn [name version]. now rewrite H.
Qed.

Lemma analyzeEntries_name_version (S : Index.Services) (o : Index.AnalyzeOptions)
    (entries : list (string * string)) :
  map name_version (Index.analyzeEntries S o entries) = map declared entries.
Proof.
  apply nth_error_ext. intros i. rewrite !nth_error_map.
  destruct (nth_error entries i) as [[n v]|] eqn:E.
  - rewrite (analyzeEntries_nth S o entries i n v E). cbn [option_map].
    now rewrite settledResult_name_version.
  - cbn [option_map].
    apply nth_error_None in E. rewrite <- (analyzeEntries_length S o) in E.
    apply nth_error_None in E. now rewrite E.
Qed.

(** C4.  When the metadata of a dependency cannot be acquired
    ([getPackageInfo] answers [null]), [analyzePackage] still returns a
    result: score 0, grade F, an error marker, maintenance at its worst case
    (abandoned, infinitely many days since the last publish), zero downloads
    with a stable trend, an unknown size (0 bytes) and a clean security
    record.  The dependency is not dropped: in the output of
    [analyzeProject] that result stands at the index of its entry. *)
Theorem not_found_worst_case :
  forall (S : Index.Services) (n v : string),
    Index.getPackageInfo S n = JS.fulfilled None ->
    exists r : AnalysisResult,
      (forall o : Index.AnalyzeOptions, Index.analyzePackage S n v o = JS.fulfilled r)
      /\ name r = Some n /\ version r = Some v
      /\ score r = Some 0 /\ grade r = Some "F"
      /\ error r = Some "Package not found or network error"
      /\ maintenance r
         = Some {| Shape.lastPublish := Some "unknown";
                   Shape.daysSincePublish := Some JS.Infinity;
                   Shape.status := Some "abandoned" |}
      /\ popularity r
         = Some {| Shape.weeklyDownloads := Some (JS.Int 0);
                   Shape.trend := Some "stable";
                   Shape.trendPercent := Some 0%float |}
      /\ size r
         = Some {| Shape.unpackedSize := Some (JS.Int 0);
                   Shape.unpackedSizeHuman := Some "unknown" |}
      /\ security r
         = Some {| Shape.vulnerabilities := Some (JS.Int 0);
                   Shape.severity := Some "none" |}
      /\ (forall (pkg : Index.Manifest.t) (options : Index.ProjectOptions) (i : nat),
             nth_error (entries_of (Index.Manifest.dependencies pkg)) i = Some (n, v) ->
             nth_error (Index.Project.dependencies (Index.analyzeProject S pkg options)) i
             = Some r).
Proof.
  intros S n v H.
  assert (Hr : forall o, exists r, Index.analyzePackage S n v o = JS.fulfilled r
                                   /\ r = {| name := Some n;
                                             version := Some v;
                                             latestVersion := Some "unknown";
                                             maintenance := Some Index.defaultMaintenance;
                                             popularity := Some Index.defaultPopularity;
                                             size := Some Index.defaultSize;
                                             security := Some Index.defaultSecurity;
                                             alternative := Index.getAlternative S n;
                                             score := Some 0;
                                             grade := Some "F";
                                             error := Some "Package not found or network error" |}).
  { intros o. unfold Index.analyzePackage. rewrite H. eexists; split; reflexivity. }
  destruct (Hr {| Index.noCache := None |}) as (r & _ & Er).
  exists r. split; [|rewrite Er; repeat split].
  - intros o. destruct (Hr o) as (r' & E' & Er'). congruence.
  - intros pkg options i Hi.
    unfold Index.analyzeProject; cbv zeta; cbn [Index.Project.dependencies].
    fold (entries_of (Index.Manifest.dependencies pkg)).
    rewrite (analyzeEntries_nth S _ _ i n v Hi).
    match goal with |- context [Index.analyzePackage S n v ?o] => destruct (Hr o) as (r' & -> & Er') end.
    cbn [Index.settledResult]. congruence.
Qed.

(** A name the registry of [Fixture] does not know. *)
Lemma not_found_worst_case_witness :
  exists r : AnalysisResult,
    Index.analyzePackage Fixture.registry "no-such-package" "^1.0.0" Fixture.options
    = JS.fulfilled r
    /\ score r = Some 0 /\ grade r = Some "F"
    /\ error r = Some "Package not found or network error".
Proof.
  destruct (not_found_worst_case Fixture.registry "no-such-package" "^1.0.0")
    as (r & Hr & _ & _ & Hs & Hg & He & _).
  - reflexivity.
  - exists r. repeat split; trivial.
Defined.

(** The security block of [calculateScore] is the only one that reads the
    security sub-record. *)
Lemma calculateScore_with_security (r : AnalysisResult) (s : option Shape.Security) :
  Score.calculateScore (with_security r s)
  = maintenancePoints r + popularityPoints r + sizePoints r
    + securityPoints (with_security r s) + trendPoints r.
Proof. now rewrite calculateScore_sum. Qed.

(** C5, as stated, fails.  With the registry of [Fixture], whose security
    extractor is rejected while the other three succeed, [analyzePackage]
    scores [left-pad] at 100, and the same result with the security
    sub-record absent scores 75. *)
Lemma security_failure_is_not_absence :
  exists r : AnalysisResult,
    Index.getPackageInfo Fixture.registry "left-pad" = JS.fulfilled (Some tt)
    /\ Index.analyzeSecurity Fixture.registry "left-pad" "^1.3.0"
       = JS.rejected (Some {| JS.message := Some "advisory service unavailable" |})
    /\ Index.analyzePackage Fixture.registry "left-pad" "^1.3.0" Fixture.options
       = JS.fulfilled r
    /\ score r = Some 100
    /\ Score.calculateScore (with_security r None) = 75
    /\ score r <> Some (Score.calculateScore (with_security r None)).
Proof.
  eexists. repeat split; try reflexivity. discriminate.
Qed.

(** C5, amended.  When the metadata was found and the security extractor
    fails while maintenance, popularity and size succeed, [analyzePackage]
    returns a result that keeps the three signals and takes the clean default
    [{vulnerabilities: 0, severity: 'none'}] for security.  Its score is
    [calculateScore] of that bundle, which is 25 more than the score with the
    security sub-record absent; its grade is the grade of that score and is
    never F, and it carries no error marker. *)
Theorem security_failure_isolated :
  forall (S : Index.Services) (n v : string) (o : Index.AnalyzeOptions)
         (info : Index.PackageInfo S)
         (m : Shape.Maintenance) (p : Shape.Popularity) (sz : Shape.Size)
         (reason : option JS.Error),
    Index.getPackageInfo S n = JS.fulfilled (Some info) ->
    Index.analyzeMaintenance S info = JS.fulfilled m ->
    Index.analyzePopularity S n = JS.fulfilled p ->
    Index.analyzeSize S info = JS.fulfilled sz ->
    Index.analyzeSecurity S n v = JS.rejected reason ->
    exists r : AnalysisResult,
      Index.analyzePackage S n v o = JS.fulfilled r
      /\ maintenance r = Some m /\ popularity r = Some p /\ size r = Some sz
      /\ security r
         = Some {| Shape.vulnerabilities := Some (JS.Int 0);
                   Shape.severity := Some "none" |}
      /\ score r = Some (Score.calculateScore r)
      /\ Score.calculateScore r = Score.calculateScore (with_security r None) + 25
      /\ grade r = Some (Score.calculateGrade (Score.calculateScore r))
      /\ grade r <> Some "F"
      /\ error r = None.
Proof.
  intros S n v o info m p sz reason Hinfo Hm Hp Hsz Hsec.
  unfold Index.analyzePackage. rewrite Hinfo, Hm, Hp, Hsz, Hsec.
  cbv zeta; cbn [Index.valueOr].
  set (bundle := {| name := Some n; version := Some v;
                    latestVersion := Some (Index.latestOr (Index.dist_tags S info) "unknown");
                    maintenance := Some m; popularity := Some p; size := Some sz;
                    security := Some Index.defaultSecurity;
                    alternative := Index.getAlternative S n;
                    score := None; grade := None; error := None |}).
  eexists. split; [reflexivity|]. cbn [maintenance popularity size security score grade error].
  assert (Hsame : forall sc g,
             Score.calculateScore
               {| name := Some n; version := Some v;
                  latestVersion := Some (Index.latestOr (Index.dist_tags S info) "unknown");
                  maintenance := Some m; popularity := Some p; size := Some sz;
                  security := Some Index.defaultSecurity;
                  alternative := Index.getAlternative S n;
                  score := sc; grade := g; error := None |}
             = Score.calculateScore bundle).
  { intros sc g. apply (proj2 calculateScore_total_aux); reflexivity. }
  rewrite Hsame.
  assert (H25 : Score.calculateScore bundle
                = Score.calculateScore (with_security bundle None) + 25).
  { rewrite (calculateScore_sum bundle), calculateScore_with_security.
    change (securityPoints bundle) with 25.
    change (securityPoints (with_security bundle None)) with 0. lia. }
  assert (Hnone : forall sc g,
             Score.calculateScore
               (with_security
                  {| name := Some n; version := Some v;
                     latestVersion := Some (Index.latestOr (Index.dist_tags S info) "unknown");
                     maintenance := Some m; popularity := Some p; size := Some sz;
                     security := Some Index.defaultSecurity;
                     alternative := Index.getAlternative S n;
                     score := sc; grade := g; error := None |} None)
             = Score.calculateScore (with_security bundle None)).
  { intros sc g. apply (proj2 calculateScore_total_aux); reflexivity. }
  rewrite Hnone.
  repeat split; trivial.
  pose proof (proj1 calculateScore_total_aux (with_security bundle None)) as Hrange.
  rewrite H25. unfold Score.calculateGrade.
  repeat match goal with
         | |- context [(?a <=? ?b)%Z] => destruct (Z.leb_spec a b)
         end; try discriminate; lia.
Qed.

(** [left-pad] in the registry of [Fixture]. *)
Lemma security_failure_isolated_witness :
  exists r : AnalysisResult,
    Index.analyzePackage Fixture.registry "left-pad" "^1.3.0" Fixture.options
    = JS.fulfilled r
    /\ Score.calculateScore r = Score.calculateScore (with_security r None) + 25
    /\ grade r <> Some "F".
Proof.
  destruct (security_failure_isolated Fixture.registry "left-pad" "^1.3.0"
              Fixture.options tt
              {| Shape.lastPublish := Some "2026-01-15";
                 Shape.daysSincePublish := Some (JS.Int 30);
                 Shape.status := Some "active" |}
              {| Shape.weeklyDownloads := Some (JS.Int 2000000);
                 Shape.trend := Some "growing";
                 Shape.trendPercent := Some 25%float |}
              {| Shape.unpackedSize := Some (JS.Int 50000);
                 Shape.unpackedSizeHuman := Some "49 KB" |}
              (Some {| JS.message := Some "advisory service unavailable" |}))
    as (r & Hr & _ & _ & _ & _ & _ & H25 & _ & HF & _); try reflexivity.
  exists r. repeat split; trivial.
Defined.

(** C6, as stated, fails.  Without [includeDev] (a run without [--dev]) the
    dev dependency that the manifest of [Fixture] declares gets no result:
    the output sequence of dev dependencies is empty. *)
Lemma dev_dependencies_need_includeDev :
  Index.Manifest.devDependencies Fixture.manifest = Some [("jest", "^29.7.0")]
  /\ Index.Project.devDependencies
       (Index.analyzeProject Fixture.registry Fixture.manifest Fixture.default_options)
     = []
  /\ List.length
       (Index.Project.devDependencies
          (Index.analyzeProject Fixture.registry Fixture.manifest Fixture.default_options))
     <> List.length (entries_of (Index.Manifest.devDependencies Fixture.manifest)).
Proof.
  repeat split. discriminate.
Qed.

(** C6, amended.  [analyzeProject] produces exactly one result per declared
    production dependency, and the i-th result carries the name and the
    version of the i-th declared pair, whether its analysis was fulfilled or
    rejected.  The same holds for the declared dev dependencies when
    [includeDev] is set; when it is not, the output sequence of dev
    dependencies is empty. *)
Theorem analyzeProject_one_result_per_entry :
  forall (S : Index.Services) (pkg : Index.Manifest.t) (options : Index.ProjectOptions),
    let out := Index.analyzeProject S pkg options in
    let deps := entries_of (Index.Manifest.dependencies pkg) in
    let devDeps := entries_of (Index.Manifest.devDependencies pkg) in
    List.length (Index.Project.dependencies out) = List.length deps
    /\ map name_version (Index.Project.dependencies out) = map declared deps
    /\ (Index.includeDev options = Some true ->
        List.length (Index.Project.devDependencies out) = List.length devDeps
        /\ map name_version (Index.Project.devDependencies out) = map declared devDeps)
    /\ (Index.includeDev options <> Some true ->
        Index.Project.devDependencies out = []).
Proof.
  intros S pkg options out deps devDeps.
  unfold out, Index.analyzeProject; cbv zeta.
  cbn [Index.Project.dependencies Index.Project.devDependencies].
  fold deps. fold devDeps.
  split; [apply analyzeEntries_length|].
  split; [apply analyzeEntries_name_version|].
  split.
  - intros ->. split; [apply analyzeEntries_length | apply analyzeEntries_name_version].
  - intros H. destruct (Index.includeDev options) as [[|]|]; congruence.
Qed.

(** The manifest of [Fixture], analyzed with [includeDev]. *)
Lemma analyzeProject_one_result_per_entry_witness :
  map name_version
    (Index.Project.devDependencies
       (Index.analyzeProject Fixture.registry Fixture.manifest
          {| Index.includeDev := Some true; Index.useCache := None |}))
  = [(Some "jest", Some "^29.7.0")].
Proof.
  apply (analyzeProject_one_result_per_entry Fixture.registry Fixture.manifest
           {| Index.includeDev := Some true; Index.useCache := None |}).
  reflexivity.
Defined.

(** ** The download trend *)

Section Doubles.
Open Scope float_scope.





(** [Math.round] on a few doubles: ties go up, and a zero keeps its sign. *)
Example Math_round_examples :
  NpmApi.Math_round 2.5 = 3 /\ NpmApi.Math_round (-2.5) = -2
  /\ NpmApi.Math_round 100.5 = 101 /\ NpmApi.Math_round (-100.5) = -100
  /\ NpmApi.Math_round (-0.25) = -0 /\ NpmApi.Math_round 7 = 7
  /\ NpmApi.Math_round nan = nan /\ NpmApi.Math_round infinity = infinity.
Proof. repeat split; vm_compute; reflexivity. Qed.

(** *** The numbers that doubles hold *)










End Doubles.

Lemma skipn_length_app {A : Type} (l1 l2 : list A) :
  skipn (List.length l1) (l1 ++ l2) = l2.
Proof.
  now rewrite skipn_app, skipn_all, Nat.sub_diag.
Qed.

(** In a series of at least 189 days, the recent window is the last seven
    days and the prior window is the seven days that end 182 days before the
    end of the series. *)
Lemma getDownloadTrend_windows (before old between recent : list NpmApi.DayCount) :
  List.length old = 7%nat ->
  List.length between = 175%nat ->
  List.length recent = 7%nat ->
  let downloads := (before ++ old ++ between ++ recent)%list in
  let sixMonthOffset :=
    Z.to_nat (Z.max 0 (Z.of_nat (List.length downloads) - 182 - 7)) in
  NpmApi.slice_last 7 downloads = recent
  /\ NpmApi.slice sixMonthOffset (sixMonthOffset + 7) downloads = old.
Proof.
  intros Ho Hb Hr downloads sixMonthOffset.
  assert (Hlen : List.length downloads = (List.length before + 189)%nat).
  { unfold downloads. rewrite !length_app, Ho, Hb, Hr. lia. }
  assert (Hoff : sixMonthOffset = List.length before).
  { unfold sixMonthOffset. rewrite Hlen. lia. }
  assert (E : downloads = ((before ++ old ++ between) ++ recent)%list).
  { unfold downloads. now rewrite <- !app_assoc. }
  split.
  - unfold NpmApi.slice_last. rewrite Hlen.
    replace (List.length before + 189 - 7)%nat
      with (List.length (before ++ old ++ between)%list)
      by (rewrite !length_app, Ho, Hb; lia).
    rewrite E. apply skipn_length_app.
  - unfold NpmApi.slice. rewrite Hoff.
    replace (List.length before + 7 - List.length before)%nat
      with (List.length old + 0)%nat by lia.
    unfold downloads. rewrite skipn_length_app, firstn_app_2.
    cbn [firstn]. apply app_nil_r.
Qed.



(** The four outcomes on a year of data.  The last one is a tie of the exact
    quotient (28.75): the doubles decide it downwards. *)
Example getDownloadTrend_examples :
  option_map (fun t => (NpmApi.trend t, NpmApi.percent t)) (trend_of_year 100 120)
  = Some ("growing", 20%float)
  /\ option_map (fun t => (NpmApi.trend t, NpmApi.percent t)) (trend_of_year 100 80)
     = Some ("declining", (-20)%float)
  /\ option_map (fun t => (NpmApi.trend t, NpmApi.percent t)) (trend_of_year 100 105)
     = Some ("stable", 5%float)
  /\ option_map (fun t => (NpmApi.trend t, NpmApi.percent t)) (trend_of_year 0 3)
     = Some ("growing", 100%float)
  /\ option_map (fun t => (NpmApi.trend t, NpmApi.percent t)) (trend_of_year 0 0)
     = Some ("stable", 0%float)
  /\ option_map (fun t => (NpmApi.recent t, NpmApi.sixMonthsAgo t, NpmApi.percent t))
       (trend_of_year 80 103)
     = Some (721%float, 560%float, (287 / 10)%float).
Proof. repeat split; vm_compute; reflexivity. Qed.

(** * Further properties of the code *)

(** ** The cache *)

Section CacheFacts.

Context {V : Type}.

Lemma readCache_writeCache (d : Cache.Disk V) (data : Cache.Table V) :
  Cache.writable d = true ->
  Cache.readCache (Cache.writeCache d data) = data
  /\ Cache.writable (Cache.writeCache d data) = true.
Proof.
  intros Hw. unfold Cache.writeCache. rewrite Hw. split; reflexivity.
Qed.

Lemma readCache_writeCache_other (d : Cache.Disk V) (data : Cache.Table V) (k : string) :
  Cache.readCache d k = data k ->
  Cache.readCache (Cache.writeCache d data) k = Cache.readCache d k.
Proof.
  intros H. unfold Cache.writeCache. destruct (Cache.writable d); [|reflexivity].
  symmetry. exact H.
Qed.

(** The three cases of an assignment. *)
Lemma assign_same (key : string) (entry : Cache.Entry V) (cache : Cache.Table V) :
  key <> "__proto__" -> Cache.assign key entry cache key = Some entry.
Proof.
  intros H. apply String.eqb_neq in H. unfold Cache.assign. rewrite H.
  now rewrite String.eqb_refl.
Qed.

Lemma assign_other (key k : string) (entry : Cache.Entry V) (cache : Cache.Table V) :
  k <> key -> Cache.assign key entry cache k = cache k.
Proof.
  intros H. apply String.eqb_neq in H. unfold Cache.assign.
  destruct (String.eqb key "__proto__"); [destruct (cache key)|];
    try reflexivity; now rewrite H.
Qed.

Lemma assign_cases (key : string) (entry : Cache.Entry V) (cache : Cache.Table V) :
  Cache.assign key entry cache key = Some entry
  \/ (key = "__proto__" /\ cache key = None /\ Cache.assign key entry cache = cache).
Proof.
  unfold Cache.assign.
  destruct (String.eqb_spec key "__proto__") as [E|E].
  - destruct (cache key) eqn:Eown.
    + left. now rewrite String.eqb_refl.
    + right. now repeat split.
  - left. now rewrite String.eqb_refl.
Qed.

(** What [get] answers is decided by the entry of the key alone. *)
Lemma get_fst (now : Z) (key : string) (d : Cache.Disk V) :
  fst (Cache.get now key d)
  = match Cache.readCache d key with
    | Some entry =>
        if (Cache.expiresAt entry <? now)%Z then None else Cache.value entry
    | None => None
    end.
Proof.
  unfold Cache.get; cbv zeta.
  destruct (Cache.readCache d key) as [entry|]; [|reflexivity].
  destruct (Cache.expiresAt entry <? now)%Z; reflexivity.
Qed.

(** X1.  On a disk that accepts writes, a value that was [set] under a key
    other than [__proto__] is what [get] returns for that key until its time
    to live has passed: at [now + ttl] it is still returned (and the disk is
    left as it is); one millisecond later [get] answers [null] and removes
    the entry, so that it answers [null] at whatever time it is asked again.
    (Under the key [__proto__] nothing is stored, see
    [set_proto_stores_nothing].) *)
Theorem cache_set_then_get :
  forall (d : Cache.Disk V) (now now' : Z) (key : string) (v : option V)
         (ttlMs : option Z),
    Cache.writable d = true ->
    key <> "__proto__" ->
    let ttl := match ttlMs with Some t => t | None => 3600000 end in
    let d' := Cache.set now key v ttlMs d in
    (now' <= now + ttl -> Cache.get now' key d' = (v, d'))
    /\ (now + ttl < now' ->
        fst (Cache.get now' key d') = None
        /\ forall t : Z, fst (Cache.get t key (snd (Cache.get now' key d'))) = None).
Proof.
  intros d now now' key v ttlMs Hw Hkey ttl d'.
  assert (Hread : Cache.readCache d' key
                  = Some {| Cache.value := v; Cache.expiresAt := now + ttl |}).
  { unfold d', Cache.set; cbv zeta.
    rewrite (proj1 (readCache_writeCache d _ Hw)).
    now apply assign_same. }
  assert (Hw' : Cache.writable d' = true).
  { unfold d', Cache.set; cbv zeta. apply (readCache_writeCache d _ Hw). }
  split; intros Ht.
  - unfold Cache.get; cbv zeta. rewrite Hread; cbn [Cache.expiresAt Cache.value].
    destruct (Z.ltb_spec (now + ttl) now'); [lia|reflexivity].
  - unfold Cache.get at 1 3; cbv zeta. rewrite Hread; cbn [Cache.expiresAt Cache.value].
    destruct (Z.ltb_spec (now + ttl) now'); [|lia].
    split; [reflexivity|]. intros t. cbn [snd]. rewrite get_fst.
    rewrite (proj1 (readCache_writeCache d' _ Hw')).
    unfold Cache.remove. now rewrite String.eqb_refl.
Qed.

(** A [set] under the key [__proto__] stores nothing when the table has no
    property of its own under that name: the table that is written is the
    table that was read, and the key stays a miss. *)
Lemma set_proto_stores_nothing (d : Cache.Disk V) (now t : Z) (v : option V)
    (ttlMs : option Z) :
  Cache.readCache d "__proto__" = None ->
  Cache.readCache (Cache.set now "__proto__" v ttlMs d) = Cache.readCache d
  /\ fst (Cache.get t "__proto__" (Cache.set now "__proto__" v ttlMs d)) = None.
Proof.
  intros Hown.
  assert (E : Cache.readCache (Cache.set now "__proto__" v ttlMs d) = Cache.readCache d).
  { unfold Cache.set; cbv zeta. unfold Cache.assign. rewrite Hown. cbn.
    unfold Cache.writeCache. destruct (Cache.writable d); reflexivity. }
  split; [exact E|]. rewrite get_fst, E. now rewrite Hown.
Qed.

(** X2.  [get] returns a value exactly when the cache file holds an entry
    for the key that has not expired and whose value is not [null]; it never
    serves an expired entry, and anything it cannot read (a missing or
    unparsable file) is a miss. *)
Theorem cache_get_sound :
  forall (d : Cache.Disk V) (now : Z) (key : string) (v : V),
    fst (Cache.get now key d) = Some v
    <-> exists (data : Cache.Table V) (entry : Cache.Entry V),
          Cache.file d = Cache.stored data
          /\ data key = Some entry
          /\ Cache.value entry = Some v
          /\ now <= Cache.expiresAt entry.
Proof.
  intros d now key v. rewrite get_fst. unfold Cache.readCache. split.
  - destruct (Cache.file d) as [| |data]; try discriminate.
    destruct (data key) as [entry|] eqn:E; [|discriminate].
    destruct (Z.ltb_spec (Cache.expiresAt entry) now); [discriminate|].
    intros Hv. exists data, entry. repeat split; trivial.
  - intros (data & entry & -> & -> & Hv & Hle).
    destruct (Z.ltb_spec (Cache.expiresAt entry) now); [lia|exact Hv].
Qed.

Lemma cache_keys_independent_aux :
  forall (d : Cache.Disk V) (now t : Z) (key other : string) (v : option V)
         (ttlMs : option Z),
    other <> key ->
    fst (Cache.get t other (Cache.set now key v ttlMs d)) = fst (Cache.get t other d)
    /\ fst (Cache.get t other (snd (Cache.get now key d))) = fst (Cache.get t other d).
Proof.
  intros d now t key other v ttlMs Hne.
  apply String.eqb_neq in Hne.
  split; rewrite !get_fst.
  - unfold Cache.set; cbv zeta.
    rewrite readCache_writeCache_other; [reflexivity|].
    symmetry. apply assign_other. now apply String.eqb_neq.
  - unfold Cache.get; cbv zeta.
    destruct (Cache.readCache d key) as [entry|]; [|reflexivity].
    destruct (Cache.expiresAt entry <? now)%Z; [|reflexivity].
    cbn [snd]. rewrite readCache_writeCache_other; [reflexivity|].
    unfold Cache.remove. now rewrite Hne.
Qed.

(** X3.  Keys do not interfere: setting a key, or having [get] remove an
    expired entry of it, changes nothing in what [get] answers for any other
    key, whatever the state of the file and whether or not the write
    succeeds. *)
Theorem cache_keys_independent :
  forall (d : Cache.Disk V) (now t : Z) (key other : string) (v : option V)
         (ttlMs : option Z),
    other <> key ->
    fst (Cache.get t other (Cache.set now key v ttlMs d)) = fst (Cache.get t other d)
    /\ fst (Cache.get t other (snd (Cache.get now key d))) = fst (Cache.get t other d).
Proof. exact cache_keys_independent_aux. Qed.

(** X4.  [clear] empties the cache when the write succeeds: afterwards every
    key is a miss at every time.  A [set] on a file that was missing or
    unparsable starts from the empty table, so that afterwards its key is the
    only one present. *)
Theorem cache_clear_and_repair :
  forall (d : Cache.Disk V),
    Cache.writable d = true ->
    (forall (t : Z) (key : string),
        Cache.get t key (Cache.clear d) = (None, Cache.clear d))
    /\ (forall (now t : Z) (key other : string) (v : option V) (ttlMs : option Z),
           Cache.file d = Cache.missing \/ Cache.file d = Cache.unreadable ->
           other <> key ->
           fst (Cache.get t other (Cache.set now key v ttlMs d)) = None).
Proof.
  intros d Hw. split.
  - intros t key. unfold Cache.get, Cache.clear; cbv zeta.
    now rewrite (proj1 (readCache_writeCache d _ Hw)).
  - intros now t key other v ttlMs Hfile Hne.
    rewrite (proj1 (cache_keys_independent_aux d now t key other v ttlMs Hne)).
    rewrite get_fst. unfold Cache.readCache.
    destruct Hfile as [-> | ->]; reflexivity.
Qed.

End CacheFacts.

(** A fresh, writable disk without a cache file. *)
Lemma cache_set_then_get_witness :
  Cache.get 4600000 "pkg:express"
    (Cache.set 1000000 "pkg:express" (Some "metadata") None
       {| Cache.file := Cache.missing; Cache.writable := true |})
  = (Some "metadata",
     Cache.set 1000000 "pkg:express" (Some "metadata") None
       {| Cache.file := Cache.missing; Cache.writable := true |}).
Proof.
  apply (cache_set_then_get
           {| Cache.file := Cache.missing; Cache.writable := true |}
           1000000 4600000 "pkg:express" (Some "metadata") None).
  - reflexivity.
  - discriminate.
  - lia.
Defined.

Lemma cache_keys_independent_witness :
  fst (Cache.get 5 "dl-week:express"
         (Cache.set 0 "pkg:express" (Some "metadata") None
            {| Cache.file := Cache.unreadable; Cache.writable := true |}))
  = fst (Cache.get 5 "dl-week:express"
           {| Cache.file := Cache.unreadable; Cache.writable := true |}).
Proof.
  apply (cache_keys_independent
           {| Cache.file := Cache.unreadable; Cache.writable := true |}
           0 5 "pkg:express" "dl-week:express" (Some "metadata") None).
  discriminate.
Defined.

Lemma cache_clear_and_repair_witness :
  Cache.get 5 "pkg:express"
    (Cache.clear
       (Cache.set 0 "pkg:express" (Some "metadata") None
          {| Cache.file := Cache.missing; Cache.writable := true |}))
  = (None,
     Cache.clear
       (Cache.set 0 "pkg:express" (Some "metadata") None
          {| Cache.file := Cache.missing; Cache.writable := true |})).
Proof.
  apply (cache_clear_and_repair
           (Cache.set 0 "pkg:express" (Some "metadata") None
              {| Cache.file := Cache.missing; Cache.writable := true |})).
  reflexivity.
Defined.

(** ** The cached fetch *)

Section FetchFacts.

Context {V : Type}.

(** A [get] that answers with a value leaves the disk as it is. *)
Lemma get_hit_disk (now : Z) (key : string) (d : Cache.Disk V) (v : V) :
  fst (Cache.get now key d) = Some v -> Cache.get now key d = (Some v, d).
Proof.
  unfold Cache.get; cbv zeta.
  destruct (Cache.readCache d key) as [entry|]; [|discriminate].
  destruct (Cache.expiresAt entry <? now)%Z; [discriminate|].
  cbn [fst]. now intros ->.
Qed.

(** After a miss, the key stays a miss on the disk that [get] leaves, now
    and at every later time. *)
Lemma get_miss_later (now t : Z) (key : string) (d : Cache.Disk V) :
  fst (Cache.get now key d) = None ->
  now <= t ->
  fst (Cache.get t key (snd (Cache.get now key d))) = None.
Proof.
  intros Hmiss Ht. rewrite get_fst in Hmiss. rewrite get_fst.
  unfold Cache.get; cbv zeta.
  destruct (Cache.readCache d key) as [entry|] eqn:E; cbn [snd].
  - destruct (Z.ltb_spec (Cache.expiresAt entry) now) as [Hexp|Hlive]; cbn [snd].
    + unfold Cache.writeCache.
      destruct (Cache.writable d) eqn:Hw.
      * unfold Cache.readCache; cbn [Cache.file]. unfold Cache.remove.
        now rewrite String.eqb_refl.
      * rewrite E. destruct (Z.ltb_spec (Cache.expiresAt entry) t); [reflexivity|lia].
    + rewrite E. rewrite Hmiss.
      destruct (Cache.expiresAt entry <? t)%Z; reflexivity.
  - now rewrite E.
Qed.

Lemma get_writable (now : Z) (key : string) (d : Cache.Disk V) :
  Cache.writable (snd (Cache.get now key d)) = Cache.writable d.
Proof.
  unfold Cache.get; cbv zeta.
  destruct (Cache.readCache d key) as [entry|]; [|reflexivity].
  destruct (Cache.expiresAt entry <? now)%Z; [|reflexivity].
  cbn [snd]. unfold Cache.writeCache.
  destruct (Cache.writable d) eqn:Hw; [reflexivity|exact Hw].
Qed.

(** [cachedFetch] after a hit and after a miss. *)
Lemma cachedFetch_on_hit (net : string -> Fetch.Answer V) (now_get now_set : Z)
    (url key : string) (d : Cache.Disk V) (v : V) :
  fst (Cache.get now_get key d) = Some v ->
  Fetch.cachedFetch net now_get now_set url key d
  = {| Fetch.result := Some v; Fetch.disk := d; Fetch.requests := [] |}.
Proof.
  intros H. unfold Fetch.cachedFetch. now rewrite (get_hit_disk _ _ _ _ H).
Qed.

Lemma cachedFetch_on_miss (net : string -> Fetch.Answer V) (now_get now_set : Z)
    (url key : string) (d : Cache.Disk V) :
  fst (Cache.get now_get key d) = None ->
  let d1 := snd (Cache.get now_get key d) in
  Fetch.cachedFetch net now_get now_set url key d
  = match net url with
    | Fetch.response status (Some data) =>
        if ((200 <=? status) && (status <=? 299))%Z
        then {| Fetch.result := data;
                Fetch.disk := Cache.set now_set key data (Some 3600000) d1;
                Fetch.requests := [url] |}
        else {| Fetch.result := None; Fetch.disk := d1; Fetch.requests := [url] |}
    | _ => {| Fetch.result := None; Fetch.disk := d1; Fetch.requests := [url] |}
    end.
Proof.
  intros H d1. unfold Fetch.cachedFetch.
  destruct (Cache.get now_get key d) as [cached d'] eqn:E. cbn [fst] in H. subst cached.
  subst d1; cbn [snd].
  destruct (net url) as [|status [data|]]; try reflexivity.
  - unfold Fetch.ok.
    destruct (Z.eqb_spec status 404) as [->|Hne]; [reflexivity|].
    destruct ((200 <=? status) && (status <=? 299))%Z; reflexivity.
  - unfold Fetch.ok.
    destruct (Z.eqb_spec status 404) as [->|Hne]; [reflexivity|].
    destruct ((200 <=? status) && (status <=? 299))%Z; reflexivity.
Qed.

(** X5.  A cache hit is served without touching the network: when the cache
    holds an unexpired value for the key, [cachedFetch] returns it, requests
    nothing and leaves the disk as it is, whatever the network would answer. *)
Theorem cachedFetch_hit :
  forall (net : string -> Fetch.Answer V) (now_get now_set : Z) (url key : string)
         (d : Cache.Disk V) (v : V),
    fst (Cache.get now_get key d) = Some v ->
    Fetch.cachedFetch net now_get now_set url key d
    = {| Fetch.result := Some v; Fetch.disk := d; Fetch.requests := [] |}.
Proof. exact cachedFetch_on_hit. Qed.

(** X6.  After a cache miss [cachedFetch] makes exactly one request, and it
    returns a value exactly when the answer has a status within 200..299
    and a body that parses to that value.  Every other outcome (network
    error or timeout, 404, any other status, an unparsable body, a [null]
    body) returns [null] and is not served from the cache afterwards: a
    later call makes a request again. *)
Theorem cachedFetch_miss :
  forall (net : string -> Fetch.Answer V) (now_get now_set : Z) (url key : string)
         (d : Cache.Disk V),
    fst (Cache.get now_get key d) = None ->
    let out := Fetch.cachedFetch net now_get now_set url key d in
    Fetch.requests out = [url]
    /\ (forall v : V,
           Fetch.result out = Some v
           <-> exists status : Z,
                 net url = Fetch.response status (Some (Some v))
                 /\ 200 <= status <= 299)
    /\ (Fetch.result out = None ->
        forall (net' : string -> Fetch.Answer V) (t t' : Z) (url' : string),
          now_get <= t ->
          Fetch.requests (Fetch.cachedFetch net' t t' url' key (Fetch.disk out))
          = [url']).
Proof.
  intros net now_get now_set url key d Hmiss out.
  pose proof (cachedFetch_on_miss net now_get now_set url key d Hmiss) as E.
  cbv zeta in E. fold out in E.
  assert (Hlater : forall t, now_get <= t ->
            fst (Cache.get t key (snd (Cache.get now_get key d))) = None)
    by (intros t Ht; now apply get_miss_later).
  assert (Hreq : forall (d2 : Cache.Disk V) net' t t' url',
            fst (Cache.get t key d2) = None ->
            Fetch.requests (Fetch.cachedFetch net' t t' url' key d2) = [url']).
  { intros d2 net' t t' url' Hm.
    rewrite (cachedFetch_on_miss net' t t' url' key d2 Hm).
    destruct (net' url') as [|status [data|]]; try reflexivity.
    destruct ((200 <=? status) && (status <=? 299))%Z; reflexivity. }
  destruct (net url) as [|status [data|]] eqn:Enet.
  - rewrite E. cbn. split; [reflexivity|]. split.
    + intros v. split; [discriminate|]. intros (s & Hs & _). discriminate.
    + intros _ net' t t' url' Ht. apply Hreq. now apply Hlater.
  - destruct ((200 <=? status) && (status <=? 299))%Z eqn:Eok; rewrite E; cbn.
    + apply andb_prop in Eok. destruct Eok as [H1 H2].
      apply Z.leb_le in H1. apply Z.leb_le in H2.
      split; [reflexivity|]. split.
      * intros v. split.
        -- intros ->. exists status. split; [reflexivity|lia].
        -- intros (s & Hs & _). congruence.
      * intros -> net' t t' url' Ht. apply Hreq. rewrite get_fst.
        unfold Cache.set; cbv zeta. unfold Cache.writeCache.
        destruct (Cache.writable (snd (Cache.get now_get key d))) eqn:Hw.
        -- unfold Cache.readCache at 1; cbn [Cache.file].
           destruct (assign_cases key
                       {| Cache.value := None; Cache.expiresAt := now_set + 3600000 |}
                       (Cache.readCache (snd (Cache.get now_get key d))))
             as [Es|(_ & _ & Es)]; rewrite Es.
           ++ cbn [Cache.expiresAt Cache.value]. destruct (_ <? _)%Z; reflexivity.
           ++ rewrite <- get_fst. now apply Hlater.
        -- rewrite <- get_fst. now apply Hlater.
    + split; [reflexivity|]. split.
      * intros v. split; [discriminate|]. intros (s & Hs & Hr).
        injection Hs as -> _.
        apply andb_false_iff in Eok.
        destruct Eok as [H|H]; apply Z.leb_gt in H; lia.
      * intros _ net' t t' url' Ht. apply Hreq. now apply Hlater.
  - rewrite E. cbn. split; [reflexivity|]. split.
    + intros v. split; [discriminate|]. intros (s & Hs & _). discriminate.
    + intros _ net' t t' url' Ht. apply Hreq. now apply Hlater.
Qed.

(** X7.  A successful fetch is cached for one hour: on a disk that accepts
    writes and for a key other than [__proto__] (the keys of the three
    endpoints carry a prefix), after a miss answered with a status within 200..299 and a body
    that parses to a value, [cachedFetch] returns the value, and every call
    for the same key up to 3,600,000 ms after the write returns it again
    without a request, whatever the network would answer; one millisecond
    later a call makes a request again. *)
Theorem cachedFetch_success_is_cached :
  forall (net : string -> Fetch.Answer V) (now_get now_set : Z) (url key : string)
         (d : Cache.Disk V) (status : Z) (v : V),
    Cache.writable d = true ->
    key <> "__proto__" ->
    fst (Cache.get now_get key d) = None ->
    net url = Fetch.response status (Some (Some v)) ->
    200 <= status <= 299 ->
    let out := Fetch.cachedFetch net now_get now_set url key d in
    Fetch.result out = Some v
    /\ (forall (net' : string -> Fetch.Answer V) (t t' : Z) (url' : string),
           t <= now_set + 3600000 ->
           Fetch.cachedFetch net' t t' url' key (Fetch.disk out)
           = {| Fetch.result := Some v; Fetch.disk := Fetch.disk out;
                Fetch.requests := [] |})
    /\ (forall (net' : string -> Fetch.Answer V) (t t' : Z) (url' : string),
           now_set + 3600000 < t ->
           Fetch.requests (Fetch.cachedFetch net' t t' url' key (Fetch.disk out))
           = [url']).
Proof.
  intros net now_get now_set url key d status v Hw Hkey Hmiss Hnet Hok out.
  pose proof (cachedFetch_on_miss net now_get now_set url key d Hmiss) as E.
  cbv zeta in E. fold out in E. rewrite Hnet in E.
  replace ((200 <=? status) && (status <=? 299))%Z with true in E
    by (symmetry; apply andb_true_intro; split; apply Z.leb_le; lia).
  set (d1 := snd (Cache.get now_get key d)) in *.
  assert (Hw1 : Cache.writable d1 = true) by (unfold d1; now rewrite get_writable).
  assert (Hread : Cache.readCache (Fetch.disk out) key
                  = Some {| Cache.value := Some v;
                            Cache.expiresAt := now_set + 3600000 |}).
  { rewrite E; cbn [Fetch.disk]. unfold Cache.set; cbv zeta.
    rewrite (proj1 (readCache_writeCache d1 _ Hw1)).
    now apply assign_same. }
  split; [now rewrite E|]. split.
  - intros net' t t' url' Ht. apply cachedFetch_on_hit.
    rewrite get_fst, Hread; cbn [Cache.expiresAt Cache.value].
    destruct (Z.ltb_spec (now_set + 3600000) t); [lia|reflexivity].
  - intros net' t t' url' Ht.
    assert (Hm : fst (Cache.get t key (Fetch.disk out)) = None).
    { rewrite get_fst, Hread; cbn [Cache.expiresAt Cache.value].
      destruct (Z.ltb_spec (now_set + 3600000) t); [reflexivity|lia]. }
    rewrite (cachedFetch_on_miss net' t t' url' key _ Hm).
    destruct (net' url') as [|s [data|]]; try reflexivity.
    destruct ((200 <=? s) && (s <=? 299))%Z; reflexivity.
Qed.

(** X8.  The cache is best effort: on a disk that refuses writes
    [cachedFetch] leaves the disk exactly as it was, and a fetch that
    succeeds still returns its value. *)
Theorem cachedFetch_without_writes :
  forall (net : string -> Fetch.Answer V) (now_get now_set : Z) (url key : string)
         (d : Cache.Disk V),
    Cache.writable d = false ->
    let out := Fetch.cachedFetch net now_get now_set url key d in
    Fetch.disk out = d
    /\ (forall (status : Z) (v : V),
           fst (Cache.get now_get key d) = None ->
           net url = Fetch.response status (Some (Some v)) ->
           200 <= status <= 299 ->
           Fetch.result out = Some v).
Proof.
  intros net now_get now_set url key d Hw out.
  assert (Hget : snd (Cache.get now_get key d) = d).
  { unfold Cache.get; cbv zeta.
    destruct (Cache.readCache d key) as [entry|]; [|reflexivity].
    destruct (Cache.expiresAt entry <? now_get)%Z; [|reflexivity].
    cbn [snd]. unfold Cache.writeCache. now rewrite Hw. }
  assert (Hset : forall t k data ttl, Cache.set t k data ttl d = d).
  { intros t k data ttl. unfold Cache.set, Cache.writeCache; cbv zeta. now rewrite Hw. }
  split.
  - destruct (fst (Cache.get now_get key d)) as [v|] eqn:E.
    + unfold out. now rewrite (cachedFetch_on_hit _ _ _ _ _ _ _ E).
    + unfold out. rewrite (cachedFetch_on_miss _ _ _ _ _ _ E). rewrite Hget.
      destruct (net url) as [|s [data|]]; try reflexivity.
      destruct ((200 <=? s) && (s <=? 299))%Z; cbn [Fetch.disk]; [apply Hset|reflexivity].
  - intros status v Hmiss Hnet Hok.
    unfold out. rewrite (cachedFetch_on_miss _ _ _ _ _ _ Hmiss), Hnet.
    replace ((200 <=? status) && (status <=? 299))%Z with true
      by (symmetry; apply andb_true_intro; split; apply Z.leb_le; lia).
    reflexivity.
Qed.

End FetchFacts.

(** The warm disk serves [express] while the network is down. *)
Lemma cachedFetch_hit_witness :
  Fetch.cachedFetch Sample.down 1000 1000 (Fetch.packageUrl "express")
    (Fetch.packageKey "express") Sample.warm
  = {| Fetch.result := Some "metadata"; Fetch.disk := Sample.warm;
       Fetch.requests := [] |}.
Proof.
  apply (cachedFetch_hit Sample.down 1000 1000 (Fetch.packageUrl "express")
           (Fetch.packageKey "express") Sample.warm "metadata").
  reflexivity.
Defined.

(** A fetch through a network that is down. *)
Lemma cachedFetch_miss_witness :
  Fetch.requests
    (Fetch.cachedFetch Sample.down 0 0 (Fetch.packageUrl "express")
       (Fetch.packageKey "express") Sample.fresh)
  = [Fetch.packageUrl "express"].
Proof.
  pose proof (cachedFetch_miss Sample.down 0 0 (Fetch.packageUrl "express")
                (Fetch.packageKey "express") Sample.fresh eq_refl) as H.
  cbv zeta in H. exact (proj1 H).
Defined.

(** A fetch at time 0, asked again one hour later while the network is
    down. *)
Lemma cachedFetch_success_is_cached_witness :
  Fetch.cachedFetch Sample.down 3600000 3600000 (Fetch.packageUrl "express")
    (Fetch.packageKey "express") Sample.warm
  = {| Fetch.result := Some "metadata"; Fetch.disk := Sample.warm;
       Fetch.requests := [] |}.
Proof.
  apply (cachedFetch_success_is_cached Sample.up 0 0 (Fetch.packageUrl "express")
           (Fetch.packageKey "express") Sample.fresh 200 "metadata");
    try reflexivity; try discriminate; lia.
Defined.

Lemma cachedFetch_without_writes_witness :
  Fetch.disk
    (Fetch.cachedFetch Sample.up 0 0 (Fetch.packageUrl "express")
       (Fetch.packageKey "express") Sample.read_only)
  = Sample.read_only.
Proof.
  apply (cachedFetch_without_writes Sample.up 0 0 (Fetch.packageUrl "express")
           (Fetch.packageKey "express") Sample.read_only).
  reflexivity.
Defined.

(** ** URLs and cache keys *)

(** Facts about one byte, by enumeration of the 256 bytes. *)
Lemma byte_facts (c : ascii) :
  (Fetch.unreserved c = true -> Ascii.eqb c "%" = false)
  /\ ascii_of_nat
       (unhex (Fetch.hex (nat_of_ascii c / 16)) * 16
        + unhex (Fetch.hex (nat_of_ascii c mod 16))) = c
  /\ Fetch.unreserved (Fetch.hex (nat_of_ascii c / 16)) = true
  /\ Fetch.unreserved (Fetch.hex (nat_of_ascii c mod 16)) = true.
Proof.
  destruct c as [[] [] [] [] [] [] [] []]; vm_compute; repeat split; congruence.
Qed.

Lemma percent_decode_encode (s : string) :
  percent_decode (Fetch.encodeURIComponent s) = s.
Proof.
  induction s as [|c rest IH]; [reflexivity|].
  cbn [Fetch.encodeURIComponent].
  destruct (byte_facts c) as (Hpct & Hhex & _ & _).
  destruct (Fetch.unreserved c) eqn:E.
  - cbn [percent_decode]. rewrite (Hpct eq_refl). now rewrite IH.
  - cbv zeta. cbn [percent_decode]. rewrite Ascii.eqb_refl.
    now rewrite Hhex, IH.
Qed.

Lemma encodeURIComponent_safe (s : string) :
  all_chars url_safe (Fetch.encodeURIComponent s) = true.
Proof.
  induction s as [|c rest IH]; [reflexivity|].
  cbn [Fetch.encodeURIComponent].
  destruct (byte_facts c) as (_ & _ & Hh & Hl).
  destruct (Fetch.unreserved c) eqn:E; cbv zeta; cbn [all_chars]; rewrite IH;
    unfold url_safe.
  - now rewrite E.
  - rewrite Hh, Hl. reflexivity.
Qed.

Lemma append_injective (p s t : string) : p ++ s = p ++ t -> s = t.
Proof.
  induction p as [|c p IH]; cbn [append]; [trivial|].
  intros H. injection H as H. now apply IH.
Qed.

(** X9.  [encodeURIComponent] loses nothing and lets nothing through: it has
    an inverse, so two package names never share a URL, and its output holds
    only unreserved characters and [%], so a name cannot add a path segment
    or a query to the registry URL.  A scoped name such as [@babel/core] is
    requested as [%40babel%2Fcore]. *)
Theorem package_url_is_faithful :
  (forall s : string, percent_decode (Fetch.encodeURIComponent s) = s)
  /\ (forall s t : string, Fetch.packageUrl s = Fetch.packageUrl t -> s = t)
  /\ (forall s : string, all_chars url_safe (Fetch.encodeURIComponent s) = true)
  /\ url_safe "/" = false /\ url_safe "?" = false /\ url_safe "#" = false
  /\ url_safe "&" = false /\ url_safe "=" = false /\ url_safe ":" = false
  /\ Fetch.packageUrl "@babel/core" = "https://registry.npmjs.org/%40babel%2Fcore".
Proof.
  split; [exact percent_decode_encode|]. split.
  - intros s t H. unfold Fetch.packageUrl in H.
    apply append_injective in H. apply append_injective in H.
    rewrite <- (percent_decode_encode s), <- (percent_decode_encode t).
    now rewrite H.
  - split; [exact encodeURIComponent_safe|]. repeat split.
Qed.

Section KeyFacts.

Context {V : Type}.

(** A call of [cachedFetch] changes nothing in what the cache answers for
    another key. *)
Lemma cachedFetch_other_key (net : string -> Fetch.Answer V) (now_get now_set t : Z)
    (url key other : string) (d : Cache.Disk V) :
  other <> key ->
  fst (Cache.get t other (Fetch.disk (Fetch.cachedFetch net now_get now_set url key d)))
  = fst (Cache.get t other d).
Proof.
  intros Hne.
  pose proof (fun v ttl now d' =>
                proj1 (cache_keys_independent_aux (V := V) d' now t key other v ttl Hne))
    as Hset.
  pose proof (proj2 (cache_keys_independent_aux d now_get t key other None None Hne))
    as Hget.
  unfold Fetch.cachedFetch.
  destruct (Cache.get now_get key d) as [cached d1] eqn:E.
  cbn [snd] in Hget.
  destruct cached as [v|]; cbn [Fetch.disk]; [exact Hget|].
  destruct (net url) as [|status [data|]]; cbn [Fetch.disk]; try exact Hget.
  - destruct (status =? 404)%Z; cbn [Fetch.disk]; [exact Hget|].
    destruct (negb (Fetch.ok status)); cbn [Fetch.disk]; [exact Hget|].
    now rewrite Hset.
  - destruct (status =? 404)%Z; cbn [Fetch.disk]; [exact Hget|].
    destruct (negb (Fetch.ok status)); cbn [Fetch.disk]; exact Hget.
Qed.

(** The keys of the three endpoints carry a prefix: none of them is the key
    [__proto__], under which an assignment stores nothing. *)
Lemma endpoint_keys_are_stored (name : string) :
  Fetch.packageKey name <> "__proto__"
  /\ Fetch.weeklyKey name <> "__proto__"
  /\ Fetch.trendKey name <> "__proto__".
Proof. repeat split; discriminate. Qed.

(** X10.  The three endpoints never share a cache entry: their keys differ
    for all names, and each key determines its name.  Hence fetching the
    metadata of a package changes nothing in what the cache answers for any
    download count, any download range, or the metadata of another package. *)
Theorem endpoints_do_not_share_entries :
  forall (net : string -> Fetch.Answer V) (now_get now_set t : Z)
         (name other : string) (d : Cache.Disk V),
    let d' := Fetch.disk (Fetch.getPackageInfo net now_get now_set name d) in
    Fetch.packageKey name <> Fetch.weeklyKey other
    /\ Fetch.packageKey name <> Fetch.trendKey other
    /\ Fetch.weeklyKey name <> Fetch.trendKey other
    /\ fst (Cache.get t (Fetch.weeklyKey other) d')
       = fst (Cache.get t (Fetch.weeklyKey other) d)
    /\ fst (Cache.get t (Fetch.trendKey other) d')
       = fst (Cache.get t (Fetch.trendKey other) d)
    /\ (other <> name ->
        fst (Cache.get t (Fetch.packageKey other) d')
        = fst (Cache.get t (Fetch.packageKey other) d)).
Proof.
  intros net now_get now_set t name other d d'.
  assert (H1 : Fetch.packageKey name <> Fetch.weeklyKey other) by discriminate.
  assert (H2 : Fetch.packageKey name <> Fetch.trendKey other) by discriminate.
  assert (H3 : Fetch.weeklyKey name <> Fetch.trendKey other) by discriminate.
  repeat split; trivial; unfold d', Fetch.getPackageInfo.
  - apply cachedFetch_other_key. congruence.
  - apply cachedFetch_other_key. congruence.
  - intros Hne. apply cachedFetch_other_key.
    intros H. apply Hne. unfold Fetch.packageKey in H.
    now apply append_injective in H.
Qed.

End KeyFacts.

Lemma endpoints_do_not_share_entries_witness :
  fst (Cache.get 5 (Fetch.packageKey "lodash")
         (Fetch.disk (Fetch.getPackageInfo Sample.up 0 0 "express" Sample.fresh)))
  = fst (Cache.get 5 (Fetch.packageKey "lodash") Sample.fresh).
Proof.
  apply (endpoints_do_not_share_entries Sample.up 0 0 5 "express" "lodash" Sample.fresh).
  discriminate.
Defined.

(** ** The maintenance analyzer *)

Lemma div_lt_iff (a q : Z) : a / 86400000 < q <-> a < 86400000 * q.
Proof.
  pose proof (Z.div_mod a 86400000 ltac:(lia)) as Hdm.
  pose proof (Z.mod_pos_bound a 86400000 ltac:(lia)) as Hb.
  split; intros H; nia.
Qed.

Section MaintenanceFacts.

Variable parseDate : string -> option Z.
Variable toISODate : Z -> string.
Variable invalid_time : JS.Error.
Variable now : Z.

Let analyze := Analyzers.analyzeMaintenance parseDate toISODate invalid_time now.

(** The three outcomes of [analyzeMaintenance]. *)
Lemma analyzeMaintenance_outcome (packageInfo : option Analyzers.PackageInfo) :
  (analyze packageInfo
   = JS.fulfilled {| Shape.lastPublish := Some "unknown";
                     Shape.daysSincePublish := Some JS.Infinity;
                     Shape.status := Some "abandoned" |}
   /\ (packageInfo = None
       \/ exists info, packageInfo = Some info /\ Analyzers.time info = None))
  \/ (exists info time,
         packageInfo = Some info /\ Analyzers.time info = Some time
         /\ Analyzers.lastPublishDate parseDate info time = None
         /\ analyze packageInfo = JS.rejected (Some invalid_time))
  \/ (exists info time t,
         packageInfo = Some info /\ Analyzers.time info = Some time
         /\ Analyzers.lastPublishDate parseDate info time = Some t
         /\ analyze packageInfo
            = JS.fulfilled
                {| Shape.lastPublish := Some (toISODate t);
                   Shape.daysSincePublish := Some (JS.Int ((now - t) / 86400000));
                   Shape.status :=
                     Some (if ((now - t) / 86400000 <? 180)%Z then "active"
                           else if ((now - t) / 86400000 <? 540)%Z then "stale"
                           else "abandoned") |}).
Proof.
  unfold analyze, Analyzers.analyzeMaintenance; cbv zeta.
  destruct packageInfo as [info|]; [|left; split; [reflexivity|now left]].
  destruct (Analyzers.time info) as [time|] eqn:Et;
    [|left; split; [reflexivity|right; now exists info]].
  destruct (Analyzers.lastPublishDate parseDate info time) as [t|] eqn:El.
  - right; right. exists info, time, t. repeat split; trivial.
  - right; left. exists info, time. repeat split; trivial.
Qed.

(** X11.  The status that [analyzeMaintenance] reports is decided by the age
    of the last publish, the time from the publish date to the clock in
    milliseconds: with [t] the date that [analyzeMaintenance] takes for the
    last publish (the [time] entry of the latest tag when there is one) and
    [age = now - t], the record carries the ISO date of [t], the age in whole
    days rounded down, and the status active when the age is less than 180
    days of 24 hours (also when [t] lies in the future), stale from 180 days
    on, abandoned from 540 days on.  The only other record it returns is the
    unknown one (abandoned, infinitely many days), exactly when there is no
    metadata or no [time] table.  The scorer gives such a record 30, 15 or 0
    points accordingly. *)
Theorem maintenance_status_by_age :
  forall (packageInfo : option Analyzers.PackageInfo) (m : Shape.Maintenance),
    analyze packageInfo = JS.fulfilled m ->
    ((packageInfo = None
      \/ exists info, packageInfo = Some info /\ Analyzers.time info = None)
     /\ m = {| Shape.lastPublish := Some "unknown";
               Shape.daysSincePublish := Some JS.Infinity;
               Shape.status := Some "abandoned" |}
     /\ forall r, maintenance r = Some m -> maintenancePoints r = 0)
    \/ exists (info : Analyzers.PackageInfo) (time : list (string * string)) (t : Z),
         packageInfo = Some info
         /\ Analyzers.time info = Some time
         /\ Analyzers.lastPublishDate parseDate info time = Some t
         /\ (forall tag raw,
                Analyzers.latestTag info = Some tag ->
                Analyzers.truthy_string (Analyzers.prop time tag) = Some raw ->
                parseDate raw = Some t)
         /\ Shape.lastPublish m = Some (toISODate t)
         /\ Shape.daysSincePublish m = Some (JS.Int ((now - t) / 86400000))
         /\ (Shape.status m = Some "active" <-> now - t < 180 * 86400000)
         /\ (Shape.status m = Some "stale"
             <-> 180 * 86400000 <= now - t < 540 * 86400000)
         /\ (Shape.status m = Some "abandoned" <-> 540 * 86400000 <= now - t)
         /\ (forall r, maintenance r = Some m ->
               maintenancePoints r
               = if (now - t <? 180 * 86400000)%Z then 30
                 else if (now - t <? 540 * 86400000)%Z then 15 else 0).
Proof.
  intros packageInfo m H.
  destruct (analyzeMaintenance_outcome packageInfo)
    as [[E Hwhy] | [(info & time & _ & _ & _ & E)
                   | (info & time & t & Hinfo & Htime & Hdate & E)]];
    rewrite E in H; try discriminate; injection H as <-.
  - left. split; [exact Hwhy|]. split; [reflexivity|].
    intros r Hr. unfold maintenancePoints, Score.maintenanceStep. now rewrite Hr.
  - right. exists info, time, t.
    split; [exact Hinfo|]. split; [exact Htime|]. split; [exact Hdate|]. split.
    { intros tag raw Htag Hraw. unfold Analyzers.lastPublishDate in Hdate.
      now rewrite Htag, Hraw in Hdate. }
    cbn [Shape.lastPublish Shape.daysSincePublish Shape.status].
    set (age := now - t).
    pose proof (div_lt_iff age 180) as H180.
    pose proof (div_lt_iff age 540) as H540.
    split; [reflexivity|]. split; [reflexivity|].
    assert (Hpoints : forall r,
               maintenance r
               = Some {| Shape.lastPublish := Some (toISODate t);
                         Shape.daysSincePublish := Some (JS.Int (age / 86400000));
                         Shape.status :=
                           Some (if (age / 86400000 <? 180)%Z then "active"
                                 else if (age / 86400000 <? 540)%Z then "stale"
                                 else "abandoned") |} ->
               maintenancePoints r
               = if (age / 86400000 <? 180)%Z then 30
                 else if (age / 86400000 <? 540)%Z then 15 else 0).
    { intros r Hr. unfold maintenancePoints, Score.maintenanceStep. rewrite Hr.
      cbn [Shape.status].
      destruct (age / 86400000 <? 180)%Z; [reflexivity|].
      destruct (age / 86400000 <? 540)%Z; reflexivity. }
    destruct (Z.ltb_spec (age / 86400000) 180) as [Ha|Ha];
      [|destruct (Z.ltb_spec (age / 86400000) 540) as [Hs|Hs]].
    + repeat split; try discriminate; try lia.
      intros r Hr. rewrite (Hpoints r Hr).
      destruct (Z.ltb_spec age (180 * 86400000)); [reflexivity|lia].
    + repeat split; try discriminate; try lia.
      intros r Hr. rewrite (Hpoints r Hr).
      destruct (Z.ltb_spec age (180 * 86400000)); [lia|].
      destruct (Z.ltb_spec age (540 * 86400000)); [reflexivity|lia].
    + repeat split; try discriminate; try lia.
      intros r Hr. rewrite (Hpoints r Hr).
      destruct (Z.ltb_spec age (180 * 86400000)); [lia|].
      destruct (Z.ltb_spec age (540 * 86400000)); [lia|reflexivity].
Qed.

(** The fallback loop, started from any date that was already found. *)
Lemma mostRecent_from (entries : list (string * string)) :
  (forall key val, In (key, val) entries -> key <> "created" ->
                   parseDate val <> None) ->
  forall a : Z,
    exists t : Z,
      fold_left
        (fun latest '(key, val) =>
           if String.eqb key "created" then latest
           else Analyzers.later latest (parseDate val))
        entries (Some (Some a))
      = Some (Some t)
      /\ a <= t
      /\ (t = a \/ exists key val,
             In (key, val) entries /\ key <> "created" /\ parseDate val = Some t)
      /\ (forall key val t',
             In (key, val) entries -> key <> "created" ->
             parseDate val = Some t' -> t' <= t).
Proof.
  induction entries as [|[k v] rest IH]; intros Hparse a.
  - exists a. cbn. split; [reflexivity|]. split; [lia|]. split; [now left|].
    intros ? ? ? [].
  - cbn [fold_left].
    assert (Hrest : forall key val, In (key, val) rest -> key <> "created" ->
                                    parseDate val <> None)
      by (intros key val Hin; apply Hparse; now right).
    destruct (String.eqb_spec k "created") as [->|Hk].
    + destruct (IH Hrest a) as (t & E & Hle & Hfrom & Hmax).
      exists t. repeat split; trivial.
      * destruct Hfrom as [->|(key & val & Hin & Hne & Hp)]; [now left|].
        right. exists key, val. repeat split; trivial. now right.
      * intros key val t' [Heq|Hin] Hne Hp; [congruence|]. eapply Hmax; eauto.
    + destruct (parseDate v) as [d|] eqn:Ed;
        [|exfalso; apply (Hparse k v); [now left|exact Hk|exact Ed]].
      unfold Analyzers.later at 2.
      destruct (Z.ltb_spec a d) as [Hlt|Hge].
      * destruct (IH Hrest d) as (t & E & Hle & Hfrom & Hmax).
        exists t. repeat split; trivial; try lia.
        -- right. destruct Hfrom as [->|(key & val & Hin & Hne & Hp)].
           ++ exists k, v. repeat split; trivial. now left.
           ++ exists key, val. repeat split; trivial. now right.
        -- intros key val t' [Heq|Hin] Hne Hp.
           ++ injection Heq as <- <-. rewrite Ed in Hp. injection Hp as <-. exact Hle.
           ++ eapply Hmax; eauto.
      * destruct (IH Hrest a) as (t & E & Hle & Hfrom & Hmax).
        exists t. repeat split; trivial.
        -- destruct Hfrom as [->|(key & val & Hin & Hne & Hp)]; [now left|].
           right. exists key, val. repeat split; trivial. now right.
        -- intros key val t' [Heq|Hin] Hne Hp.
           ++ injection Heq as <- <-. rewrite Ed in Hp. injection Hp as <-. lia.
           ++ eapply Hmax; eauto.
Qed.

Lemma mostRecent_spec (entries : list (string * string)) :
  (forall key val, In (key, val) entries -> key <> "created" ->
                   parseDate val <> None) ->
  (Analyzers.mostRecent parseDate entries = None
   /\ forall key val, In (key, val) entries -> key = "created")
  \/ exists t : Z,
       Analyzers.mostRecent parseDate entries = Some (Some t)
       /\ (exists key val,
              In (key, val) entries /\ key <> "created" /\ parseDate val = Some t)
       /\ (forall key val t',
              In (key, val) entries -> key <> "created" ->
              parseDate val = Some t' -> t' <= t).
Proof.
  unfold Analyzers.mostRecent.
  induction entries as [|[k v] rest IH]; intros Hparse.
  - left. split; [reflexivity|]. intros ? ? [].
  - assert (Hrest : forall key val, In (key, val) rest -> key <> "created" ->
                                    parseDate val <> None)
      by (intros key val Hin; apply Hparse; now right).
    cbn [fold_left].
    destruct (String.eqb_spec k "created") as [->|Hk].
    + destruct (IH Hrest) as [[E Hall]|(t & E & (key & val & Hin & Hne & Hp) & Hmax)].
      * left. split; [exact E|]. intros key val [Heq|Hin]; [congruence|eauto].
      * right. exists t. repeat split; trivial.
        -- exists key, val. repeat split; trivial. now right.
        -- intros key' val' t' [Heq|Hin'] Hne' Hp'; [congruence|]. eapply Hmax; eauto.
    + destruct (parseDate v) as [d|] eqn:Ed;
        [|exfalso; apply (Hparse k v); [now left|exact Hk|exact Ed]].
      cbn [Analyzers.later].
      destruct (mostRecent_from rest Hrest d) as (t & E & Hle & Hfrom & Hmax).
      right. exists t. repeat split; trivial.
      * destruct Hfrom as [->|(key & val & Hin & Hne & Hp)].
        -- exists k, v. repeat split; trivial. now left.
        -- exists key, val. repeat split; trivial. now right.
      * intros key val t' [Heq|Hin] Hne Hp.
        -- injection Heq as <- <-. rewrite Ed in Hp. injection Hp as <-. exact Hle.
        -- eapply Hmax; eauto.
Qed.

(** X12.  When the [time] table has no entry for the latest tag and no
    [modified] entry, and every entry other than [created] holds a date that
    parses, the publish date that [analyzeMaintenance] uses is the most
    recent of those entries: it is one of them and none is later.  When
    there is no such entry at all the date is the epoch, 1970-01-01. *)
Theorem maintenance_fallback_most_recent :
  forall (info : Analyzers.PackageInfo) (time : list (string * string)),
    match Analyzers.latestTag info with
    | Some tag => Analyzers.truthy_string (Analyzers.prop time tag)
    | None => None
    end = None ->
    Analyzers.truthy_string (Analyzers.prop time "modified") = None ->
    (forall key val, In (key, val) time -> key <> "created" ->
                     parseDate val <> None) ->
    exists t : Z,
      Analyzers.lastPublishDate parseDate info time = Some t
      /\ ((t = 0 /\ forall key val, In (key, val) time -> key = "created")
          \/ ((exists key val,
                  In (key, val) time /\ key <> "created" /\ parseDate val = Some t)
              /\ (forall key val t',
                     In (key, val) time -> key <> "created" ->
                     parseDate val = Some t' -> t' <= t))).
Proof.
  intros info time Htag Hmod Hparse.
  unfold Analyzers.lastPublishDate. rewrite Htag, Hmod.
  destruct (mostRecent_spec time Hparse) as [[E Hall]|(t & E & Hin & Hmax)]; rewrite E.
  - exists 0. split; [reflexivity|]. left. split; [reflexivity|exact Hall].
  - exists t. split; [reflexivity|]. right. split; assumption.
Qed.

End MaintenanceFacts.

(** ** The size analyzer *)

Lemma has_space (s u : string) :
  all_chars not_space u = false -> all_chars not_space (s ++ u) = false.
Proof.
  intros Hu. induction s as [|c s IH]; cbn [append all_chars]; [exact Hu|].
  rewrite IH. apply andb_false_r.
Qed.

Lemma with_unit_not_unknown (s u : string) :
  all_chars not_space u = false -> s ++ u <> "unknown".
Proof.
  intros Hu H. pose proof (has_space s u Hu) as Hs. rewrite H in Hs. discriminate Hs.
Qed.

Section SizeFacts.

Variable String_unsafe : Z -> string.
Variable toFixed1_unsafe : Z -> Z -> string.

Let formatBytes := Analyzers.formatBytes String_unsafe toFixed1_unsafe.
Let analyzeSize := Analyzers.analyzeSize String_unsafe toFixed1_unsafe.

Lemma formatBytes_unknown_iff (n : JS.number) :
  formatBytes n = "unknown" <-> n = JS.Int 0.
Proof.
  split; [|intros ->; reflexivity].
  unfold formatBytes, Analyzers.formatBytes.
  destruct n as [| | |z]; try (cbn; discriminate).
  cbn [JS.eq_lit JS.lt].
  destruct (Z.eqb_spec z 0) as [->|Hz]; [reflexivity|].
  destruct (z <? 1024)%Z; [|destruct (z <? 1024 * 1024)%Z;
                             [|destruct (z <? 1024 * 1024 * 1024)%Z]];
    intros H; exfalso; refine (with_unit_not_unknown _ _ _ H); reflexivity.
Qed.

(** The unit tests of the repository for [formatBytes]. *)
Example formatBytes_tests :
  formatBytes (JS.Int 0) = "unknown"
  /\ formatBytes (JS.Int 500) = "500 B"
  /\ formatBytes (JS.Int 1024) = "1 KB"
  /\ formatBytes (JS.Int 1536) = "2 KB"
  /\ formatBytes (JS.Int 1048576) = "1.0 MB"
  /\ formatBytes (JS.Int 5242880) = "5.0 MB"
  /\ formatBytes (JS.Int 214000) = "209 KB".
Proof. repeat split; vm_compute; reflexivity. Qed.

(** X13.  [analyzeSize] always answers with a size that is [0] or a truthy
    number, together with its label; the size is [0] whenever the metadata,
    the latest tag or the versions table is missing.  The label is
    ["unknown"] exactly when the size is [0], and such a record is the one
    the scorer gives the 8 points of an unknown size. *)
Theorem analyzeSize_unknown :
  forall packageInfo : option Analyzers.PackageInfo,
    let s := analyzeSize packageInfo in
    (exists n : JS.number,
        Shape.unpackedSize s = Some n
        /\ Shape.unpackedSizeHuman s = Some (formatBytes n)
        /\ (n = JS.Int 0 \/ JS.truthy n = true))
    /\ (Shape.unpackedSizeHuman s = Some "unknown"
        <-> Shape.unpackedSize s = Some (JS.Int 0))
    /\ (Shape.unpackedSizeHuman s = Some "unknown" ->
        forall r : AnalysisResult, size r = Some s -> sizePoints r = 8)
    /\ (match packageInfo with
        | None => True
        | Some info =>
            Analyzers.latestTag info = None \/ Analyzers.versions info = None
        end ->
        Shape.unpackedSize s = Some (JS.Int 0)).
Proof.
  intros packageInfo s.
  assert (Hshape : exists n : JS.number,
             s = {| Shape.unpackedSize := Some n;
                    Shape.unpackedSizeHuman := Some (formatBytes n) |}
             /\ (n = JS.Int 0 \/ JS.truthy n = true)
             /\ (match packageInfo with
                 | None => True
                 | Some info =>
                     Analyzers.latestTag info = None \/ Analyzers.versions info = None
                 end -> n = JS.Int 0)).
  { unfold s, analyzeSize, Analyzers.analyzeSize. fold formatBytes.
    destruct packageInfo as [info|];
      [|exists (JS.Int 0); repeat split; trivial; now left].
    cbv zeta.
    destruct (Analyzers.latestTag info) as [tag|];
      [|exists (JS.Int 0); repeat split; trivial; now left].
    destruct (Analyzers.versions info) as [versions|];
      [|exists (JS.Int 0); repeat split; trivial; now left].
    assert (Hno : Some tag = None \/ Some versions = None -> False)
      by (intros [H|H]; discriminate).
    destruct (Analyzers.prop versions tag) as [v|];
      [|exists (JS.Int 0); repeat split; trivial; now left].
    destruct (Analyzers.dist v) as [d|];
      [|exists (JS.Int 0); repeat split; trivial; now left].
    destruct (Analyzers.unpackedSize d) as [n|];
      [|exists (JS.Int 0); repeat split; trivial; now left].
    destruct (JS.truthy n) eqn:Et.
    - exists n. repeat split; trivial; [now right | intros H; now apply Hno in H].
    - exists (JS.Int 0). repeat split; trivial; now left. }
  destruct Hshape as (n & -> & Hn & Hmissing).
  cbn [Shape.unpackedSize Shape.unpackedSizeHuman].
  assert (Hiff : Some (formatBytes n) = Some "unknown"
                 <-> Some n = Some (JS.Int 0)).
  { split; intros H; injection H as H; f_equal; now apply formatBytes_unknown_iff. }
  split; [exists n; repeat split; trivial|]. split; [exact Hiff|]. split.
  - intros Hu r Hr. apply Hiff in Hu. injection Hu as ->.
    unfold sizePoints, Score.sizeStep. now rewrite Hr.
  - intros H. f_equal. now apply Hmissing.
Qed.

(** X14.  For a size that is a safe integer (below 2^53), the label of
    [formatBytes] is the size rounded to the nearest unit shown: bytes as
    they are below 1024; the nearest KiB below 1024^2, which reaches
    ["1024 KB"] just below the next unit; the nearest tenth of a MiB below
    1024^3 and of a GiB from there up to 2^53, a tie going up. *)
Theorem formatBytes_rounding :
  forall z : Z,
    (0 < z < 1024 ->
     formatBytes (JS.Int z) = Analyzers.string_of_Z z ++ " B")
    /\ (1024 <= z < 1024 * 1024 ->
        exists k : Z,
          formatBytes (JS.Int z) = Analyzers.string_of_Z k ++ " KB"
          /\ 1 <= k <= 1024
          /\ 1024 * k - 512 <= z < 1024 * k + 512)
    /\ (1024 * 1024 <= z < 1024 * 1024 * 1024 ->
        exists n : Z,
          formatBytes (JS.Int z)
          = (Analyzers.string_of_Z (n / 10) ++ "."
             ++ Analyzers.string_of_Z (n mod 10)) ++ " MB"
          /\ 10 <= n <= 10240
          /\ (2 * n - 1) * 524288 <= 10 * z < (2 * n + 1) * 524288)
    /\ (1024 * 1024 * 1024 <= z < 2 ^ 53 ->
        exists n : Z,
          formatBytes (JS.Int z)
          = (Analyzers.string_of_Z (n / 10) ++ "."
             ++ Analyzers.string_of_Z (n mod 10)) ++ " GB"
          /\ 10 <= n <= 83886080
          /\ (2 * n - 1) * 536870912 <= 10 * z < (2 * n + 1) * 536870912).
Proof.
  intros z. unfold formatBytes, Analyzers.formatBytes. cbn [JS.eq_lit JS.lt].
  assert (Hsafe : - 2 ^ 53 < z < 2 ^ 53 -> Analyzers.safe z = true).
  { intros H. unfold Analyzers.safe. apply andb_true_intro.
    split; apply Z.ltb_lt; lia. }
  repeat split.
  - intros Hz.
    destruct (Z.eqb_spec z 0); [lia|].
    destruct (Z.ltb_spec z 1024); [|lia].
    cbn [Analyzers.string_of_number]. now rewrite Hsafe by lia.
  - intros Hz.
    destruct (Z.eqb_spec z 0); [lia|].
    destruct (Z.ltb_spec z 1024); [lia|].
    destruct (Z.ltb_spec z (1024 * 1024)); [|lia].
    exists ((2 * z + 1024) / (2 * 1024)). split; [reflexivity|].
    pose proof (Z.div_mod (2 * z + 1024) (2 * 1024) ltac:(lia)) as Hdm.
    pose proof (Z.mod_pos_bound (2 * z + 1024) (2 * 1024) ltac:(lia)) as Hb.
    lia.
  - intros Hz.
    destruct (Z.eqb_spec z 0); [lia|].
    destruct (Z.ltb_spec z 1024); [lia|].
    destruct (Z.ltb_spec z (1024 * 1024)); [lia|].
    destruct (Z.ltb_spec z (1024 * 1024 * 1024)); [|lia].
    unfold Analyzers.toFixed1; cbv zeta. rewrite Hsafe by lia.
    exists ((2 * 10 * z + 1024 * 1024) / (2 * (1024 * 1024))). split; [reflexivity|].
    pose proof (Z.div_mod (2 * 10 * z + 1024 * 1024) (2 * (1024 * 1024)) ltac:(lia)) as Hdm.
    pose proof (Z.mod_pos_bound (2 * 10 * z + 1024 * 1024) (2 * (1024 * 1024)) ltac:(lia)) as Hb.
    lia.
  - intros Hz.
    destruct (Z.eqb_spec z 0); [lia|].
    destruct (Z.ltb_spec z 1024); [lia|].
    destruct (Z.ltb_spec z (1024 * 1024)); [lia|].
    destruct (Z.ltb_spec z (1024 * 1024 * 1024)); [lia|].
    unfold Analyzers.toFixed1; cbv zeta. rewrite Hsafe by lia.
    exists ((2 * 10 * z + 1024 * 1024 * 1024) / (2 * (1024 * 1024 * 1024))).
    split; [reflexivity|].
    pose proof (Z.div_mod (2 * 10 * z + 1024 * 1024 * 1024)
                  (2 * (1024 * 1024 * 1024)) ltac:(lia)) as Hdm.
    pose proof (Z.mod_pos_bound (2 * 10 * z + 1024 * 1024 * 1024)
                  (2 * (1024 * 1024 * 1024)) ltac:(lia)) as Hb.
    lia.
Qed.

End SizeFacts.

(** ** The popularity analyzer *)

(** [getDownloadTrend] never names a trend other than the three the scorer
    knows. *)
Lemma getDownloadTrend_trend_names (data : option NpmApi.Range.t) (t : NpmApi.Trend) :
  NpmApi.getDownloadTrend data = Some t ->
  NpmApi.trend t = "growing" \/ NpmApi.trend t = "stable"
  \/ NpmApi.trend t = "declining".
Proof.
  unfold NpmApi.getDownloadTrend.
  destruct data as [d|]; [|discriminate].
  destruct (NpmApi.Range.downloads d) as [downloads|]; [|discriminate].
  cbv zeta.
  repeat match goal with
         | |- context [if ?c then _ else _] => destruct c
         end;
    intros H; injection H as <-; cbn [NpmApi.trend]; tauto.
Qed.

(** X15.  For answers of the two download APIs that have the shape the code
    documents (the point API: [null], or an object whose [downloads], when
    present, is a number; the range API: [null], an object without a
    [downloads] array, or one whose [downloads] is an array of
    [{ day, downloads }] with numeric counts), the record of
    [analyzePopularity] carries a download count that is [0] or a truthy
    number and a trend that is growing, stable or declining, so the scorer
    finds 2, 7 or 10 trend points in it.  Without a usable range answer the
    trend is stable with 0 percent, and without any answer the record is the
    default the orchestrator uses.  (Answers of another shape, such as an
    array element [null] or a count that is a string, are outside these
    types.) *)
Theorem analyzePopularity_always_scored :
  forall (weeklyData : option Analyzers.Weekly) (rangeData : option NpmApi.Range.t),
    let p :=
      Analyzers.analyzePopularity weeklyData (NpmApi.getDownloadTrend rangeData) in
    (exists n : JS.number,
        Shape.weeklyDownloads p = Some n /\ (n = JS.Int 0 \/ JS.truthy n = true))
    /\ (Shape.trend p = Some "growing" \/ Shape.trend p = Some "stable"
        \/ Shape.trend p = Some "declining")
    /\ (forall r : AnalysisResult,
           popularity r = Some p ->
           trendPoints r = 2 \/ trendPoints r = 7 \/ trendPoints r = 10)
    /\ (NpmApi.getDownloadTrend rangeData = None ->
        Shape.trend p = Some "stable" /\ Shape.trendPercent p = Some 0%float)
    /\ (weeklyData = None -> NpmApi.getDownloadTrend rangeData = None ->
        p = Index.defaultPopularity).
Proof.
  intros weeklyData rangeData p.
  assert (Htrend : Shape.trend p = Some "growing" \/ Shape.trend p = Some "stable"
                   \/ Shape.trend p = Some "declining").
  { unfold p, Analyzers.analyzePopularity.
    destruct (NpmApi.getDownloadTrend rangeData) as [t|] eqn:E; cbn [Shape.trend].
    - destruct (getDownloadTrend_trend_names _ _ E) as [-> | [-> | ->]]; tauto.
    - tauto. }
  split; [|split; [exact Htrend|split; [|split]]].
  - unfold p, Analyzers.analyzePopularity.
    destruct (NpmApi.getDownloadTrend rangeData) as [t|]; cbn [Shape.weeklyDownloads];
      (eexists; split; [reflexivity|]);
      unfold JS.or_zero;
      (destruct weeklyData as [[[n|]]|]; cbn [Analyzers.downloads];
       [destruct (JS.truthy n) eqn:Et; [now right|now left] | now left | now left]).
  - intros r Hr. unfold trendPoints, Score.trendStep. rewrite Hr. cbv zeta.
    destruct Htrend as [-> | [-> | ->]]; cbn; tauto.
  - intros E. unfold p, Analyzers.analyzePopularity. rewrite E. split; reflexivity.
  - intros -> E. unfold p, Analyzers.analyzePopularity. rewrite E. reflexivity.
Qed.

(** ** The results of the orchestrator *)

(** The range and the rounding of the project score, for scored entries. *)
Lemma calculateProjectScore_scored (results devResults : list AnalysisResult) :
  Forall scored results ->
  Forall scored devResults ->
  0 <= Score.calculateProjectScore results devResults <= 100.
Proof.
  intros Hp Hd.
  set (es := Aggregate.entries (map Score.scoreOf results)
               (map Score.scoreOf devResults)).
  destruct (calculateProjectScore_sums results devResults)
    as (ws & tw & Hws & Htw & ->).
  fold es in Hws, Htw.
  assert (Hes : Forall (fun e => 0 <= fst e <= 100) es).
  { unfold es, Aggregate.entries. rewrite !map_map. apply Forall_app. split.
    - exact (scored_scoreOf results Aggregate.production Hp).
    - exact (scored_scoreOf devResults Aggregate.dev Hd). }
  destruct (weighted_sum_bounds es Hes) as [Hlo Hhi].
  destruct (Qeq_bool tw 0) eqn:E; [lia|].
  assert (Hpos : (0 < tw)%Q).
  { apply Qeq_bool_neq in E.
    pose proof (total_weight_nonneg es) as Hnn. rewrite <- Htw in Hnn.
    apply Qle_lteq in Hnn. destruct Hnn as [Hlt|Heq]; [exact Hlt|].
    exfalso. apply E. now symmetry. }
  rewrite <- Hws in Hlo. rewrite <- Hws, <- Htw in Hhi.
  apply Math_round_range.
  - apply Qle_shift_div_l; [exact Hpos|]. now rewrite Qmult_0_l.
  - apply Qle_shift_div_r; [exact Hpos|]. exact Hhi.
Qed.

Lemma well_formed_scored (r : AnalysisResult) : well_formed r -> scored r.
Proof.
  intros (_ & s & Hs & Hr & _). exists s. now split.
Qed.

Lemma analyzePackage_well_formed (S : Index.Services) (n v : string)
    (o : Index.AnalyzeOptions) (r : AnalysisResult) :
  Index.analyzePackage S n v o = JS.fulfilled r -> well_formed r.
Proof.
  unfold Index.analyzePackage.
  destruct (Index.getPackageInfo S n) as [[info|]|reason]; intros H;
    inversion H; subst; clear H; (split; [cbn; discriminate|]).
  - eexists. cbn [score grade]. split; [reflexivity|]. split; [|reflexivity].
    apply (proj1 calculateScore_total_aux).
  - exists 0. cbn. repeat split; lia.
Qed.

Lemma settledResult_well_formed (S : Index.Services) (o : Index.AnalyzeOptions)
    (entries : list (string * string)) (i : nat) (n v : string) :
  nth_error entries i = Some (n, v) ->
  well_formed (Index.settledResult entries (Index.analyzePackage S n v o) i).
Proof.
  intros H. unfold Index.settledResult.
  destruct (Index.analyzePackage S n v o) as [r|reason] eqn:E.
  - exact (analyzePackage_well_formed S n v o r E).
  - split; [cbn; rewrite H; discriminate|].
    exists 0. cbn. repeat split; lia.
Qed.

(** Every result of [analyzeEntries] is the result of one entry. *)
Lemma analyzeEntries_In (S : Index.Services) (o : Index.AnalyzeOptions)
    (entries : list (string * string)) (r : AnalysisResult) :
  In r (Index.analyzeEntries S o entries) ->
  exists i n v,
    nth_error entries i = Some (n, v)
    /\ r = Index.settledResult entries (Index.analyzePackage S n v o) i.
Proof.
  intros Hin. apply In_nth_error in Hin. destruct Hin as [i Hi].
  destruct (nth_error entries i) as [[n v]|] eqn:E.
  - exists i, n, v. split; [exact E|].
    rewrite (analyzeEntries_nth S o entries i n v E) in Hi. congruence.
  - apply nth_error_None in E. rewrite <- (analyzeEntries_length S o) in E.
    apply nth_error_None in E. congruence.
Qed.

Lemma analyzeEntries_well_formed (S : Index.Services) (o : Index.AnalyzeOptions)
    (entries : list (string * string)) :
  Forall well_formed (Index.analyzeEntries S o entries).
Proof.
  apply Forall_forall. intros r Hin.
  destruct (analyzeEntries_In S o entries r Hin) as (i & n & v & Hi & ->).
  now apply settledResult_well_formed.
Qed.

(** X16.  Whatever the registry and the extractors do, every result that
    [analyzeProject] returns names its dependency and has a score within
    0..100 with the grade of that score; the project score is within 0..100
    and the project grade is its grade.  A project without analyzed
    dependencies gets 0 and F. *)
Theorem analyzeProject_report_invariants :
  forall (S : Index.Services) (pkg : Index.Manifest.t) (options : Index.ProjectOptions),
    let out := Index.analyzeProject S pkg options in
    Forall well_formed (Index.Project.dependencies out)
    /\ Forall well_formed (Index.Project.devDependencies out)
    /\ 0 <= Index.Project.projectScore out <= 100
    /\ Index.Project.projectGrade out
       = Score.calculateGrade (Index.Project.projectScore out)
    /\ (Index.Project.dependencies out = [] ->
        Index.Project.devDependencies out = [] ->
        Index.Project.projectScore out = 0 /\ Index.Project.projectGrade out = "F").
Proof.
  intros S pkg options out.
  assert (Hp : Forall well_formed (Index.Project.dependencies out))
    by apply analyzeEntries_well_formed.
  assert (Hd : Forall well_formed (Index.Project.devDependencies out)).
  { unfold out, Index.analyzeProject; cbv zeta. cbn [Index.Project.devDependencies].
    destruct (match Index.includeDev options with Some b => b | None => false end);
      [apply analyzeEntries_well_formed|constructor]. }
  split; [exact Hp|]. split; [exact Hd|]. split; [|split].
  - apply calculateProjectScore_scored;
      (eapply Forall_impl; [exact well_formed_scored|assumption]).
  - reflexivity.
  - intros E1 E2.
    assert (E : Index.Project.projectScore out = 0).
    { change (Index.Project.projectScore out)
        with (Score.calculateProjectScore (Index.Project.dependencies out)
                (Index.Project.devDependencies out)).
      now rewrite E1, E2. }
    split; [exact E|].
    change (Index.Project.projectGrade out)
      with (Score.calculateGrade (Index.Project.projectScore out)).
    now rewrite E.
Qed.

(** ** The orchestrator with the analyzers of the repository *)

Lemma analyzePopularity_trend_points (weeklyData : option Analyzers.Weekly)
    (rangeData : option NpmApi.Range.t) (r : AnalysisResult) :
  popularity r
  = Some (Analyzers.analyzePopularity weeklyData (NpmApi.getDownloadTrend rangeData)) ->
  2 <= trendPoints r.
Proof.
  intros Hr. unfold trendPoints, Score.trendStep. rewrite Hr. cbv zeta.
  unfold Analyzers.analyzePopularity.
  destruct (NpmApi.getDownloadTrend rangeData) as [t|] eqn:E; cbn [Shape.trend].
  - destruct (getDownloadTrend_trend_names _ _ E) as [-> | [-> | ->]]; cbn; lia.
  - cbn; lia.
Qed.

(** What [analyzePackage] returns for a package whose metadata was found,
    with the analyzers of the repository. *)
Lemma shipped_found (w : Shipped.World) (n v : string) (o : Index.AnalyzeOptions)
    (info : Analyzers.PackageInfo) :
  Shipped.registry w n = JS.fulfilled (Some info) ->
  exists r : AnalysisResult,
    Index.analyzePackage (Shipped.services w) n v o = JS.fulfilled r
    /\ error r = None
    /\ security r = Some {| Shape.vulnerabilities := Some (JS.Int 0);
                            Shape.severity := Some "none" |}
    /\ size r = Some (Analyzers.analyzeSize (Shipped.String_unsafe w)
                        (Shipped.toFixed1_unsafe w) (Some info))
    /\ popularity r
       = Some (Analyzers.analyzePopularity (Shipped.weekly w n)
                 (NpmApi.getDownloadTrend (Shipped.range w n)))
    /\ maintenance r
       = Some (Index.valueOr
                 (Analyzers.analyzeMaintenance (Shipped.parseDate w)
                    (Shipped.toISODate w) (Shipped.invalid_time w) (Shipped.now w)
                    (Some info))
                 Index.defaultMaintenance)
    /\ score r = Some (Score.calculateScore r)
    /\ grade r = Some (Score.calculateGrade (Score.calculateScore r))
    /\ 27 <= Score.calculateScore r <= 100.
Proof.
  intros H. unfold Index.analyzePackage.
  cbn [Shipped.services Index.getPackageInfo Index.analyzeMaintenance
       Index.analyzePopularity Index.analyzeSize Index.analyzeSecurity
       Index.getAlternative Index.dist_tags Index.PackageInfo].
  rewrite H. cbv zeta. cbn [Index.valueOr].
  eexists. split; [reflexivity|].
  cbn [error security size popularity maintenance score grade].
  match goal with
  | |- context [Some (Score.calculateScore ?b)] => set (bundle := b)
  end.
  match goal with
  | |- context [Some (Score.calculateScore bundle) = Some (Score.calculateScore ?r)] =>
      assert (Hsame : Score.calculateScore r = Score.calculateScore bundle)
        by (apply (proj2 calculateScore_total_aux); reflexivity)
  end.
  repeat split; trivial; try (now rewrite Hsame).
  - rewrite Hsame. rewrite calculateScore_sum.
    pose proof (maintenancePoints_range bundle).
    pose proof (popularityPoints_range bundle).
    pose proof (sizePoints_range bundle).
    assert (Hsec : securityPoints bundle = 25) by reflexivity.
    pose proof (analyzePopularity_trend_points (Shipped.weekly w n) (Shipped.range w n)
                  bundle eq_refl).
    lia.
  - rewrite Hsame. apply (proj1 calculateScore_total_aux).
Qed.

Lemma grade_not_F (s : Z) : 20 <= s -> Score.calculateGrade s <> "F".
Proof.
  intros Hs. unfold Score.calculateGrade.
  repeat match goal with
         | |- context [(?a <=? ?b)%Z] => destruct (Z.leb_spec a b)
         end; try discriminate; lia.
Qed.

Lemma found_package_aux (w : Shipped.World) (n v : string) (o : Index.AnalyzeOptions)
    (info : Analyzers.PackageInfo) :
  Shipped.registry w n = JS.fulfilled (Some info) ->
  exists r : AnalysisResult,
    Index.analyzePackage (Shipped.services w) n v o = JS.fulfilled r
    /\ grade r <> Some "F".
Proof.
  intros H.
  destruct (shipped_found w n v o info H)
    as (r & Hr & _ & _ & _ & _ & _ & _ & Hg & Hrange).
  exists r. split; [exact Hr|].
  rewrite Hg. intros E. injection E as E. revert E. apply grade_not_F. lia.
Qed.

(** X17.  With the analyzers of the repository, whose security analyzer
    always reports no vulnerability, a package whose metadata was found is
    never graded F: its result carries no error marker, the clean security
    record, and a score of at least 27 (25 for security and at least 2 for
    the trend), whatever the other analyzers find and even when the
    maintenance analyzer is rejected. *)
Theorem found_package_is_never_F :
  forall (w : Shipped.World) (n v : string) (o : Index.AnalyzeOptions)
         (info : Analyzers.PackageInfo),
    Shipped.registry w n = JS.fulfilled (Some info) ->
    exists (r : AnalysisResult) (s : Z),
      Index.analyzePackage (Shipped.services w) n v o = JS.fulfilled r
      /\ error r = None
      /\ security r = Some {| Shape.vulnerabilities := Some (JS.Int 0);
                              Shape.severity := Some "none" |}
      /\ score r = Some s /\ 27 <= s <= 100
      /\ grade r = Some (Score.calculateGrade s)
      /\ grade r <> Some "F".
Proof.
  intros w n v o info H.
  destruct (shipped_found w n v o info H)
    as (r & Hr & He & Hsec & _ & _ & _ & Hs & Hg & Hrange).
  exists r, (Score.calculateScore r). repeat split; trivial; try lia.
  rewrite Hg. intros E. injection E as E. revert E. apply grade_not_F. lia.
Qed.

(** ** The exit code *)

Lemma hasF_false (deps : list AnalysisResult) :
  Cli.hasF deps = false <-> forall r, In r deps -> grade r <> Some "F".
Proof.
  unfold Cli.hasF. split.
  - intros H r Hin Hg.
    assert (E : existsb (fun d => (grade d === "F")%js) deps = true).
    { apply existsb_exists. exists r. split; [exact Hin|]. now rewrite Hg. }
    congruence.
  - intros H. destruct (existsb _ deps) eqn:E; [|reflexivity].
    apply existsb_exists in E. destruct E as (r & Hin & Hr).
    exfalso. apply (H r Hin). unfold JS.str_eq in Hr.
    destruct (grade r) as [g|]; [|discriminate].
    apply String.eqb_eq in Hr. now subst.
Qed.

(** The results a run looks at are the results of the entries in scope. *)
Lemma allDeps_entries (S : Index.Services) (pkg : Index.Manifest.t)
    (options : Cli.Options) :
  let o := {| Index.noCache :=
                Some (match Cli.cache options with Some false => true | _ => false end) |} in
  Cli.allDeps (Index.analyzeProject S pkg (project_options options)) options
  = (Index.analyzeEntries S o (entries_of (Index.Manifest.dependencies pkg))
     ++ (if Cli.on (Cli.dev options)
         then Index.analyzeEntries S o (entries_of (Index.Manifest.devDependencies pkg))
         else []))%list.
Proof.
  unfold Cli.allDeps, Index.analyzeProject, project_options; cbv zeta.
  cbn [Index.Project.dependencies Index.Project.devDependencies
       Index.includeDev Index.useCache].
  fold (entries_of (Index.Manifest.dependencies pkg)).
  fold (entries_of (Index.Manifest.devDependencies pkg)).
  destruct (Cli.cache options) as [[|]|]; destruct (Cli.on (Cli.dev options));
    reflexivity.
Qed.

Lemma in_scope_empty (pkg : Index.Manifest.t) (options : Cli.Options) :
  ((List.length (entries_of (Index.Manifest.dependencies pkg)) =? 0)%nat
   && (negb (Cli.on (Cli.dev options))
       || (List.length (entries_of (Index.Manifest.devDependencies pkg)) =? 0)%nat))
  = true
  <-> in_scope pkg options = [].
Proof.
  unfold in_scope.
  destruct (entries_of (Index.Manifest.dependencies pkg)) as [|e es];
    destruct (Cli.on (Cli.dev options));
    destruct (entries_of (Index.Manifest.devDependencies pkg)) as [|d ds];
    cbn; split; intros H; try reflexivity; discriminate.
Qed.

Lemma run_zero (S : Index.Services) (render : Index.Project.t -> Cli.Options -> bool)
    (pkg : option Index.Manifest.t) (options : Cli.Options) :
  Cli.run S render pkg options = 0
  <-> exists p : Index.Manifest.t,
        pkg = Some p
        /\ in_scope p options <> []
        /\ render (Index.analyzeProject S p (project_options options)) options = true
        /\ forall r,
             In r (Cli.allDeps (Index.analyzeProject S p (project_options options))
                     options) ->
             grade r <> Some "F".
Proof.
  unfold Cli.run. destruct pkg as [p|].
  - cbv zeta. fold (project_options options).
    destruct (_ && _) eqn:Eempty.
    + apply (proj1 (in_scope_empty _ _)) in Eempty.
      split; [discriminate|]. intros (p' & Hp & Hne & _). injection Hp as <-. congruence.
    + assert (Hne : in_scope p options <> []).
      { intros E. apply (proj2 (in_scope_empty _ _)) in E. congruence. }
      destruct (render _ options) eqn:Er; cbn [negb].
      * destruct (Cli.hasF _) eqn:Ef.
        -- split; [discriminate|]. intros (p' & Hp & _ & _ & Hall).
           injection Hp as <-. pose proof (proj2 (hasF_false _) Hall). congruence.
        -- pose proof (proj1 (hasF_false _) Ef) as Hall.
           split; [|reflexivity]. intros _. exists p. repeat split; trivial.
      * split; [discriminate|]. intros (p' & Hp & _ & Hr & _).
        injection Hp as <-. congruence.
  - split; [discriminate|]. intros (p & Hp & _). discriminate.
Qed.

(** X18.  A run ends with exit code 0 or 1, and with 0 exactly when
    [package.json] was read, at least one dependency is in scope (production
    dependencies, and dev dependencies with [--dev]), the reporter returned,
    and no result in scope has grade F.  Dev dependencies graded F do not
    fail a run without [--dev]. *)
Theorem cli_exit_code :
  forall (S : Index.Services) (render : Index.Project.t -> Cli.Options -> bool)
         (pkg : option Index.Manifest.t) (options : Cli.Options),
    (Cli.run S render pkg options = 0 \/ Cli.run S render pkg options = 1)
    /\ (Cli.run S render pkg options = 0
        <-> exists p : Index.Manifest.t,
              pkg = Some p
              /\ in_scope p options <> []
              /\ render (Index.analyzeProject S p (project_options options)) options
                 = true
              /\ forall r,
                   In r (Cli.allDeps
                           (Index.analyzeProject S p (project_options options))
                           options) ->
                   grade r <> Some "F").
Proof.
  intros S render pkg options. split; [|apply run_zero].
  unfold Cli.run. destruct pkg as [p|]; [|now right]. cbv zeta.
  destruct (_ && _); [now right|].
  destruct (negb _); [now right|].
  destruct (Cli.hasF _); [now right|now left].
Qed.

(** With the analyzers of the repository, a result is graded F exactly when
    the metadata of its package was not acquired. *)
Lemma shipped_entry_F (w : Shipped.World) (o : Index.AnalyzeOptions)
    (entries : list (string * string)) (i : nat) (n v : string) :
  nth_error entries i = Some (n, v) ->
  grade (Index.settledResult entries
           (Index.analyzePackage (Shipped.services w) n v o) i) = Some "F"
  <-> forall info, Shipped.registry w n <> JS.fulfilled (Some info).
Proof.
  intros Hi.
  destruct (Shipped.registry w n) as [[info|]|reason] eqn:E.
  - destruct (found_package_aux w n v o info E) as (r & Hr & HF).
    rewrite Hr. cbn [Index.settledResult]. split; [intros H; now apply HF in H|].
    intros H. exfalso. now apply (H info).
  - unfold Index.analyzePackage.
    cbn [Shipped.services Index.getPackageInfo]. rewrite E.
    cbn [Index.settledResult grade]. split; [discriminate|reflexivity].
  - unfold Index.analyzePackage.
    cbn [Shipped.services Index.getPackageInfo]. rewrite E.
    cbn [Index.settledResult grade]. split; [discriminate|reflexivity].
Qed.

Lemma shipped_entries_no_F (w : Shipped.World) (o : Index.AnalyzeOptions)
    (entries : list (string * string)) :
  (forall r, In r (Index.analyzeEntries (Shipped.services w) o entries) ->
             grade r <> Some "F")
  <-> (forall n v, In (n, v) entries ->
                   exists info, Shipped.registry w n = JS.fulfilled (Some info)).
Proof.
  split.
  - intros H n v Hin. apply In_nth_error in Hin. destruct Hin as [i Hi].
    pose proof (analyzeEntries_nth (Shipped.services w) o entries i n v Hi) as Hr.
    apply nth_error_In in Hr. apply H in Hr.
    destruct (Shipped.registry w n) as [[info|]|reason] eqn:E;
      [now exists info | |];
      exfalso; apply Hr; apply (proj2 (shipped_entry_F w o entries i n v Hi));
      intros info; rewrite E; discriminate.
  - intros H r Hin.
    destruct (analyzeEntries_In _ o entries r Hin) as (i & n & v & Hi & ->).
    intros HF.
    pose proof (proj1 (shipped_entry_F w o entries i n v Hi) HF) as Hnone.
    destruct (H n v (nth_error_In _ _ Hi)) as [info E]. now apply (Hnone info).
Qed.

(** X19.  With the analyzers of the repository a run succeeds exactly when
    there was something to scan and all of it could be fetched: the exit
    code is 0 if and only if [package.json] was read, some dependency is in
    scope, the reporter returned, and the registry answered with metadata
    for every dependency in scope.  No finding about a package that was
    fetched (abandoned, huge, declining) makes the run fail. *)
Theorem cli_fails_only_on_missing_metadata :
  forall (w : Shipped.World) (render : Index.Project.t -> Cli.Options -> bool)
         (pkg : option Index.Manifest.t) (options : Cli.Options),
    Cli.run (Shipped.services w) render pkg options = 0
    <-> exists p : Index.Manifest.t,
          pkg = Some p
          /\ in_scope p options <> []
          /\ render (Index.analyzeProject (Shipped.services w) p
                       (project_options options)) options = true
          /\ forall n v,
               In (n, v) (in_scope p options) ->
               exists info, Shipped.registry w n = JS.fulfilled (Some info).
Proof.
  intros w render pkg options. rewrite run_zero.
  assert (Hscope : forall p,
             (forall r,
                 In r (Cli.allDeps
                         (Index.analyzeProject (Shipped.services w) p
                            (project_options options)) options) ->
                 grade r <> Some "F")
             <-> (forall n v, In (n, v) (in_scope p options) ->
                              exists info,
                                Shipped.registry w n = JS.fulfilled (Some info))).
  { intros p. rewrite allDeps_entries. cbv zeta. unfold in_scope.
    set (o := {| Index.noCache := _ |}).
    pose proof (shipped_entries_no_F w o
                  (entries_of (Index.Manifest.dependencies p))) as Hprod.
    pose proof (shipped_entries_no_F w o
                  (entries_of (Index.Manifest.devDependencies p))) as Hdev.
    destruct (Cli.on (Cli.dev options)).
    - split.
      + intros H n v Hin. apply in_app_or in Hin. destruct Hin as [Hin|Hin].
        * refine (proj1 Hprod _ n v Hin). intros r Hr. apply H, in_or_app. now left.
        * refine (proj1 Hdev _ n v Hin). intros r Hr. apply H, in_or_app. now right.
      + intros H r Hin. apply in_app_or in Hin. destruct Hin as [Hin|Hin].
        * refine (proj2 Hprod _ r Hin). intros n v Hnv. apply (H n v), in_or_app. now left.
        * refine (proj2 Hdev _ r Hin). intros n v Hnv. apply (H n v), in_or_app. now right.
    - rewrite !app_nil_r. exact Hprod. }
  split; intros (p & Hp & Hne & Hr & Hall); exists p; repeat split; trivial;
    now apply Hscope.
Qed.

(** ** The JSON report *)

Lemma insert_Permutation (x : JsonReporter.Entry.t) (l : list JsonReporter.Entry.t) :
  Permutation (x :: l) (JsonReporter.insert JsonReporter.byScore x l).
Proof.
  induction l as [|y l IH]; cbn; [reflexivity|].
  destruct (JsonReporter.byScore x y) as [v|]; [|reflexivity].
  destruct (0 <? v)%Z; [|reflexivity].
  rewrite perm_swap. now constructor.
Qed.

Lemma sort_Permutation (l : list JsonReporter.Entry.t) :
  Permutation l (JsonReporter.sort JsonReporter.byScore l).
Proof.
  induction l as [|x l IH]; cbn; [reflexivity|].
  rewrite <- insert_Permutation. now constructor.
Qed.

Lemma insert_sorted (x : JsonReporter.Entry.t) (l : list JsonReporter.Entry.t) :
  JsonReporter.Entry.score x <> None ->
  Forall (fun d => JsonReporter.Entry.score d <> None) l ->
  StronglySorted score_le l ->
  StronglySorted score_le (JsonReporter.insert JsonReporter.byScore x l).
Proof.
  intros Hx Hl Hs. induction Hs as [|y l Hs IH Hy]; cbn.
  - constructor; constructor.
  - inversion Hl as [|? ? Hy' Hl']; subst.
    unfold JsonReporter.byScore at 1.
    destruct (JsonReporter.Entry.score x) as [sx|] eqn:Ex; [|congruence].
    destruct (JsonReporter.Entry.score y) as [sy|] eqn:Ey; [|congruence].
    destruct (0 <? sx - sy)%Z eqn:Ecmp.
    + apply Z.ltb_lt in Ecmp. constructor; [now apply IH|].
      apply (Permutation_Forall (insert_Permutation x l)).
      constructor; [|exact Hy].
      exists sy, sx. repeat split; trivial; lia.
    + apply Z.ltb_ge in Ecmp.
      assert (Hxy : score_le x y) by (exists sx, sy; repeat split; trivial; lia).
      constructor; [now constructor|]. constructor; [exact Hxy|].
      eapply Forall_impl; [|exact Hy].
      intros d (a & b & Ha & Hb & Hab). exists sx, b.
      rewrite Ey in Ha. injection Ha as <-. repeat split; trivial; lia.
Qed.

Lemma sort_scored (l : list JsonReporter.Entry.t) :
  Forall (fun d => JsonReporter.Entry.score d <> None) l ->
  Forall (fun d => JsonReporter.Entry.score d <> None)
         (JsonReporter.sort JsonReporter.byScore l).
Proof. apply Permutation_Forall, sort_Permutation. Qed.

Lemma sort_sorted (l : list JsonReporter.Entry.t) :
  Forall (fun d => JsonReporter.Entry.score d <> None) l ->
  StronglySorted score_le (JsonReporter.sort JsonReporter.byScore l).
Proof.
  induction 1 as [|x l Hx Hl IH]; cbn; [constructor|].
  apply insert_sorted; trivial. now apply sort_scored.
Qed.

Lemma insert_filter (s : Z) (x : JsonReporter.Entry.t) (l : list JsonReporter.Entry.t) :
  filter (has_score s) (JsonReporter.insert JsonReporter.byScore x l)
  = filter (has_score s) (x :: l).
Proof.
  induction l as [|y l IH]; [reflexivity|].
  cbn [JsonReporter.insert].
  destruct (JsonReporter.byScore x y) as [v|] eqn:Ev; [|reflexivity].
  destruct (0 <? v)%Z eqn:Ecmp; [|reflexivity].
  apply Z.ltb_lt in Ecmp.
  cbn [filter] in *. rewrite IH.
  unfold JsonReporter.byScore in Ev. unfold has_score.
  destruct (JsonReporter.Entry.score x) as [sx|]; [|discriminate].
  destruct (JsonReporter.Entry.score y) as [sy|]; [|discriminate].
  injection Ev as <-.
  destruct (sx =? s)%Z eqn:E1; [|reflexivity].
  apply Z.eqb_eq in E1.
  destruct (sy =? s)%Z eqn:E2; [|reflexivity].
  apply Z.eqb_eq in E2. lia.
Qed.

Lemma sort_filter (s : Z) (l : list JsonReporter.Entry.t) :
  filter (has_score s) (JsonReporter.sort JsonReporter.byScore l)
  = filter (has_score s) l.
Proof.
  induction l as [|x l IH]; [reflexivity|].
  cbn [JsonReporter.sort fold_right].
  rewrite insert_filter. cbn [filter].
  fold (JsonReporter.sort JsonReporter.byScore l). now rewrite IH.
Qed.

Lemma In_firstn {T : Type} (n : nat) (l : list T) (x : T) : In x (firstn n l) -> In x l.
Proof.
  intros H. rewrite <- (firstn_skipn n l). apply in_or_app. now left.
Qed.

Lemma In_skipn {T : Type} (n : nat) (l : list T) (x : T) : In x (skipn n l) -> In x l.
Proof.
  intros H. rewrite <- (firstn_skipn n l). apply in_or_app. now right.
Qed.

Lemma StronglySorted_split {T : Type} (R : T -> T -> Prop) (n : nat) (l : list T) :
  StronglySorted R l ->
  StronglySorted R (firstn n l)
  /\ forall k o, In k (firstn n l) -> In o (skipn n l) -> R k o.
Proof.
  intros Hs. revert n. induction Hs as [|x l Hs IH Hx]; intros n.
  - rewrite firstn_nil, skipn_nil. split; [constructor|intros k o []].
  - destruct n as [|n]; cbn.
    + split; [constructor|intros k o []].
    + destruct (IH n) as [IH1 IH2]. split.
      * constructor; [exact IH1|].
        apply Forall_forall. intros d Hd. apply In_firstn in Hd.
        revert d Hd. now apply Forall_forall.
      * intros k o [<-|Hk] Ho.
        -- apply In_skipn in Ho. revert o Ho. now apply Forall_forall.
        -- now apply IH2.
Qed.

Lemma limited_dropped {T : Type} (limit : option JS.number) (arr : list T) :
  arr = (JsonReporter.limited limit arr ++ dropped limit arr)%list
  /\ (JsonReporter.limited limit arr = arr
      \/ exists n, JsonReporter.limited limit arr = firstn n arr
                   /\ dropped limit arr = skipn n arr).
Proof.
  unfold JsonReporter.limited, dropped.
  destruct limit as [[| | |z]|]; cbn; rewrite ?app_nil_r; try (split; [reflexivity|now left]).
  destruct z as [|p|p]; cbn; rewrite ?app_nil_r; try (split; [reflexivity|now left]).
  split; [symmetry; apply firstn_skipn|]. right. now exists (Pos.to_nat p).
Qed.

Lemma reported_allDeps (results : Index.Project.t) (options : JsonReporter.Options) :
  (if Cli.on (JsonReporter.dev options)
      && (0 <? List.length (Index.Project.devDependencies results))%nat
   then (map (fun d => JsonReporter.formatDep d "production" options)
             (Index.Project.dependencies results)
         ++ map (fun d => JsonReporter.formatDep d "dev" options)
                (Index.Project.devDependencies results))%list
   else map (fun d => JsonReporter.formatDep d "production" options)
            (Index.Project.dependencies results))
  = reported results options.
Proof.
  unfold reported. destruct (Cli.on _); cbn [andb]; [|now rewrite app_nil_r].
  destruct (Index.Project.devDependencies results); cbn; [now rewrite app_nil_r|reflexivity].
Qed.

Lemma buildOutput_dependencies (now : string) (results : Index.Project.t)
    (options : JsonReporter.Options) :
  JsonReporter.dependencies (JsonReporter.buildOutput now results options)
  = JsonReporter.limited (JsonReporter.limit options)
      (JsonReporter.sort JsonReporter.byScore (reported results options)).
Proof.
  unfold JsonReporter.buildOutput. cbv zeta. cbn [JsonReporter.dependencies].
  now rewrite reported_allDeps.
Qed.

Lemma reported_scored (results : Index.Project.t) (options : JsonReporter.Options) :
  Forall (fun r => score r <> None) (Index.Project.dependencies results) ->
  Forall (fun r => score r <> None) (Index.Project.devDependencies results) ->
  Forall (fun d => JsonReporter.Entry.score d <> None) (reported results options).
Proof.
  intros Hp Hd. unfold reported. apply Forall_app. split.
  - apply Forall_map. exact Hp.
  - destruct (Cli.on _); [|constructor]. apply Forall_map. exact Hd.
Qed.

(** X20.  When every result has a numeric score, the [dependencies] of the
    JSON report are in ascending order of score, and they are the report's
    entries (production, and dev with [--dev]) up to what the limit leaves
    out: every entry left out scores at least as much as every entry kept.
    [totalDependencies] counts the entries before the limit. *)
Theorem buildOutput_worst_first :
  forall (now : string) (results : Index.Project.t) (options : JsonReporter.Options),
    Forall (fun r => score r <> None) (Index.Project.dependencies results) ->
    Forall (fun r => score r <> None) (Index.Project.devDependencies results) ->
    let out := JsonReporter.buildOutput now results options in
    StronglySorted score_le (JsonReporter.dependencies out)
    /\ JsonReporter.totalDependencies out
       = Z.of_nat (List.length (reported results options))
    /\ exists omitted : list JsonReporter.Entry.t,
         Permutation (reported results options)
                     (JsonReporter.dependencies out ++ omitted)
         /\ (forall k o, In k (JsonReporter.dependencies out) -> In o omitted ->
                         score_le k o)
         /\ (omitted = []
             \/ exists z, JsonReporter.limit options = Some (JS.Int z)
                          /\ 0 < z
                          /\ Z.of_nat (List.length (JsonReporter.dependencies out)) = z).
Proof.
  intros now results options Hp Hd out.
  pose proof (sort_sorted _ (reported_scored results options Hp Hd)) as Hsorted.
  unfold out. rewrite buildOutput_dependencies.
  set (sorted := JsonReporter.sort JsonReporter.byScore (reported results options))
    in *.
  split; [|split].
  - destruct (limited_dropped (JsonReporter.limit options) sorted) as [_ [->|(n & -> & _)]];
      [exact Hsorted|].
    apply (StronglySorted_split score_le n sorted Hsorted).
  - unfold JsonReporter.buildOutput, reported. cbv zeta.
    cbn [JsonReporter.totalDependencies].
    rewrite length_app, length_map.
    destruct (Cli.on _); rewrite ?length_map; cbn [List.length]; lia.
  - exists (dropped (JsonReporter.limit options) sorted).
    destruct (limited_dropped (JsonReporter.limit options) sorted) as [Hsplit Hcase].
    split; [|split].
    + rewrite <- Hsplit. apply sort_Permutation.
    + destruct Hcase as [E|(n & E1 & E2)].
      * intros k o _ Ho. exfalso.
        rewrite E in Hsplit. apply (f_equal (@List.length _)) in Hsplit.
        rewrite length_app in Hsplit.
        destruct (dropped _ _); [destruct Ho|cbn in Hsplit; lia].
      * rewrite E1, E2. apply (StronglySorted_split score_le n sorted Hsorted).
    + unfold dropped, JsonReporter.limited.
      destruct (JsonReporter.limit options) as [[| | |z]|]; try now left.
      destruct (0 <? z)%Z eqn:Ez; [|now left].
      apply Z.ltb_lt in Ez.
      destruct (Nat.le_gt_cases (List.length sorted) (Z.to_nat z)) as [Hlen|Hlen].
      * left. now apply skipn_all2.
      * right. exists z. split; [reflexivity|]. split; [exact Ez|].
        destruct z as [|p|p]; try lia. cbn [JS.truthy JS.gt andb].
        replace (0 <? Z.pos p)%Z with true by (symmetry; now apply Z.ltb_lt).
        rewrite firstn_length_le by lia. lia.
Qed.

(** X21.  The sort of the JSON report is stable: when every result has a
    numeric score, before the limit is applied the entries of any one score
    stand in the order of the report's entries, production dependencies
    before dev dependencies and each group in the order of the analysis. *)
Theorem buildOutput_ties_keep_order :
  forall (now : string) (results : Index.Project.t) (options : JsonReporter.Options),
    Forall (fun r => score r <> None) (Index.Project.dependencies results) ->
    Forall (fun r => score r <> None) (Index.Project.devDependencies results) ->
    exists sorted : list JsonReporter.Entry.t,
      JsonReporter.dependencies (JsonReporter.buildOutput now results options)
      = JsonReporter.limited (JsonReporter.limit options) sorted
      /\ Permutation (reported results options) sorted
      /\ forall s : Z,
           filter (has_score s) sorted
           = filter (has_score s) (reported results options).
Proof.
  intros now results options _ _.
  exists (JsonReporter.sort JsonReporter.byScore (reported results options)).
  split; [apply buildOutput_dependencies|]. split; [apply sort_Permutation|].
  intros s. apply sort_filter.
Qed.

Lemma count_letter (g : JsonReporter.Grades.t) (s : Z) :
  graded (JsonReporter.count g (Some (Score.calculateGrade s))) = graded g + 1.
Proof.
  unfold Score.calculateGrade, graded.
  repeat match goal with
         | |- context [if ?c then _ else _] => destruct c
         end; cbn; lia.
Qed.

Lemma tally_bounds (all : list AnalysisResult) (g : JsonReporter.Grades.t) (a v : Z) :
  Forall well_formed all ->
  let '(g', a', v') := fold_left JsonReporter.tally all (g, a, v) in
  graded g' = graded g + Z.of_nat (List.length all)
  /\ a <= a' <= a + Z.of_nat (List.length all)
  /\ v <= v' <= v + Z.of_nat (List.length all).
Proof.
  intros H. revert g a v. induction H as [|r all Hr Hall IH]; intros g a v.
  - cbn. lia.
  - cbn [fold_left List.length]. unfold JsonReporter.tally at 2.
    destruct Hr as (_ & s & _ & _ & Hg). rewrite Hg.
    match goal with
    | |- context [fold_left _ _ (_, ?a1, ?v1)] =>
        assert (Ha : a <= a1 <= a + 1) by
          (destruct (maintenance r) as [m|]; [destruct (_ === _)%js|]; lia);
        assert (Hv : v <= v1 <= v + 1) by
          (destruct (security r) as [sec|];
           [destruct (Shape.vulnerabilities sec) as [n|]; [destruct (_ > _)%js|]|]; lia);
        specialize (IH (JsonReporter.count g (Some (Score.calculateGrade s))) a1 v1);
        destruct (fold_left _ _ _) as [[g' a'] v']
    end.
    rewrite count_letter in IH. lia.
Qed.

(** X22.  For results graded by the scorer, the five grade counters of the
    summary add up to the number of dependencies in scope, which is
    [productionCount + devCount]; the abandoned and the vulnerable counts lie
    between 0 and that number. *)
Theorem buildSummary_counts :
  forall (deps devDeps : list AnalysisResult) (options : JsonReporter.Options),
    Forall well_formed deps ->
    Forall well_formed devDeps ->
    let s := JsonReporter.buildSummary deps devDeps options in
    let n := JsonReporter.productionCount s + JsonReporter.devCount s in
    graded (JsonReporter.grades s) = n
    /\ n = Z.of_nat (List.length deps)
           + (if Cli.on (JsonReporter.dev options)
              then Z.of_nat (List.length devDeps) else 0)
    /\ 0 <= JsonReporter.abandonedCount s <= n
    /\ 0 <= JsonReporter.vulnerableCount s <= n.
Proof.
  intros deps devDeps options Hp Hd. unfold JsonReporter.buildSummary. cbv zeta.
  set (all := if Cli.on (JsonReporter.dev options) then (deps ++ devDeps)%list else deps).
  assert (Hall : Forall well_formed all).
  { unfold all. destruct (Cli.on _); [apply Forall_app; now split|exact Hp]. }
  assert (Hlen : Z.of_nat (List.length all)
                 = Z.of_nat (List.length deps)
                   + (if Cli.on (JsonReporter.dev options)
                      then Z.of_nat (List.length devDeps) else 0)).
  { unfold all. destruct (Cli.on _); rewrite ?length_app; lia. }
  pose proof (tally_bounds all
                {| JsonReporter.Grades.A := 0; JsonReporter.Grades.B := 0;
                   JsonReporter.Grades.C := 0; JsonReporter.Grades.D := 0;
                   JsonReporter.Grades.F := 0 |} 0 0 Hall) as H.
  destruct (fold_left _ _ _) as [[g a] v].
  cbn [JsonReporter.grades JsonReporter.abandonedCount JsonReporter.vulnerableCount
       JsonReporter.productionCount JsonReporter.devCount].
  unfold graded at 2 in H. cbn in H. lia.
Qed.

(** ** The rows of the terminal report *)

Lemma bar_ok_all : forallb (fun n => bar_ok (Z.of_nat n)) (seq 0 101) = true.
Proof. vm_compute. reflexivity. Qed.

(** X23.  For every integer score from 0 to 100 [scoreBar] returns, without
    a [RangeError], a bar of exactly 20 cells in the color of the score's
    band: the score divided by 5 and rounded to the nearest integer gives the
    number of full blocks, and light blocks fill the rest.  Outside that
    range it can throw: for a score of 103 the count of light blocks is
    negative. *)
Theorem scoreBar_twenty_cells :
  (forall s : Z,
      0 <= s <= 100 ->
      let filled := (2 * s + 5) / 10 in
      0 <= filled <= 20
      /\ TerminalReporter.scoreBar (NpmApi.of_Z s) = Some (bar s filled))
  /\ TerminalReporter.scoreBar (NpmApi.of_Z 103) = None.
Proof.
  split; [|vm_compute; reflexivity].
  intros s Hs filled. split.
  - subst filled. split.
    + apply Z.div_pos; lia.
    + apply Z.lt_succ_r, Z.div_lt_upper_bound; lia.
  - pose proof bar_ok_all as H. rewrite forallb_forall in H.
    specialize (H (Z.to_nat s)).
    rewrite Z2Nat.id in H by lia.
    assert (Hin : In (Z.to_nat s) (seq 0 101)) by (apply in_seq; lia).
    apply H in Hin. unfold bar_ok in Hin.
    destruct (TerminalReporter.scoreBar (NpmApi.of_Z s)) as [str|]; [|discriminate].
    apply String.eqb_eq in Hin. now subst.
Qed.

Lemma firstn_repeat {T : Type} (x : T) (k n : nat) :
  (k <= n)%nat -> firstn k (repeat x n) = repeat x k.
Proof.
  revert n. induction k as [|k IH]; intros n H; [reflexivity|].
  destruct n as [|n]; [lia|]. cbn. f_equal. apply IH. lia.
Qed.

(** X24.  [pad] always returns exactly [width] code units (none for a
    negative width): the first [width] units of the string followed by
    spaces.  A string that fits is kept whole, a longer one is cut. *)
Theorem pad_fixed_width :
  forall (U : Type) (space : U) (str : list U) (width : Z),
    TerminalReporter.pad space str width
    = firstn (Z.to_nat width) (str ++ repeat space (Z.to_nat width))%list
    /\ List.length (TerminalReporter.pad space str width) = Z.to_nat width
    /\ (Z.of_nat (List.length str) <= width ->
        firstn (List.length str) (TerminalReporter.pad space str width) = str).
Proof.
  intros U space str width.
  assert (E : TerminalReporter.pad space str width
              = firstn (Z.to_nat width) (str ++ repeat space (Z.to_nat width))%list).
  { unfold TerminalReporter.pad.
    destruct (width <=? Z.of_nat (List.length str))%Z eqn:Ew.
    - apply Z.leb_le in Ew. rewrite firstn_app.
      replace (Z.to_nat width - List.length str)%nat with O by lia.
      cbn [firstn]. now rewrite app_nil_r.
    - apply Z.leb_gt in Ew. rewrite firstn_app.
      rewrite firstn_all2 by lia. f_equal.
      rewrite firstn_repeat by lia. f_equal. lia. }
  split; [exact E|]. split.
  - rewrite E, length_firstn, length_app, repeat_length. lia.
  - intros Hfit. unfold TerminalReporter.pad.
    destruct (width <=? Z.of_nat (List.length str))%Z eqn:Ew.
    + apply Z.leb_le in Ew. rewrite firstn_firstn.
      replace (Nat.min (List.length str) (Z.to_nat width)) with (List.length str) by lia.
      apply firstn_all.
    + rewrite firstn_app, Nat.sub_diag, firstn_all. cbn [firstn]. apply app_nil_r.
Qed.

(** ** The properties above on a concrete world *)

Lemma maintenance_status_by_age_witness :
  exists m : Shape.Maintenance,
    Analyzers.analyzeMaintenance Express.parseDate Express.toISODate
      Express.invalid_time Express.now (Some Express.express) = JS.fulfilled m
    /\ Shape.lastPublish m = Some "2026-10-01"
    /\ Shape.daysSincePublish m = Some (JS.Int 32)
    /\ (Shape.status m = Some "active"
        <-> Express.now - 1790812800000 < 180 * 86400000).
Proof.
  eexists. split; [vm_compute; reflexivity|].
  destruct (maintenance_status_by_age Express.parseDate Express.toISODate
              Express.invalid_time Express.now (Some Express.express) _ eq_refl)
    as [([E|(info & E & En)] & _)
       |(info & time & t & Ei & Et & Ed & _ & Hl & Hd & Ha & _)].
  - discriminate E.
  - injection E as <-. discriminate En.
  - injection Ei as <-. injection Et as <-.
    assert (Ht : t = 1790812800000) by (vm_compute in Ed; congruence).
    subst t. split; [exact Hl|]. split; [exact Hd|]. exact Ha.
Defined.

Lemma maintenance_fallback_most_recent_witness :
  exists t : Z,
    Analyzers.lastPublishDate Express.parseDate Express.untagged Express.untagged_time
    = Some t
    /\ ((t = 0 /\ forall key val, In (key, val) Express.untagged_time -> key = "created")
        \/ ((exists key val,
                In (key, val) Express.untagged_time /\ key <> "created"
                /\ Express.parseDate val = Some t)
            /\ (forall key val t',
                   In (key, val) Express.untagged_time -> key <> "created" ->
                   Express.parseDate val = Some t' -> t' <= t))).
Proof.
  apply (maintenance_fallback_most_recent Express.parseDate Express.untagged
           Express.untagged_time).
  - reflexivity.
  - reflexivity.
  - intros key val [E|[E|[E|[]]]] Hkey; injection E as <- <-;
      [now elim Hkey|vm_compute; discriminate|vm_compute; discriminate].
Defined.

Lemma found_package_is_never_F_witness :
  exists (r : AnalysisResult) (s : Z),
    Index.analyzePackage (Shipped.services Express.world) "express" "^4.21.0"
      Fixture.options = JS.fulfilled r
    /\ error r = None
    /\ security r = Some {| Shape.vulnerabilities := Some (JS.Int 0);
                            Shape.severity := Some "none" |}
    /\ score r = Some s /\ 27 <= s <= 100
    /\ grade r = Some (Score.calculateGrade s)
    /\ grade r <> Some "F".
Proof.
  apply (found_package_is_never_F Express.world "express" "^4.21.0" Fixture.options
           Express.express).
  reflexivity.
Defined.

Lemma buildOutput_worst_first_witness :
  let out := JsonReporter.buildOutput "2026-11-02T12:00:00.000Z" Express.results
               Express.options in
  StronglySorted score_le (JsonReporter.dependencies out)
  /\ JsonReporter.totalDependencies out
     = Z.of_nat (List.length (reported Express.results Express.options))
  /\ exists omitted : list JsonReporter.Entry.t,
       Permutation (reported Express.results Express.options)
                   (JsonReporter.dependencies out ++ omitted)
       /\ (forall k o, In k (JsonReporter.dependencies out) -> In o omitted ->
                       score_le k o)
       /\ (omitted = []
           \/ exists z, JsonReporter.limit Express.options = Some (JS.Int z)
                        /\ 0 < z
                        /\ Z.of_nat (List.length (JsonReporter.dependencies out)) = z).
Proof.
  apply (buildOutput_worst_first "2026-11-02T12:00:00.000Z" Express.results
           Express.options).
  - repeat constructor; discriminate.
  - repeat constructor; discriminate.
Defined.

Lemma buildSummary_counts_witness :
  let s := JsonReporter.buildSummary
             (Index.Project.dependencies Express.results)
             (Index.Project.devDependencies Express.results) Express.options in
  let n := JsonReporter.productionCount s + JsonReporter.devCount s in
  graded (JsonReporter.grades s) = n
  /\ n = 2 + 1
  /\ 0 <= JsonReporter.abandonedCount s <= n
  /\ 0 <= JsonReporter.vulnerableCount s <= n.
Proof.
  apply (buildSummary_counts (Index.Project.dependencies Express.results)
           (Index.Project.devDependencies Express.results) Express.options).
  - repeat constructor; try discriminate;
      eexists; (split; [reflexivity|]); (split; [lia|reflexivity]).
  - repeat constructor; try discriminate;
      eexists; (split; [reflexivity|]); (split; [lia|reflexivity]).
Defined.

Lemma buildOutput_ties_keep_order_witness :
  exists sorted : list JsonReporter.Entry.t,
    JsonReporter.dependencies
      (JsonReporter.buildOutput "2026-11-02T12:00:00.000Z" Express.results
         Express.options)
    = JsonReporter.limited (JsonReporter.limit Express.options) sorted
    /\ Permutation (reported Express.results Express.options) sorted
    /\ forall s : Z,
         filter (has_score s) sorted
         = filter (has_score s) (reported Express.results Express.options).
Proof.
  apply (buildOutput_ties_keep_order "2026-11-02T12:00:00.000Z" Express.results
           Express.options).
  - repeat constructor; discriminate.
  - repeat constructor; discriminate.
Defined.
